(** * Mimir continuous test: write/read series checker and query retry middleware

    A shallow embedding of
    - [pkg/continuoustest/util.go] (generators, [verifySamplesSum],
      [compareSampleValues], time helpers),
    - [pkg/continuoustest/write_read_series.go] ([MetricHistory],
      [recoverPast], [writeSamples], [getQueryTimeRanges],
      [findPreviouslyWrittenTimeRange], the write loop of [RunInner]),
    - [pkg/frontend/querymiddleware/retry.go] ([retry.Do]),
    followed by the properties proved about them.

    Conventions.
    - Go [int64] values are [Z]; every place where Go's arithmetic can wrap
      applies [wrap64] (or [wrapU64]) explicitly.
    - Go [float64] values are Rocq's primitive binary64 floats, so the
      rounding of every operation is the one the program sees.
    - A [time.Time] is the number of nanoseconds since Go's zero time
      (January 1, year 1, 00:00:00 UTC), read in UTC and without a monotonic
      clock reading.  Go keeps whole seconds in an [int64]; every instant the
      program builds from an [int64] millisecond timestamp and a few
      durations stays far inside that range, so instants are plain [Z].
    - Remote calls are oracles passed as arguments: a function from the
      request to the response, or from the call number to the response. *)

From Stdlib Require Import String ZArith List Bool Lia Floats.
From Stdlib Require DecimalString DecimalZ.
Import ListNotations.

#[local] Set Warnings "-inexact-float".
#[local] Open Scope Z_scope.

(** ** Go integers *)

Module GoInt.

Definition min_int64 : Z := - 2 ^ 63.
Definition max_int64 : Z := 2 ^ 63 - 1.

Definition in_int64 (z : Z) : Prop := min_int64 <= z <= max_int64.

(** Two's complement wrap-around of 64-bit signed arithmetic. *)
Definition wrap64 (z : Z) : Z := (z + 2 ^ 63) mod 2 ^ 64 - 2 ^ 63.

(** Conversion of an [int64] to [uint64]. *)
Definition wrapU64 (z : Z) : Z := z mod 2 ^ 64.

(** [float64(x)] for an [int64] [x]: round to nearest, ties to even. *)
Definition float64_of_int64 (z : Z) : float :=
  if z =? min_int64 then PrimFloat.opp (Z.ldexp PrimFloat.one 63)
  else if z <? 0 then PrimFloat.opp (PrimFloat.of_uint63 (Uint63.of_Z (- z)))
  else PrimFloat.of_uint63 (Uint63.of_Z z).

End GoInt.

(** ** Package [time] *)

Module GoTime.

Definition Time : Type := Z.
Definition Duration : Type := Z.

Definition Nanosecond : Duration := 1.
Definition Millisecond : Duration := 1000000.
Definition Second : Duration := 1000000000.
Definition Minute : Duration := 60 * Second.
Definition Hour : Duration := 60 * Minute.

(** Seconds from January 1, year 1 to January 1, 1970. *)
Definition unixToInternal : Z := 62135596800.

(** [time.Time{}] *)
Definition zero : Time := 0.

Definition IsZero (t : Time) : bool := t =? 0.
Definition Add (t : Time) (d : Duration) : Time := t + d.
Definition Before (t u : Time) : bool := t <? u.
Definition After (t u : Time) : bool := u <? t.
Definition Equal (t u : Time) : bool := t =? u.

(** [t.Truncate(d)]: round down to a multiple of [d] since the zero time;
    [t] itself when [d <= 0]. *)
Definition Truncate (t : Time) (d : Duration) : Time :=
  if d <=? 0 then t else t - t mod d.

(** [t.Unix()] *)
Definition Unix (t : Time) : Z := t / Second - unixToInternal.

(** [t.UnixMilli()], an [int64]. *)
Definition UnixMilli (t : Time) : Z :=
  GoInt.wrap64 ((t - unixToInternal * Second) / Millisecond).

(** [time.Unix(sec, 0)] *)
Definition FromUnix (sec : Z) : Time := (sec + unixToInternal) * Second.

(** [time.UnixMilli(msec)]; also [model.Time(msec).Time()]. *)
Definition FromUnixMilli (msec : Z) : Time :=
  msec * Millisecond + unixToInternal * Second.

(** [t.Minute()] in UTC. *)
Definition MinuteOf (t : Time) : Z := (t / Minute) mod 60.

End GoTime.

Import GoTime.

(** ** Package [github.com/pkg/errors]

    Only the shape of an error matters here: a cause, possibly wrapped with
    messages.  [Wrap] and [Wrapf] return [nil] when given [nil]. *)

Module Errors.

Inductive error : Type :=
| New (msg : string)
| Wrapped (msg : string) (cause : error).

Definition Wrap (err : option error) (msg : string) : option error :=
  match err with
  | None => None
  | Some e => Some (Wrapped msg e)
  end.

Definition Wrapf (err : option error) (msg : string) (arg : Z) : option error :=
  Wrap err msg.

End Errors.

(** ** [pkg/continuoustest/util.go] *)

Definition maxComparisonDelta : float := 0.001%float.

(** *** Histogram generators *)

Record Span : Type := mkSpan { Offset : Z; Length : Z }.

Inductive CounterResetHint : Type :=
| UnknownCounterReset
| GaugeType.

(** [histogram.Histogram]: integer buckets, [Count] is a [uint64]. *)
Record Histogram : Type := mkHistogram {
  H_CounterResetHint : CounterResetHint;
  H_Schema : Z;
  H_ZeroThreshold : float;
  H_ZeroCount : Z;
  H_Count : Z;
  H_Sum : float;
  H_PositiveSpans : list Span;
  H_NegativeSpans : list Span;
  H_PositiveBuckets : list Z;
  H_NegativeBuckets : list Z
}.

(** [histogram.FloatHistogram] *)
Record FloatHistogram : Type := mkFloatHistogram {
  FH_CounterResetHint : CounterResetHint;
  FH_Schema : Z;
  FH_ZeroThreshold : float;
  FH_ZeroCount : float;
  FH_Count : float;
  FH_Sum : float;
  FH_PositiveSpans : list Span;
  FH_NegativeSpans : list Span;
  FH_PositiveBuckets : list float;
  FH_NegativeBuckets : list float
}.

Definition histogramSpans : list Span :=
  [mkSpan 0 1; mkSpan 3 1; mkSpan 2 2].

Definition generatePosIntHistogram (value : Z) : Histogram :=
  {| H_CounterResetHint := UnknownCounterReset;
     H_Schema := 2;
     H_ZeroThreshold := 0.001%float;
     H_ZeroCount := 0;
     H_Count := GoInt.wrapU64 (GoInt.wrap64 (value * 4));
     H_Sum := GoInt.float64_of_int64 (GoInt.wrap64 (value * 10));
     H_PositiveSpans := histogramSpans;
     H_NegativeSpans := histogramSpans;
     H_PositiveBuckets := [value; 0; 0; 0];
     H_NegativeBuckets := [0; 0; 0; 0] |}.

Definition generateNegIntHistogram (value : Z) : Histogram :=
  {| H_CounterResetHint := UnknownCounterReset;
     H_Schema := 2;
     H_ZeroThreshold := 0.001%float;
     H_ZeroCount := 0;
     H_Count := GoInt.wrapU64 (GoInt.wrap64 (value * 4));
     H_Sum := GoInt.float64_of_int64 (GoInt.wrap64 (value * -10));
     H_PositiveSpans := histogramSpans;
     H_NegativeSpans := histogramSpans;
     H_PositiveBuckets := [0; 0; 0; 0];
     H_NegativeBuckets := [value; 0; 0; 0] |}.

Definition generatePosFloatHistogram (value : float) : FloatHistogram :=
  {| FH_CounterResetHint := UnknownCounterReset;
     FH_Schema := 2;
     FH_ZeroThreshold := 0.001%float;
     FH_ZeroCount := 0%float;
     FH_Count := (value * 4)%float;
     FH_Sum := (value * 10)%float;
     FH_PositiveSpans := histogramSpans;
     FH_NegativeSpans := histogramSpans;
     FH_PositiveBuckets := [value; value; value; value];
     FH_NegativeBuckets := [0; 0; 0; 0]%float |}.

Definition generateNegFloatHistogram (value : float) : FloatHistogram :=
  {| FH_CounterResetHint := UnknownCounterReset;
     FH_Schema := 2;
     FH_ZeroThreshold := 0.001%float;
     FH_ZeroCount := 0%float;
     FH_Count := (value * 4)%float;
     FH_Sum := (value * -10)%float;
     FH_PositiveSpans := histogramSpans;
     FH_NegativeSpans := histogramSpans;
     FH_PositiveBuckets := [0; 0; 0; 0]%float;
     FH_NegativeBuckets := [value; value; value; value] |}.

Definition setIntGauge (gauge : bool) (h : Histogram) : Histogram :=
  if gauge then
    {| H_CounterResetHint := GaugeType;
       H_Schema := H_Schema h;
       H_ZeroThreshold := H_ZeroThreshold h;
       H_ZeroCount := H_ZeroCount h;
       H_Count := H_Count h;
       H_Sum := H_Sum h;
       H_PositiveSpans := H_PositiveSpans h;
       H_NegativeSpans := H_NegativeSpans h;
       H_PositiveBuckets := H_PositiveBuckets h;
       H_NegativeBuckets := H_NegativeBuckets h |}
  else h.

Definition setFloatGauge (gauge : bool) (h : FloatHistogram) : FloatHistogram :=
  if gauge then
    {| FH_CounterResetHint := GaugeType;
       FH_Schema := FH_Schema h;
       FH_ZeroThreshold := FH_ZeroThreshold h;
       FH_ZeroCount := FH_ZeroCount h;
       FH_Count := FH_Count h;
       FH_Sum := FH_Sum h;
       FH_PositiveSpans := FH_PositiveSpans h;
       FH_NegativeSpans := FH_NegativeSpans h;
       FH_PositiveBuckets := FH_PositiveBuckets h;
       FH_NegativeBuckets := FH_NegativeBuckets h |}
  else h.

Definition generateIntHistogram (value : Z) (gauge : bool) : Histogram :=
  setIntGauge gauge
    (if 0 <=? value then generatePosIntHistogram value
     else generateNegIntHistogram (GoInt.wrap64 (- value))).

Definition generateFloatHistogram (value : float) (gauge : bool) : FloatHistogram :=
  setFloatGauge gauge
    (if (0 <=? value)%float then generatePosFloatHistogram value
     else generateNegFloatHistogram (- value)%float).

Definition generateHistogramIntValue (t : Time) (gauge : bool) : Z :=
  let v := Unix t in
  if gauge && (MinuteOf t mod 2 =? 0) then GoInt.wrap64 (- v) else v.

Definition generateHistogramFloatValue (t : Time) (gauge : bool) : float :=
  let v := (GoInt.float64_of_int64 (Unix t) / 500000)%float in
  if gauge && (MinuteOf t mod 2 =? 0) then (- v)%float else v.

Definition generateExpHistogramIntValue (t : Time) (gauge : bool) : float :=
  (GoInt.float64_of_int64 (generateHistogramIntValue t gauge) * 10)%float.

Definition generateExpHistogramFloatValue (t : Time) (gauge : bool) : float :=
  (generateHistogramFloatValue t gauge * 10)%float.

(** The four histogram profiles.  A profile's [generateHistogram] also
    converts the histogram to its remote-write form
    ([remote.HistogramToHistogramProto]), which copies the fields; the
    histogram is kept here as generated. *)

Inductive GeneratedHistogram : Type :=
| IntHist (h : Histogram)
| FloatHist (h : FloatHistogram).

Definition histogramSum (g : GeneratedHistogram) : float :=
  match g with
  | IntHist h => H_Sum h
  | FloatHist h => FH_Sum h
  end.

Record histogramProfile : Type := mkProfile {
  metricName : string;
  typeLabel : string;
  generateHistogram : Time -> GeneratedHistogram;
  generateValue : Time -> float
}.

Definition histogramProfiles : list histogramProfile :=
  [ mkProfile "mimir_continuous_test_histogram_int_counter" "histogram_int_counter"
      (fun t => IntHist (generateIntHistogram (generateHistogramIntValue t false) false))
      (fun t => generateExpHistogramIntValue t false);
    mkProfile "mimir_continuous_test_histogram_float_counter" "histogram_float_counter"
      (fun t => FloatHist (generateFloatHistogram (generateHistogramFloatValue t false) false))
      (fun t => generateExpHistogramFloatValue t false);
    mkProfile "mimir_continuous_test_histogram_int_gauge" "histogram_int_gauge"
      (fun t => IntHist (generateIntHistogram (generateHistogramIntValue t true) true))
      (fun t => generateExpHistogramIntValue t true);
    mkProfile "mimir_continuous_test_histogram_float_gauge" "histogram_float_gauge"
      (fun t => FloatHist (generateFloatHistogram (generateHistogramFloatValue t true) true))
      (fun t => generateExpHistogramFloatValue t true) ].

(** *** Time helpers *)

Definition alignTimestampToInterval (ts : Time) (interval : Duration) : Time :=
  Truncate ts interval.

Definition minTime (first second : Time) : Time :=
  if After first second then second else first.

Definition maxTime (first second : Time) : Time :=
  if After first second then first else second.

(** [randTime]: [rnd] stands for [rand.Int63n], which returns a number in
    [[0, n)] for [n > 0]; it is only called with [delta > 0]. *)
Definition randTime (rnd : Z -> Z) (min max : Time) : Time :=
  let delta := Unix max - Unix min in
  if delta <=? 0 then min
  else FromUnix (rnd delta + Unix min).

(** *** Query results ([model.Matrix]) *)

Record SamplePair : Type := mkSample {
  sp_Timestamp : Z;
  sp_Value : float
}.

Record SampleHistogram : Type := mkSampleHistogram {
  sh_Count : float;
  sh_Sum : float
}.

(** [Histogram] is a pointer and may be [nil]. *)
Record SampleHistogramPair : Type := mkHistogramPair {
  shp_Timestamp : Z;
  shp_Histogram : option SampleHistogram
}.

Record SampleStream : Type := mkStream {
  ss_Metric : list (string * string);
  ss_Values : list SamplePair;
  ss_Histograms : list SampleHistogramPair
}.

Definition Matrix : Type := list SampleStream.

(** *** The verifier *)

Definition compareSampleValues (actual expected : float) : bool :=
  let delta := PrimFloat.abs ((actual - expected) / maxComparisonDelta)%float in
  (delta <? maxComparisonDelta)%float.

(** The errors [verifySamplesSum] builds with [fmt.Errorf], by what they
    report. *)
Inductive VerifyError : Type :=
| ErrSeriesCount (got : nat)
| ErrFloatsAndHistograms
| ErrNoFloatsNoHistograms
| ErrNilHistogram
| ErrHistogramValue (timestamp : Z) (actual expected : float)
| ErrHistogramTimestamp (timestamp expectedTs nextTs : Z)
| ErrSampleValue (timestamp : Z) (actual expected : float)
| ErrSampleTimestamp (timestamp expectedTs nextTs : Z).

Section Verifier.

Variable expectedSeries : Z.
Variable expectedStep : Duration.
Variable generateValue : Time -> float.

Definition noSample : SamplePair := mkSample 0 0%float.
Definition noHistogram : SampleHistogramPair := mkHistogramPair 0 None.

(** The body of the loop over float samples at index [idx]: the error it
    returns with, if any. *)
Definition checkSample (samples : list SamplePair) (idx : nat) : option VerifyError :=
  let sample := nth idx samples noSample in
  let ts := FromUnixMilli (sp_Timestamp sample) in
  let expectedValue := (generateValue ts * GoInt.float64_of_int64 expectedSeries)%float in
  if negb (compareSampleValues (sp_Value sample) expectedValue) then
    Some (ErrSampleValue (sp_Timestamp sample) (sp_Value sample) expectedValue)
  else if (Z.of_nat idx <? Z.of_nat (length samples) - 1) then
    let nextTs := FromUnixMilli (sp_Timestamp (nth (S idx) samples noSample)) in
    let expectedTs := Add nextTs (- expectedStep) in
    if negb (UnixMilli ts =? UnixMilli expectedTs) then
      Some (ErrSampleTimestamp (sp_Timestamp sample) (UnixMilli expectedTs) (UnixMilli nextTs))
    else None
  else None.

(** The body of the loop over histograms at index [idx]. *)
Definition checkHistogram (histograms : list SampleHistogramPair) (idx : nat) : option VerifyError :=
  let histogram := nth idx histograms noHistogram in
  match shp_Histogram histogram with
  | None => Some ErrNilHistogram
  | Some h =>
    let ts := FromUnixMilli (shp_Timestamp histogram) in
    let expectedValue := (generateValue ts * GoInt.float64_of_int64 expectedSeries)%float in
    if negb (compareSampleValues (sh_Sum h) expectedValue) then
      Some (ErrHistogramValue (shp_Timestamp histogram) (sh_Sum h) expectedValue)
    else if (Z.of_nat idx <? Z.of_nat (length histograms) - 1) then
      let nextTs := FromUnixMilli (shp_Timestamp (nth (S idx) histograms noHistogram)) in
      let expectedTs := Add nextTs (- expectedStep) in
      if negb (UnixMilli ts =? UnixMilli expectedTs) then
        Some (ErrHistogramTimestamp (shp_Timestamp histogram) (UnixMilli expectedTs) (UnixMilli nextTs))
      else None
    else None
  end.

(** [for idx := n - 1; idx >= 0; idx--], with the index of the last match
    so far. *)
Fixpoint verifyLoop (check : nat -> option VerifyError) (n : nat) (lastMatchingIdx : Z)
  : Z * option VerifyError :=
  match n with
  | O => (lastMatchingIdx, None)
  | S idx =>
    match check idx with
    | Some err => (lastMatchingIdx, Some err)
    | None => verifyLoop check idx (Z.of_nat idx)
    end
  end.

Definition verifySamplesSum (matrix : Matrix) : Z * option VerifyError :=
  let lastMatchingIdx := -1 in
  match matrix with
  | [stream] =>
    let samples := ss_Values stream in
    let histograms := ss_Histograms stream in
    let haveSamples := (0 <? length samples)%nat in
    let haveHistograms := (0 <? length histograms)%nat in
    if haveSamples && haveHistograms then (lastMatchingIdx, Some ErrFloatsAndHistograms)
    else if negb haveSamples && negb haveHistograms then (lastMatchingIdx, Some ErrNoFloatsNoHistograms)
    else if haveHistograms then
      verifyLoop (checkHistogram histograms) (length histograms) lastMatchingIdx
    else
      verifyLoop (checkSample samples) (length samples) lastMatchingIdx
  | _ => (lastMatchingIdx, Some (ErrSeriesCount (length matrix)))
  end.

End Verifier.

(** ** [pkg/continuoustest/write_read_series.go] *)

Definition writeInterval : Duration := 20 * Second.
Definition writeMaxAge : Duration := 50 * Minute.

Record WriteReadSeriesTestConfig : Type := mkConfig {
  NumSeries : Z;
  MaxQueryAge : Duration;
  WithFloats : bool;
  WithHistograms : bool
}.

Record MetricHistory : Type := mkHistory {
  lastWrittenTimestamp : Time;
  queryMinTime : Time;
  queryMaxTime : Time
}.

(** The zero value of [MetricHistory], as [NewWriteReadSeriesTest] leaves
    it. *)
Definition emptyHistory : MetricHistory := mkHistory zero zero zero.

(** What [MimirClient.QueryRange] returns: a matrix, or an error. *)
Inductive QueryResult : Type :=
| QueryOk (matrix : Matrix)
| QueryErr (err : Errors.error).

Definition nextWriteTimestamp (now : Time) (records : MetricHistory) : Time :=
  if IsZero (lastWrittenTimestamp records) then
    alignTimestampToInterval now writeInterval
  else
    Add (lastWrittenTimestamp records) writeInterval.

(** [writeSamples], given what [client.WriteSeries] returned for the series
    of [timestamp].  The metric counters and log lines are left out. *)
Definition writeSamples (response : Z * option Errors.error) (timestamp : Time)
    (records : MetricHistory) : MetricHistory * option Errors.error :=
  let (statusCode, err) := response in
  if Z.quot statusCode 100 =? 4 then
    (mkHistory timestamp zero zero, None)
  else
    match err with
    | Some _ => (records, Errors.Wrap err "failed to remote write series")
    | None =>
      if negb (Z.quot statusCode 100 =? 2) then
        (records, Errors.Wrapf err "remote write series failed with status code %d" statusCode)
      else
        (mkHistory timestamp
           (if IsZero (queryMinTime records) then timestamp else queryMinTime records)
           timestamp,
         None)
    end.

(** How the write loop of [RunInner] was left. *)
Inductive LoopExit : Type :=
| LoopFinished
| LoopBroken
| LoopCanceled.

Record WriteLoopResult : Type := mkLoopResult {
  wl_records : MetricHistory;
  wl_errs : list Errors.error;
  wl_exit : LoopExit;
  wl_writes : nat
}.

Section WriteLoop.

(** [writeLimiter.WaitN] and [client.WriteSeries], by call number. *)
Variable WaitN : nat -> option Errors.error.
Variable WriteSeries : nat -> Time -> Z * option Errors.error.

(** The first loop of [RunInner]; [None] when [fuel] iterations did not
    reach the end of the loop. *)
Fixpoint writeLoop (fuel : nat) (call : nat) (now : Time) (records : MetricHistory)
    (errs : list Errors.error) : option WriteLoopResult :=
  match fuel with
  | O => None
  | S fuel' =>
    let timestamp := nextWriteTimestamp now records in
    if After timestamp now then Some (mkLoopResult records errs LoopFinished call)
    else
      match WaitN call with
      | Some err => Some (mkLoopResult records (errs ++ [err]) LoopCanceled call)
      | None =>
        match writeSamples (WriteSeries call timestamp) timestamp records with
        | (records', Some err) =>
          Some (mkLoopResult records' (errs ++ [err]) LoopBroken (S call))
        | (records', None) => writeLoop fuel' (S call) now records' errs
        end
      end
  end.

End WriteLoop.

Section QueryPlanner.

Variable cfg : WriteReadSeriesTestConfig.

(** The two draws of [rand.Int63n] made by the two calls of [randTime]. *)
Variable rnd1 rnd2 : Z -> Z.

Definition getQueryTimeRanges (now : Time) (records : MetricHistory)
  : list (Time * Time) * list Time * option Errors.error :=
  if IsZero (queryMinTime records) || IsZero (queryMaxTime records) then
    ([], [], Some (Errors.New "no valid time range to query"))
  else
    let adjustedQueryMinTime := maxTime (queryMinTime records) (Add now (- MaxQueryAge cfg)) in
    if Before (queryMaxTime records) adjustedQueryMinTime then
      ([], [], Some (Errors.New "no valid time range to query after honoring configured max query age"))
    else
      let ranges := [] in
      let instants := [] in
      (* Last 1h. *)
      let '(ranges, instants) :=
        if After (queryMaxTime records) (Add now (-1 * Hour)) then
          (ranges ++ [(maxTime adjustedQueryMinTime (Add now (-1 * Hour)),
                       minTime (queryMaxTime records) now)],
           instants ++ [minTime (queryMaxTime records) now])
        else (ranges, instants) in
      (* Last 24h (only if the actual time range is not already covered by "Last 1h"). *)
      let '(ranges, instants) :=
        if After (queryMaxTime records) (Add now (-24 * Hour))
           && Before adjustedQueryMinTime (Add now (-1 * Hour)) then
          (ranges ++ [(maxTime adjustedQueryMinTime (Add now (-24 * Hour)),
                       minTime (queryMaxTime records) now)],
           instants ++ [maxTime adjustedQueryMinTime (Add now (-24 * Hour))])
        else (ranges, instants) in
      (* From last 23h to last 24h. *)
      let ranges :=
        if Before adjustedQueryMinTime (Add now (-23 * Hour))
           && After (queryMaxTime records) (Add now (-23 * Hour)) then
          ranges ++ [(maxTime adjustedQueryMinTime (Add now (-24 * Hour)),
                      minTime (queryMaxTime records) (Add now (-23 * Hour)))]
        else ranges in
      (* A random time range. *)
      let randMinTime := randTime rnd1 adjustedQueryMinTime (queryMaxTime records) in
      let ranges := ranges ++ [(randMinTime, randTime rnd2 randMinTime (queryMaxTime records))] in
      let instants := instants ++ [randMinTime] in
      (ranges, instants, None).

End QueryPlanner.

Section Recovery.

Variable cfg : WriteReadSeriesTestConfig.

(** [client.QueryRange(ctx, query, start, end, step, ...)] for the profile's
    sum query. *)
Variable QueryRange : Time -> Time -> Duration -> QueryResult.
Variable generateValue : Time -> float.

(** The loop of [findPreviouslyWrittenTimeRange]; [None] when [fuel]
    iterations did not reach a [return]. *)
Fixpoint findLoop (fuel : nat) (now : Time) (endT : Time)
    (samples : list SamplePair) (histograms : list SampleHistogramPair)
    (from to : Time) : option (Time * Time) :=
  match fuel with
  | O => None
  | S fuel' =>
    let step := writeInterval in
    let start :=
      alignTimestampToInterval
        (maxTime (Add now (- MaxQueryAge cfg)) (Add (Add endT (-24 * Hour)) step))
        writeInterval in
    if negb (Before start endT) then Some (from, to)
    else
      match QueryRange start endT step with
      | QueryErr _ => Some (from, to)
      | QueryOk [] => Some (from, to)
      | QueryOk [stream] =>
        let samples := ss_Values stream ++ samples in
        let histograms := ss_Histograms stream ++ histograms in
        let endT := Add start (- step) in
        let useHistograms : option bool :=
          if (0 <? length samples)%nat && (length histograms =? 0)%nat then Some false
          else if (0 <? length histograms)%nat && (length samples =? 0)%nat then Some true
          else None in
        match useHistograms with
        | None => Some (from, to)
        | Some useHistograms =>
          let fullMatrix :=
            if useHistograms then [mkStream [] [] histograms]
            else [mkStream [] samples []] in
          let (lastMatchingIdx, _) :=
            verifySamplesSum (NumSeries cfg) step generateValue fullMatrix in
          if lastMatchingIdx =? -1 then Some (from, to)
          else
            let from :=
              if useHistograms then
                FromUnixMilli (shp_Timestamp (nth (Z.to_nat lastMatchingIdx) histograms noHistogram))
              else
                FromUnixMilli (sp_Timestamp (nth (Z.to_nat lastMatchingIdx) samples noSample)) in
            let to :=
              if useHistograms then
                FromUnixMilli (shp_Timestamp (nth (length histograms - 1) histograms noHistogram))
              else
                FromUnixMilli (sp_Timestamp (nth (length samples - 1) samples noSample)) in
            if negb (lastMatchingIdx =? 0)
               || (negb useHistograms
                   && negb (Equal (FromUnixMilli (sp_Timestamp (nth 0 samples noSample))) start))
               || (useHistograms
                   && negb (Equal (FromUnixMilli (shp_Timestamp (nth 0 histograms noHistogram))) start))
            then Some (from, to)
            else findLoop fuel' now endT samples histograms from to
        end
      | QueryOk _ => Some (from, to)
      end
  end.

(** The oldest instant the scan may query. *)
Definition scanFloor (now : Time) : Time :=
  alignTimestampToInterval (Add now (- MaxQueryAge cfg)) writeInterval.

(** Iterations that are always enough: every iteration moves [end] back by
    more than one step, and never below [scanFloor]. *)
Definition scanFuel (now : Time) : nat :=
  Z.to_nat ((alignTimestampToInterval now writeInterval - scanFloor now) / writeInterval) + 2.

Definition findPreviouslyWrittenTimeRange (now : Time) : Time * Time :=
  match
    findLoop (scanFuel now) now (alignTimestampToInterval now writeInterval) [] [] zero zero
  with
  | Some range => range
  | None => (zero, zero)
  end.

Definition recoverPast (now : Time) (records : MetricHistory)
  : MetricHistory * option Errors.error :=
  let (from, to) := findPreviouslyWrittenTimeRange now in
  if IsZero from || IsZero to then (records, None)
  else if Before to (Add now (- writeMaxAge)) then (records, None)
  else (mkHistory to from to, None).

End Recovery.

(** ** [pkg/frontend/querymiddleware/retry.go] *)

Module Retry.

Section Do.

(** Errors and responses of the wrapped handler, with the three ways
    [Do] inspects an error: [apierror.IsAPIError], [errors.Is(err,
    context.Canceled)] and [httpgrpc.HTTPResponseFromError] (the response's
    status code, when the error carries an HTTP response). *)
Variable E Response : Type.
Variable IsAPIError : E -> bool.
Variable IsCanceled : E -> bool.
Variable HTTPResponseFromError : E -> option Z.

(** [ctx.Err()] when iteration [tries] starts, and what [r.next.Do] returns
    on call number [tries]. *)
Variable ctxErr : nat -> option E.
Variable next : nat -> Response + E.

Record DoResult : Type := mkDoResult {
  do_resp : option Response;
  do_err : option E;
  do_tries : nat;
  do_calls : nat
}.

(** The error is one the loop retries after. *)
Definition retryable (err : E) : bool :=
  negb (IsAPIError err || IsCanceled err)
  && match HTTPResponseFromError err with
     | None => true
     | Some code => Z.quot code 100 =? 5
     end.

(** [for ; tries < r.maxRetries; tries++], with [remaining = maxRetries -
    tries].  [do_tries] is the value of [tries] the deferred [Observe]
    sees; [do_calls] counts the calls of [r.next.Do]. *)
Fixpoint DoLoop (remaining : nat) (tries : nat) (lastErr : option E) : DoResult :=
  match remaining with
  | O => mkDoResult None lastErr tries tries
  | S remaining' =>
    match ctxErr tries with
    | Some err => mkDoResult None (Some err) tries tries
    | None =>
      match next tries with
      | inl resp => mkDoResult (Some resp) None tries (S tries)
      | inr err =>
        if IsAPIError err || IsCanceled err then
          mkDoResult None (Some err) tries (S tries)
        else
          match HTTPResponseFromError err with
          | None => DoLoop remaining' (S tries) (Some err)
          | Some code =>
            if Z.quot code 100 =? 5 then DoLoop remaining' (S tries) (Some err)
            else mkDoResult None (Some err) tries (S tries)
          end
      end
    end
  end.

Definition Do (maxRetries : Z) : DoResult :=
  DoLoop (Z.to_nat maxRetries) 0 None.

(** Attempts [from], ..., [from + n - 1] all ran (the context was live) and
    all failed with an error the loop retries after. *)
Definition retriedThrough (from n : nat) : Prop :=
  forall i, (from <= i < from + n)%nat ->
    ctxErr i = None /\ exists err, next i = inr err /\ retryable err = true.

End Do.

End Retry.

(** ** A simulated store

    Modelled from the spec: the remote store behind [MimirClient.QueryRange]
    (the client and the store are not part of the sources).  The store holds
    one aggregated series, a list of points ordered by timestamp; a range
    query returns the points on the query's steps between [start] and
    [end], as one series of floats or of histograms, and no series at all
    when there is no such point. *)

Definition toHistogramPair (p : SamplePair) : SampleHistogramPair :=
  mkHistogramPair (sp_Timestamp p) (Some (mkSampleHistogram 0%float (sp_Value p))).

Definition streamOf (asHistograms : bool) (points : list SamplePair) : SampleStream :=
  if asHistograms then mkStream [] [] (map toHistogramPair points)
  else mkStream [] points [].

Definition inWindow (start endT : Time) (step : Duration) (p : SamplePair) : bool :=
  let t := FromUnixMilli (sp_Timestamp p) in
  (start <=? t) && (t <=? endT) && ((t - start) mod step =? 0).

Definition storeQueryRange (asHistograms : bool) (data : list SamplePair)
    (start endT : Time) (step : Duration) : QueryResult :=
  match filter (inWindow start endT step) data with
  | [] => QueryOk []
  | points => QueryOk [streamOf asHistograms points]
  end.

(** The write interval in milliseconds, the unit of sample timestamps. *)
Definition writeIntervalMillis : Z := Eval cbv in writeInterval / Millisecond.

(** [n] points one write interval apart, the first at millisecond [t],
    valued by [value]. *)
Fixpoint evenlySpaced (value : Z -> float) (t : Z) (n : nat) : list SamplePair :=
  match n with
  | O => []
  | S n' => mkSample t (value t) :: evenlySpaced value (t + writeIntervalMillis) n'
  end.

(** The points are one write interval apart, the first at millisecond [t]. *)
Fixpoint spacedFrom (t : Z) (points : list SamplePair) : bool :=
  match points with
  | [] => true
  | p :: rest => (sp_Timestamp p =? t) && spacedFrom (t + writeIntervalMillis) rest
  end.

(** The point carries the value expected at its timestamp, as the verifier
    compares it. *)
Definition valueOk (expectedSeries : Z) (generateValue : Time -> float)
    (p : SamplePair) : bool :=
  compareSampleValues (sp_Value p)
    (generateValue (FromUnixMilli (sp_Timestamp p))
     * GoInt.float64_of_int64 expectedSeries)%float.

(** ** Well-formed responses and reachable histories *)

(** A sample timestamp is an [int64] from which one write interval can be
    subtracted without wrapping around. *)
Definition timestampOk (msec : Z) : bool :=
  (GoInt.min_int64 + writeIntervalMillis <=? msec) && (msec <=? GoInt.max_int64).

Definition streamOk (stream : SampleStream) : bool :=
  forallb (fun p => timestampOk (sp_Timestamp p)) (ss_Values stream)
  && forallb (fun p => timestampOk (shp_Timestamp p)) (ss_Histograms stream).

Definition clientOk (QueryRange : Time -> Time -> Duration -> QueryResult) : Prop :=
  forall start endT step matrix,
    QueryRange start endT step = QueryOk matrix -> forallb streamOk matrix = true.

(** The clock reads later than the first [writeMaxAge] of year 1. *)
Definition clockOk (now : Time) : Prop := writeMaxAge < now.

(** [recoverPast] takes over the range the scan found. *)
Definition recovers (cfg : WriteReadSeriesTestConfig)
    (QueryRange : Time -> Time -> Duration -> QueryResult)
    (generateValue : Time -> float) (now : Time) : bool :=
  let (from, to) := findPreviouslyWrittenTimeRange cfg QueryRange generateValue now in
  negb (IsZero from || IsZero to) && negb (Before to (Add now (- writeMaxAge))).

(** The write request succeeded. *)
Definition succeeded (response : Z * option Errors.error) : bool :=
  match response with
  | (statusCode, None) => Z.quot statusCode 100 =? 2
  | (statusCode, Some _) => false
  end.

(** The histories a profile can be in, with whether verified data has been
    written or recovered so far: [Init] runs [recoverPast], and every write
    of [RunInner] is a [writeSamples] at [nextWriteTimestamp]. *)
Inductive reachable : MetricHistory -> bool -> Prop :=
| reach_new : reachable emptyHistory false
| reach_recoverPast cfg QueryRange generateValue now records written :
    reachable records written ->
    clientOk QueryRange -> clockOk now ->
    reachable (fst (recoverPast cfg QueryRange generateValue now records))
              (written || recovers cfg QueryRange generateValue now)
| reach_writeSamples response now records written :
    reachable records written ->
    clockOk now ->
    reachable (fst (writeSamples response (nextWriteTimestamp now records) records))
              (written || succeeded response).

(** ** Concrete scenarios used below *)

Module Scenario.

(** 2024-01-01T00:00:07Z. *)
Definition now : Time := FromUnix 1704067207.

(** The int-counter histogram profile, one series. *)
Definition expected (t : Time) : float := generateExpHistogramIntValue t false.

Definition stored (msec : Z) : float :=
  (expected (FromUnixMilli msec) * GoInt.float64_of_int64 1)%float.

(** Three hours of history, 541 points from 20:55:00 to 23:55:00 of the
    day before, and nothing else in the store. *)
Definition newest : Z := 1704066900000.
Definition oldest : Z := newest - 3 * 3600 * 1000.
Definition threeHours : list SamplePair := evenlySpaced stored oldest 541.


(** One point two write intervals before the three hours: the interval
    between them is missing. *)
Definition beforeGap : list SamplePair :=
  [mkSample (oldest - 2 * writeIntervalMillis) (stored (oldest - 2 * writeIntervalMillis))].

Definition cfgWeek : WriteReadSeriesTestConfig := mkConfig 1 (7 * 24 * Hour) false true.
Definition cfgHour : WriteReadSeriesTestConfig := mkConfig 1 (1 * Hour) false true.

(** A random source that always draws 0. *)
Definition draw0 (n : Z) : Z := 0.

(** A run: the three hours are recovered at [now], then one write succeeds
    and the next one is refused with a 400. *)
Definition recovered : MetricHistory :=
  fst (recoverPast cfgWeek (storeQueryRange true threeHours) expected now emptyHistory).

Definition written : MetricHistory :=
  fst (writeSamples (200, None) (nextWriteTimestamp now recovered) recovered).

Definition refused : MetricHistory :=
  fst (writeSamples (400, Some (Errors.New "bad request"))
         (nextWriteTimestamp now written) written).

(** The errors of the retry middleware's tests: an HTTP 400, an HTTP 500
    and an error that carries no HTTP response. *)
Inductive handlerError : Type :=
| BadRequest
| InternalServerError
| Failure.

Definition statusOf (err : handlerError) : option Z :=
  match err with
  | BadRequest => Some 400
  | InternalServerError => Some 500
  | Failure => None
  end.

Definition notAPIError (err : handlerError) : bool := false.
Definition notCanceled (err : handlerError) : bool := false.
Definition liveContext (tries : nat) : option handlerError := None.
Definition always500 (tries : nat) : unit + handlerError := inr InternalServerError.

End Scenario.

(** ** More of [pkg/continuoustest/util.go] *)

(** [t.Sub(u)]: the difference, saturated at the bounds of [Duration]. *)
Definition timeSub (t u : Time) : Duration :=
  Z.max GoInt.min_int64 (Z.min GoInt.max_int64 (t - u)).

(** [t.UnixNano()], an [int64]. *)
Definition timeUnixNano (t : Time) : Z :=
  GoInt.wrap64 (t - unixToInternal * Second).

(** Go's [/] on [int64]: the quotient truncated toward zero.  A zero divisor
    makes the Go program panic; the callers divide by [alignInterval], which
    is always [writeInterval], and by the constant [maxSamples]. *)
Definition div64 (a b : Z) : Z := GoInt.wrap64 (Z.quot a b).

Definition maxSamples : Z := 1000.

Definition getQueryStep (start endT : Time) (alignInterval : Duration) : Duration :=
  let actualSamples := div64 (timeSub endT start) alignInterval in
  if actualSamples <=? maxSamples then alignInterval
  else
    let step := div64 (timeSub endT start) maxSamples in
    GoInt.wrap64 (GoInt.wrap64 (div64 step alignInterval + 1) * alignInterval).

(** [strconv.Itoa] *)
Definition Itoa (i : Z) : string :=
  DecimalString.NilZero.string_of_int (Z.to_int i).

(** [prompb.TimeSeries], with the histograms of type [H]. *)
Record TimeSeries (H : Type) : Type := mkTimeSeries {
  ts_Labels : list (string * string);
  ts_Samples : list (float * Z);
  ts_Histograms : list H
}.

Arguments mkTimeSeries {H} _ _ _.
Arguments ts_Labels {H} _.
Arguments ts_Samples {H} _.
Arguments ts_Histograms {H} _.

Definition seriesLabels (name : string) (i : Z) : list (string * string) :=
  [("__name__"%string, name); ("series_id"%string, Itoa i)].

(** [for i := 0; i < numSeries; i++ { out = append(out, series i) }], with
    [count] iterations left. *)
Fixpoint appendSeries {H : Type} (series : Z -> TimeSeries H) (count : nat) (i : Z)
    (out : list (TimeSeries H)) : list (TimeSeries H) :=
  match count with
  | O => out
  | S count' => appendSeries series count' (i + 1) (out ++ [series i])
  end.

Section Series.

(** [math.Sin] *)
Variable math_Sin : float -> float.

Definition generateSineWaveValue (t : Time) : float :=
  let period := 10 * Minute in
  let radians :=
    (0x1.921fb54442d18p+2 * GoInt.float64_of_int64 (timeUnixNano t)
     / GoInt.float64_of_int64 period)%float in
  math_Sin radians.

(** [None]: [make] panics on a negative capacity. *)
Definition generateSineWaveSeries (name : string) (t : Time) (numSeries : Z)
  : option (list (TimeSeries GeneratedHistogram)) :=
  if numSeries <? 0 then None
  else
    let value := generateSineWaveValue t in
    let ts := UnixMilli t in
    Some (appendSeries
            (fun i => mkTimeSeries (seriesLabels name i) [(value, ts)] [])
            (Z.to_nat numSeries) 0 []).

End Series.

Definition generateHistogramSeriesInner {H : Type} (name : string) (t : Time)
    (numSeries : Z) (histogramGenerator : Time -> H) : option (list (TimeSeries H)) :=
  if numSeries <? 0 then None
  else
    Some (appendSeries
            (fun i => mkTimeSeries (seriesLabels name i) [] [histogramGenerator t])
            (Z.to_nat numSeries) 0 []).

(** ** More of [pkg/continuoustest/write_read_series.go] *)

(** An entry of a [model.Vector]; [Histogram] is a pointer and may be
    [nil]. *)
Record VectorSample : Type := mkVectorSample {
  vs_Metric : list (string * string);
  vs_Value : float;
  vs_Timestamp : Z;
  vs_Histogram : option SampleHistogram
}.

Definition Vector : Type := list VectorSample.

(** What [MimirClient.Query] returns. *)
Inductive VectorResult : Type :=
| VectorOk (vector : Vector)
| VectorErr (err : Errors.error).

(** The errors a test run collects: an error of the client or of the rate
    limiter, possibly wrapped, or the verifier's error wrapped with a
    message. *)
Inductive TestError : Type :=
| PlainError (err : Errors.error)
| CheckError (msg : string) (cause : VerifyError).

(** The calls of the query client, as sent. *)
Inductive QueryCall : Type :=
| RangeCall (start endT : Time) (step : Duration) (resultsCacheEnabled : bool)
| InstantCall (ts : Time) (resultsCacheEnabled : bool).

(** The query counters of [TestMetrics], for one series type. *)
Record QueryMetrics : Type := mkQueryMetrics {
  queriesTotal : nat;
  queriesFailedTotal : nat;
  queryResultChecksTotal : nat;
  queryResultChecksFailedTotal : nat
}.

(** The counters and the calls sent so far. *)
Record QueryState : Type := mkQueryState {
  qs_metrics : QueryMetrics;
  qs_calls : list QueryCall
}.

Definition noQueries : QueryState := mkQueryState (mkQueryMetrics 0 0 0 0) [].

Definition countQuery (call : QueryCall) (st : QueryState) : QueryState :=
  let m := qs_metrics st in
  mkQueryState
    (mkQueryMetrics (S (queriesTotal m)) (queriesFailedTotal m)
       (queryResultChecksTotal m) (queryResultChecksFailedTotal m))
    (qs_calls st ++ [call]).

Definition countQueryFailed (st : QueryState) : QueryState :=
  let m := qs_metrics st in
  mkQueryState
    (mkQueryMetrics (queriesTotal m) (S (queriesFailedTotal m))
       (queryResultChecksTotal m) (queryResultChecksFailedTotal m))
    (qs_calls st).

Definition countCheck (st : QueryState) : QueryState :=
  let m := qs_metrics st in
  mkQueryState
    (mkQueryMetrics (queriesTotal m) (queriesFailedTotal m)
       (S (queryResultChecksTotal m)) (queryResultChecksFailedTotal m))
    (qs_calls st).

Definition countCheckFailed (st : QueryState) : QueryState :=
  let m := qs_metrics st in
  mkQueryState
    (mkQueryMetrics (queriesTotal m) (queriesFailedTotal m)
       (queryResultChecksTotal m) (S (queryResultChecksFailedTotal m)))
    (qs_calls st).

(** The conversion of a vector to a matrix in
    [runInstantQueryAndVerifyResult]. *)
Definition vectorToMatrix (vector : Vector) : Matrix :=
  map (fun entry =>
         match vs_Histogram entry with
         | None =>
           mkStream (vs_Metric entry) [mkSample (vs_Timestamp entry) (vs_Value entry)] []
         | Some h =>
           mkStream (vs_Metric entry) [] [mkHistogramPair (vs_Timestamp entry) (Some h)]
         end)
      vector.

(** [errs.Add(err)]: a [nil] error is not added. *)
Definition addError (errs : list TestError) (err : option TestError) : list TestError :=
  match err with
  | None => errs
  | Some e => errs ++ [e]
  end.

Record RunResult : Type := mkRunResult {
  run_records : MetricHistory;
  run_errs : list TestError;
  run_queries : QueryState
}.

Section Queries.

Variable cfg : WriteReadSeriesTestConfig.

(** The query client: what the call number [n] (counted over both kinds of
    query) returns for its arguments. *)
Variable QueryRangeAt : nat -> Time -> Time -> Duration -> bool -> QueryResult.
Variable QueryAt : nat -> Time -> bool -> VectorResult.
Variable generateValue : Time -> float.

Definition runRangeQueryAndVerifyResult (start endT : Time) (resultsCacheEnabled : bool)
    (records : MetricHistory) (st : QueryState) : option TestError * QueryState :=
  let start := maxTime (queryMinTime records) (alignTimestampToInterval start writeInterval) in
  let endT := minTime (queryMaxTime records) (alignTimestampToInterval endT writeInterval) in
  if Before endT start then (None, st)
  else
    let step := getQueryStep start endT writeInterval in
    let call := length (qs_calls st) in
    let st := countQuery (RangeCall start endT step resultsCacheEnabled) st in
    match QueryRangeAt call start endT step resultsCacheEnabled with
    | QueryErr err =>
      (Some (PlainError (Errors.Wrapped "failed to execute range query" err)),
       countQueryFailed st)
    | QueryOk matrix =>
      let st := countCheck st in
      match snd (verifySamplesSum (NumSeries cfg) step generateValue matrix) with
      | Some err =>
        (Some (CheckError "range query result check failed" err), countCheckFailed st)
      | None => (None, st)
      end
    end.

Definition runInstantQueryAndVerifyResult (ts : Time) (resultsCacheEnabled : bool)
    (records : MetricHistory) (st : QueryState) : option TestError * QueryState :=
  let ts := maxTime (queryMinTime records) (alignTimestampToInterval ts writeInterval) in
  if Before (queryMaxTime records) ts then (None, st)
  else
    let call := length (qs_calls st) in
    let st := countQuery (InstantCall ts resultsCacheEnabled) st in
    match QueryAt call ts resultsCacheEnabled with
    | VectorErr err =>
      (Some (PlainError (Errors.Wrapped "failed to execute instant query" err)),
       countQueryFailed st)
    | VectorOk vector =>
      let matrix := vectorToMatrix vector in
      let st := countCheck st in
      match snd (verifySamplesSum (NumSeries cfg) 0 generateValue matrix) with
      | Some err =>
        (Some (CheckError "instant query result check failed" err), countCheckFailed st)
      | None => (None, st)
      end
    end.

(** [for _, timeRange := range queryRanges]: each range with the results
    cache enabled, then disabled. *)
Fixpoint runRangeQueries (ranges : list (Time * Time)) (records : MetricHistory)
    (errs : list TestError) (st : QueryState) : list TestError * QueryState :=
  match ranges with
  | [] => (errs, st)
  | (start, endT) :: rest =>
    let (err, st) := runRangeQueryAndVerifyResult start endT true records st in
    let errs := addError errs err in
    let (err, st) := runRangeQueryAndVerifyResult start endT false records st in
    let errs := addError errs err in
    runRangeQueries rest records errs st
  end.

(** [for _, ts := range queryInstants] *)
Fixpoint runInstantQueries (instants : list Time) (records : MetricHistory)
    (errs : list TestError) (st : QueryState) : list TestError * QueryState :=
  match instants with
  | [] => (errs, st)
  | ts :: rest =>
    let (err, st) := runInstantQueryAndVerifyResult ts true records st in
    let errs := addError errs err in
    let (err, st) := runInstantQueryAndVerifyResult ts false records st in
    let errs := addError errs err in
    runInstantQueries rest records errs st
  end.

Variable WaitN : nat -> option Errors.error.
Variable WriteSeries : nat -> Time -> Z * option Errors.error.
Variable rnd1 rnd2 : Z -> Z.

(** [RunInner], from an empty error list and no query sent; [None] when
    [fuel] iterations did not end the write loop. *)
Definition RunInner (fuel : nat) (now : Time) (records : MetricHistory) : option RunResult :=
  match writeLoop WaitN WriteSeries fuel 0 now records [] with
  | None => None
  | Some written =>
    let errs := map PlainError (wl_errs written) in
    let records := wl_records written in
    match wl_exit written with
    | LoopCanceled => Some (mkRunResult records errs noQueries)
    | _ =>
      let '(queryRanges, queryInstants, err) := getQueryTimeRanges cfg rnd1 rnd2 now records in
      let errs := addError errs (option_map PlainError err) in
      let (errs, st) := runRangeQueries queryRanges records errs noQueries in
      let (errs, st) := runInstantQueries queryInstants records errs st in
      Some (mkRunResult records errs st)
    end
  end.

End Queries.

(** ** Aligned histories and responses *)

(** The three instants of a history are multiples of the write interval
    since the zero time (the zero time is one). *)
Definition alignedHistory (records : MetricHistory) : Prop :=
  lastWrittenTimestamp records mod writeInterval = 0
  /\ queryMinTime records mod writeInterval = 0
  /\ queryMaxTime records mod writeInterval = 0.

(** The timestamps of a series are multiples of the write interval. *)
Definition streamAligned (stream : SampleStream) : bool :=
  forallb (fun p => sp_Timestamp p mod writeIntervalMillis =? 0) (ss_Values stream)
  && forallb (fun p => shp_Timestamp p mod writeIntervalMillis =? 0) (ss_Histograms stream).

Definition clientAligned (QueryRange : Time -> Time -> Duration -> QueryResult) : Prop :=
  forall start endT step matrix,
    QueryRange start endT step = QueryOk matrix -> forallb streamAligned matrix = true.

(** ** Well-formed query requests and counters *)

(** A query request stays inside the query bounds of the history; a range
    request is in order, and its step is a positive multiple of the write
    interval that gives at most [maxSamples] steps. *)
Definition callOk (records : MetricHistory) (call : QueryCall) : Prop :=
  match call with
  | RangeCall start endT step _ =>
    queryMinTime records <= start /\ start <= endT /\ endT <= queryMaxTime records
    /\ writeInterval <= step /\ step mod writeInterval = 0
    /\ Z.quot (timeSub endT start) step <= maxSamples
  | InstantCall ts _ =>
    queryMinTime records <= ts /\ ts <= queryMaxTime records
  end.

(** The instants of a query request are multiples of the write interval. *)
Definition callAligned (call : QueryCall) : Prop :=
  match call with
  | RangeCall start endT _ _ => start mod writeInterval = 0 /\ endT mod writeInterval = 0
  | InstantCall ts _ => ts mod writeInterval = 0
  end.

(** The requests come in pairs: each one with the results cache enabled,
    then the same one with the cache disabled. *)
Definition paired (calls : list QueryCall) : Prop :=
  exists requests : list (bool -> QueryCall),
    calls = flat_map (fun request => [request true; request false]) requests.

(** The query counters agree with the requests sent: every request is
    counted, every counted query either failed or had its result checked,
    and no more checks failed than were made. *)
Definition countersOk (st : QueryState) : Prop :=
  let m := qs_metrics st in
  queriesTotal m = length (qs_calls st)
  /\ queriesTotal m = (queriesFailedTotal m + queryResultChecksTotal m)%nat
  /\ (queryResultChecksFailedTotal m <= queryResultChecksTotal m)%nat.

(** The queries that ended in an error: failed queries and failed checks. *)
Definition failures (st : QueryState) : nat :=
  (queriesFailedTotal (qs_metrics st) + queryResultChecksFailedTotal (qs_metrics st))%nat.

(** What a step of a run adds to the query state: the requests [new], all
    counted, of which [e] ended in an error. *)
Definition adds (records : MetricHistory) (new : list QueryCall) (e : nat)
    (st st' : QueryState) : Prop :=
  let m := qs_metrics st in
  let m' := qs_metrics st' in
  qs_calls st' = qs_calls st ++ new
  /\ queriesTotal m' = (queriesTotal m + length new)%nat
  /\ (queriesFailedTotal m' + queryResultChecksTotal m'
      = queriesFailedTotal m + queryResultChecksTotal m + length new)%nat
  /\ failures st' = (failures st + e)%nat
  /\ (queryResultChecksFailedTotal m' + queryResultChecksTotal m
      <= queryResultChecksFailedTotal m + queryResultChecksTotal m')%nat
  /\ Forall (callOk records) new
  /\ (alignedHistory records -> Forall callAligned new)
  /\ (paired (qs_calls st) -> paired (qs_calls st')).

(** The history of a profile whose writes have succeeded so far: the query
    bounds are set and in order, and the newest queryable timestamp is the
    last written one. *)
Definition healthy (records : MetricHistory) : Prop :=
  0 < queryMinTime records <= queryMaxTime records
  /\ queryMaxTime records = lastWrittenTimestamp records.

(** The history [recoverPast] leaves for the three hours of [Scenario]:
    written and queryable from 20:55:00 to 23:55:00. *)
Definition recentHistory : MetricHistory :=
  mkHistory (FromUnixMilli Scenario.newest) (FromUnixMilli Scenario.oldest)
    (FromUnixMilli Scenario.newest).

(** ** Auxiliary definitions of the proofs *)

(** The 53-bit mantissa of the binary64 value of a positive integer below
    [2 ^ 53]: the integer shifted left until it has 53 digits. *)
Definition canon (p : positive) : positive :=
  Z.to_pos (Zpos p * 2 ^ (53 - Zpos (digits2_pos p))).

(** * Properties *)

(** ** Integers and instants *)

Lemma wrap64_in_range (z : Z) : GoInt.in_int64 z -> GoInt.wrap64 z = z.
Proof.
  unfold GoInt.in_int64, GoInt.wrap64, GoInt.min_int64, GoInt.max_int64.
  intros H. rewrite Z.mod_small; lia.
Qed.

Lemma UnixMilli_FromUnixMilli (msec : Z) :
  GoInt.in_int64 msec -> UnixMilli (FromUnixMilli msec) = msec.
Proof.
  intros H. unfold UnixMilli, FromUnixMilli.
  replace (msec * Millisecond + unixToInternal * Second - unixToInternal * Second)
    with (msec * Millisecond) by lia.
  unfold Millisecond. rewrite Z.div_mul by lia. now apply wrap64_in_range.
Qed.

Lemma UnixMilli_Add_millis (msec d : Z) :
  UnixMilli (Add (FromUnixMilli msec) (d * Millisecond)) = GoInt.wrap64 (msec + d).
Proof.
  unfold UnixMilli, FromUnixMilli, Add. f_equal.
  replace (msec * Millisecond + unixToInternal * Second + d * Millisecond
           - unixToInternal * Second)
    with ((msec + d) * Millisecond) by lia.
  unfold Millisecond. apply Z.div_mul. lia.
Qed.

Lemma FromUnixMilli_inj (a b : Z) : FromUnixMilli a = FromUnixMilli b -> a = b.
Proof. unfold FromUnixMilli, Millisecond. lia. Qed.

Lemma FromUnixMilli_le (a b : Z) : a <= b <-> FromUnixMilli a <= FromUnixMilli b.
Proof. unfold FromUnixMilli, Millisecond. lia. Qed.

Lemma Truncate_le (t : Time) (d : Duration) : Truncate t d <= t.
Proof.
  unfold Truncate. destruct (d <=? 0) eqn:E; [lia|].
  apply Z.leb_gt in E. pose proof (Z.mod_pos_bound t d E). lia.
Qed.

Lemma Truncate_mono (t u : Time) (d : Duration) :
  t <= u -> Truncate t d <= Truncate u d.
Proof.
  unfold Truncate. intros H. destruct (d <=? 0) eqn:E; [lia|].
  apply Z.leb_gt in E.
  rewrite !Z.mod_eq by lia.
  pose proof (Z.div_le_mono t u d E H). nia.
Qed.

Lemma Truncate_gt (t : Time) (d : Duration) : 0 < d -> t - d < Truncate t d.
Proof.
  unfold Truncate. intros H. destruct (d <=? 0) eqn:E; [apply Z.leb_le in E; lia|].
  pose proof (Z.mod_pos_bound t d H). lia.
Qed.

(** ** Binary64 arithmetic

    Facts about the IEEE 754 specification of the primitive floats: the
    binary64 value of an integer below [2 ^ 53] is exact, and so is its
    product by ten when that stays below [2 ^ 53]. *)

Lemma iter_pos_iter {A} (f : A -> A) (p : positive) (x : A) :
  iter_pos f p x = Nat.iter (Pos.to_nat p) f x.
Proof.
  change (Nat.iter (Pos.to_nat p) f x)
    with (nat_rect (fun _ => A) x (fun _ => f) (Pos.to_nat p)).
  rewrite <- Pos2Nat.inj_iter.
  revert x. induction p as [p IH|p IH|]; intros x; cbn [iter_pos Pos.iter].
  - rewrite !IH. now rewrite <- !Pos.iter_swap.
  - now rewrite !IH.
  - reflexivity.
Qed.

Lemma shr_1_iter_exact (n : nat) (M : positive) :
  Nat.iter n shr_1 (Build_shr_record (Zpos M * 2 ^ Z.of_nat n) false false)
  = Build_shr_record (Zpos M) false false.
Proof.
  revert M. induction n as [|n IH]; intros M.
  - cbn [Nat.iter nat_rect]. f_equal. change (2 ^ Z.of_nat 0) with 1. lia.
  - cbn [Nat.iter nat_rect].
    replace (Zpos M * 2 ^ Z.of_nat (S n)) with (Zpos (xO M) * 2 ^ Z.of_nat n).
    + fold (Nat.iter n shr_1 (Build_shr_record (Zpos (xO M) * 2 ^ Z.of_nat n) false false)).
      rewrite IH. reflexivity.
    + rewrite Nat2Z.inj_succ, Z.pow_succ_r by lia. lia.
Qed.

Lemma digits2_pos_size (p : positive) : digits2_pos p = Pos.size p.
Proof. induction p; cbn; congruence. Qed.

Lemma digits2_bounds (p : positive) :
  2 ^ (Zpos (digits2_pos p) - 1) <= Zpos p < 2 ^ Zpos (digits2_pos p).
Proof.
  rewrite digits2_pos_size.
  pose proof (Pos.size_gt p) as Hgt. pose proof (Pos.size_le p) as Hle.
  apply Pos2Z.pos_lt_pos in Hgt. apply Pos2Z.pos_le_pos in Hle.
  rewrite Pos2Z.inj_pow in Hgt, Hle.
  split; [|exact Hgt].
  replace (Zpos (Pos.size p)) with (Z.succ (Zpos (Pos.size p) - 1)) in Hle by lia.
  rewrite Z.pow_succ_r in Hle by lia. lia.
Qed.

Lemma digits2_unique (p : positive) (d : Z) :
  2 ^ (d - 1) <= Zpos p < 2 ^ d -> Zpos (digits2_pos p) = d.
Proof.
  intros [Hlo Hhi]. pose proof (digits2_bounds p) as [Hlo' Hhi'].
  assert (0 < d).
  { destruct (Z.ltb_spec 0 d); [assumption|].
    assert (2 ^ d <= 2 ^ 0) by (apply Z.pow_le_mono_r; lia). change (2 ^ 0) with 1 in *. lia. }
  destruct (Z.lt_trichotomy (Zpos (digits2_pos p)) d) as [Hlt|[Heq|Hgt]]; [|assumption|].
  - assert (2 ^ Zpos (digits2_pos p) <= 2 ^ (d - 1)) by (apply Z.pow_le_mono_r; lia). lia.
  - assert (2 ^ d <= 2 ^ (Zpos (digits2_pos p) - 1)) by (apply Z.pow_le_mono_r; lia). lia.
Qed.

Lemma binary_round_aux_canonical (s : bool) (M : positive) (e : Z) (n : nat) :
  2 ^ 52 <= Zpos M < 2 ^ 53 -> -1074 <= e <= 971 ->
  binary_round_aux prec emax s (Zpos M * 2 ^ Z.of_nat n) (e - Z.of_nat n) loc_Exact
  = S754_finite s M e.
Proof.
  intros HM He.
  assert (Hd : Zpos (digits2_pos M) = 53) by (apply digits2_unique; exact HM).
  assert (Hpow : 0 < 2 ^ Z.of_nat n) by (apply Z.pow_pos_nonneg; lia).
  destruct (Zpos M * 2 ^ Z.of_nat n) as [|Q|Q] eqn:EQ; try lia.
  assert (HdQ : Zpos (digits2_pos Q) = 53 + Z.of_nat n).
  { apply digits2_unique. rewrite <- EQ.
    replace (53 + Z.of_nat n - 1) with (52 + Z.of_nat n) by lia.
    rewrite !Z.pow_add_r by lia. nia. }
  unfold binary_round_aux, shr_fexp. cbn [Zdigits2 shr_record_of_loc].
  rewrite HdQ.
  replace (fexp prec emax (53 + Z.of_nat n + (e - Z.of_nat n))) with e
    by (unfold fexp, SpecFloat.emin, prec, emax; lia).
  replace (e - (e - Z.of_nat n)) with (Z.of_nat n) by lia.
  assert (Hshr : shr (Build_shr_record (Zpos Q) false false) (e - Z.of_nat n) (Z.of_nat n)
                 = (Build_shr_record (Zpos M) false false, e)).
  { destruct n as [|n].
    - cbn [Z.of_nat shr]. f_equal; [|lia]. f_equal. change (2 ^ Z.of_nat 0) with 1 in EQ. lia.
    - rewrite <- EQ. unfold shr at 1. 
      destruct (Z.of_nat (S n)) as [|k|k] eqn:Ek; try lia.
      rewrite iter_pos_iter.
      replace (Pos.to_nat k) with (S n) by lia.
      rewrite <- Ek at 1.
      rewrite shr_1_iter_exact. f_equal. lia. }
  rewrite Hshr. cbn [shr_m loc_of_shr_record round_nearest_even Zdigits2 shr_record_of_loc].
  rewrite Hd.
  replace (fexp prec emax (53 + e)) with e
    by (unfold fexp, SpecFloat.emin, prec, emax; lia).
  rewrite Z.sub_diag. cbn [shr shr_m].
  replace (e <=? emax - prec) with true
    by (symmetry; apply Z.leb_le; unfold prec, emax; lia).
  reflexivity.
Qed.

Lemma pos_iter_xO (p k : positive) : Zpos (Pos.iter xO p k) = Zpos p * 2 ^ Zpos k.
Proof.
  rewrite (Pos.iter_swap_gen _ _ Zpos xO (Z.mul 2)) by reflexivity.
  change (Pos.iter (Z.mul 2) (Zpos p) k) with (Z.shiftl (Zpos p) (Zpos k)).
  apply Z.shiftl_mul_pow2. lia.
Qed.

Lemma canon_spec (p : positive) :
  Zpos (digits2_pos p) <= 53 ->
  Zpos (canon p) = Zpos p * 2 ^ (53 - Zpos (digits2_pos p))
  /\ 2 ^ 52 <= Zpos (canon p) < 2 ^ 53.
Proof.
  intros Hd. pose proof (digits2_bounds p) as [Hlo Hhi].
  set (d := Zpos (digits2_pos p)) in *.
  assert (Hpow : 0 < 2 ^ (53 - d)) by (apply Z.pow_pos_nonneg; lia).
  assert (E : Zpos (canon p) = Zpos p * 2 ^ (53 - d)).
  { unfold canon. fold d. rewrite Z2Pos.id; [reflexivity|nia]. }
  split; [exact E|]. rewrite E.
  replace (2 ^ 52) with (2 ^ (d - 1) * 2 ^ (53 - d))
    by (rewrite <- Z.pow_add_r by lia; f_equal; lia).
  replace (2 ^ 53) with (2 ^ d * 2 ^ (53 - d))
    by (rewrite <- Z.pow_add_r by lia; f_equal; lia).
  nia.
Qed.

Lemma binary_round_small (s : bool) (p : positive) :
  Zpos (digits2_pos p) <= 53 ->
  binary_round prec emax s p 0 = S754_finite s (canon p) (Zpos (digits2_pos p) - 53).
Proof.
  intros Hd. destruct (canon_spec p Hd) as [Hc Hb].
  set (d := Zpos (digits2_pos p)) in *.
  unfold binary_round. fold d.
  replace (fexp prec emax (d + 0)) with (d - 53)
    by (unfold fexp, SpecFloat.emin, prec, emax; lia).
  assert (Hal : exists mz, shl_align p 0 (d - 53) = (mz, d - 53) /\ Zpos mz = Zpos (canon p)).
  { unfold shl_align. rewrite Z.sub_0_r.
    destruct (d - 53) as [|k|k] eqn:Ek; try lia.
    - exists p. split; [reflexivity|]. rewrite Hc.
      replace (53 - d) with 0 by lia. change (2 ^ 0) with 1. lia.
    - exists (Pos.iter xO p k). split; [reflexivity|].
      rewrite pos_iter_xO, Hc. f_equal. f_equal. lia. }
  destruct Hal as (mz & -> & Hmz). injection Hmz as ->.
  pose proof (binary_round_aux_canonical s (canon p) (d - 53) 0 Hb) as H.
  change (Z.of_nat 0) with 0 in H. change (2 ^ 0) with 1 in H.
  rewrite Z.mul_1_r, Z.sub_0_r in H. apply H. lia.
Qed.

Lemma SFmul_ten_exact (s : bool) (p : positive) :
  Zpos p * 10 < 2 ^ 53 ->
  SFmul prec emax (binary_round prec emax s p 0) (Prim2SF 10%float)
  = binary_round prec emax s (p * 10) 0.
Proof.
  intros Hp.
  pose proof (digits2_bounds p) as [Hlo Hhi].
  pose proof (digits2_bounds (p * 10)) as [Hlo10 Hhi10].
  set (d := Zpos (digits2_pos p)) in *.
  set (d10 := Zpos (digits2_pos (p * 10))) in *.
  assert (Hd10 : d10 <= 53).
  { destruct (Z.leb_spec d10 53); [assumption|].
    assert (2 ^ 53 <= 2 ^ (d10 - 1)) by (apply Z.pow_le_mono_r; lia). lia. }
  assert (Hdd : d + 3 <= d10).
  { destruct (Z.leb_spec (d + 3) d10); [assumption|].
    assert (2 ^ d10 <= 2 ^ (d + 2)) by (apply Z.pow_le_mono_r; lia).
    assert (0 < d) by (unfold d; lia).
    replace (d + 2) with (Z.succ (Z.succ (Z.succ (d - 1)))) in H0 by lia.
    rewrite !Z.pow_succ_r in H0 by lia. lia. }
  assert (Hd : d <= 53) by lia.
  rewrite !binary_round_small by (fold d; fold d10; lia).
  fold d d10.
  destruct (canon_spec p Hd) as [Hc Hb].
  destruct (canon_spec (p * 10) Hd10) as [Hc10 Hb10].
  fold d in Hc. fold d10 in Hc10.
  change (Prim2SF 10%float) with (S754_finite false 5629499534213120 (-49)).
  cbn [SFmul]. rewrite xorb_false_r.
  pose proof (binary_round_aux_canonical s (canon (p * 10)) (d10 - 53)
                (Z.to_nat (49 + d10 - d)) Hb10) as H.
  rewrite Z2Nat.id in H by lia.
  replace (d10 - 53 - (49 + d10 - d)) with (d - 53 + -49) in H by lia.
  replace (Zpos (canon (p * 10)) * 2 ^ (49 + d10 - d))
    with (Zpos (canon p * 5629499534213120)) in H.
  - apply H. lia.
  - rewrite Pos2Z.inj_mul, Hc, Hc10, Pos2Z.inj_mul.
    change (Zpos 5629499534213120) with (5 * 2 ^ 50).
    replace (49 + d10 - d) with ((53 - d) + 50 - 1 - (53 - d10)) by lia.
    assert (E : 2 ^ (53 - d) * 2 ^ 50 = 2 * 2 ^ (53 - d10) * 2 ^ (53 - d + 50 - 1 - (53 - d10))).
    { rewrite <- (Z.pow_succ_r 2 (53 - d10)) by lia.
      rewrite <- !Z.pow_add_r by lia. f_equal. lia. }
    nia.
Qed.

Lemma SFopp_binary_round (p : positive) :
  Zpos (digits2_pos p) <= 53 ->
  SFopp (binary_round prec emax false p 0) = binary_round prec emax true p 0.
Proof. intros H. now rewrite !binary_round_small. Qed.

Lemma digits2_le_53 (p : positive) : Zpos p < 2 ^ 53 -> Zpos (digits2_pos p) <= 53.
Proof.
  intros H. pose proof (digits2_bounds p) as [Hlo _].
  destruct (Z.leb_spec (Zpos (digits2_pos p)) 53); [assumption|].
  assert (2 ^ 53 <= 2 ^ (Zpos (digits2_pos p) - 1)) by (apply Z.pow_le_mono_r; lia). lia.
Qed.

Lemma Prim2SF_of_pos (p : positive) :
  Zpos p < 2 ^ 63 ->
  Prim2SF (of_uint63 (Uint63.of_Z (Zpos p))) = binary_round prec emax false p 0.
Proof.
  intros H. rewrite of_uint63_spec, Uint63.of_Z_spec.
  rewrite Z.mod_small by (change Uint63.wB with (2 ^ 63); lia).
  reflexivity.
Qed.

Lemma float64_of_int64_mul10 (z : Z) :
  Z.abs z * 10 < 2 ^ 53 ->
  GoInt.float64_of_int64 (10 * z) = (GoInt.float64_of_int64 z * 10)%float.
Proof.
  intros Hz. unfold GoInt.float64_of_int64, GoInt.min_int64.
  destruct z as [|p|p].
  - vm_compute. reflexivity.
  - replace (10 * Zpos p) with (Zpos (p * 10)) by lia.
    replace (Zpos (p * 10) =? - 2 ^ 63) with false by (symmetry; apply Z.eqb_neq; lia).
    replace (Zpos p =? - 2 ^ 63) with false by (symmetry; apply Z.eqb_neq; lia).
    cbn [Z.ltb Z.compare].
    apply Prim2SF_inj.
    rewrite mul_spec, !Prim2SF_of_pos by lia.
    symmetry. apply SFmul_ten_exact. lia.
  - replace (10 * Zneg p) with (Zneg (p * 10)) by lia.
    replace (Zneg (p * 10) =? - 2 ^ 63) with false by (symmetry; apply Z.eqb_neq; lia).
    replace (Zneg p =? - 2 ^ 63) with false by (symmetry; apply Z.eqb_neq; lia).
    cbn [Z.ltb Z.compare Z.opp].
    apply Prim2SF_inj.
    rewrite mul_spec, !opp_spec, !Prim2SF_of_pos by lia.
    rewrite !SFopp_binary_round by (apply digits2_le_53; lia).
    symmetry. apply SFmul_ten_exact. lia.
Qed.

Lemma SFmul_opp_opp (x : spec_float) :
  SFmul prec emax (SFopp x) (Prim2SF (-10)%float) = SFmul prec emax x (Prim2SF 10%float).
Proof.
  change (Prim2SF (-10)%float) with (S754_finite true 5629499534213120 (-49)).
  change (Prim2SF 10%float) with (S754_finite false 5629499534213120 (-49)).
  destruct x as [s|s| |s m e]; try destruct s; reflexivity.
Qed.

Lemma mul_opp_opp_ten (v : float) : (- v * -10)%float = (v * 10)%float.
Proof.
  apply Prim2SF_inj. rewrite !mul_spec, opp_spec. apply SFmul_opp_opp.
Qed.

Lemma float_abs_cases (v : float) :
  Prim2SF v <> S754_zero true ->
  (if (0 <=? v)%float then v else (- v)%float) = abs v.
Proof.
  intros Hz. rewrite leb_spec.
  change (Prim2SF 0%float) with (S754_zero false).
  destruct (Prim2SF v) as [s|s| |s m e] eqn:E.
  - destruct s; [congruence|]. cbn. apply Prim2SF_inj. now rewrite abs_spec, E.
  - destruct s; cbn; apply Prim2SF_inj; now rewrite ?opp_spec, abs_spec, E.
  - cbn. apply Prim2SF_inj. now rewrite opp_spec, abs_spec, E.
  - destruct s; cbn; apply Prim2SF_inj; now rewrite ?opp_spec, abs_spec, E.
Qed.

(** ** The value comparison *)

(** The comparison read on IEEE 754 binary64 values: the difference, its
    quotient by 0.001 and the absolute value are the correctly rounded
    operations, and the test is a strict [<]. *)
Lemma compareSampleValues_spec (actual expected : float) :
  compareSampleValues actual expected
  = SFltb (SFabs (SF64div (SF64sub (Prim2SF actual) (Prim2SF expected))
                          (Prim2SF maxComparisonDelta)))
          (Prim2SF maxComparisonDelta).
Proof.
  unfold compareSampleValues.
  now rewrite ltb_spec, abs_spec, div_spec, sub_spec.
Qed.

(** C1, counterexample: with expected value 1, the actual value
    [1 * (1 - 0.001 * 0.001)] does not compare equal: the deviation divided
    by 0.001 rounds to a value just above 0.001. *)
Lemma compareSampleValues_rejects_one_minus_delta_squared :
  compareSampleValues (1 * (1 - maxComparisonDelta * maxComparisonDelta))%float 1%float
  = false.
Proof. vm_compute. reflexivity. Qed.

(** C1, as amended: the comparison accepts exactly when the binary64
    value of [|actual - expected| / 0.001] is below 0.001, whatever the
    magnitude of the operands.  At the boundary deviation [E * 0.001^2] the
    outcome follows the rounding: for [E = 0.999] both [E * (1 + 0.001^2)]
    and [E * (1 - 0.001^2)] compare equal, for [E = 1] the first does and
    the second does not; [E + 2 * 0.001] compares unequal for both. *)
Theorem compareSampleValues_tolerance :
  (forall actual expected : float,
     compareSampleValues actual expected = true <->
     (PrimFloat.abs ((actual - expected) / 0.001) <? 0.001)%float = true)
  /\ (forall actual expected actual' expected' : float,
        (actual - expected)%float = (actual' - expected')%float ->
        compareSampleValues actual expected = compareSampleValues actual' expected')
  /\ compareSampleValues (0.999 * (1 + maxComparisonDelta * maxComparisonDelta))%float 0.999%float = true
  /\ compareSampleValues (0.999 * (1 - maxComparisonDelta * maxComparisonDelta))%float 0.999%float = true
  /\ compareSampleValues (1 * (1 + maxComparisonDelta * maxComparisonDelta))%float 1%float = true
  /\ compareSampleValues (1 * (1 - maxComparisonDelta * maxComparisonDelta))%float 1%float = false
  /\ compareSampleValues (1 + 2 * maxComparisonDelta)%float 1%float = false
  /\ compareSampleValues (0.999 + 2 * maxComparisonDelta)%float 0.999%float = false.
Proof.
  split; [|split].
  - intros actual expected. unfold compareSampleValues, maxComparisonDelta. tauto.
  - intros actual expected actual' expected' H.
    unfold compareSampleValues. now rewrite H.
  - repeat split; vm_compute; reflexivity.
Qed.

(** ** The verifier *)

Section VerifierFacts.

Variable expectedSeries : Z.
Variable expectedStep : Duration.
Variable generateValue : Time -> float.

Lemma verifyLoop_error check (idx : nat) (last : Z) (err : VerifyError) :
  check idx = Some err -> verifyLoop check (S idx) last = (last, Some err).
Proof. intros H. simpl. now rewrite H. Qed.

Lemma verifyLoop_match check (idx : nat) (last : Z) :
  check idx = None -> verifyLoop check (S idx) last = verifyLoop check idx (Z.of_nat idx).
Proof. intros H. simpl. now rewrite H. Qed.

(** Once the indices from [k] up to [k + d - 1] match, the loop started at
    [k + d] continues from [k]. *)
Lemma verifyLoop_matches check (k d : nat) (last : Z) :
  (forall idx, (k <= idx < k + d)%nat -> check idx = None) ->
  verifyLoop check (k + d) last
  = verifyLoop check k (match d with O => last | S _ => Z.of_nat k end).
Proof.
  revert last. induction d as [|d IH]; intros last H.
  - now rewrite Nat.add_0_r.
  - replace (k + S d)%nat with (S (k + d)) by lia.
    rewrite verifyLoop_match by (apply H; lia).
    rewrite IH by (intros idx Hidx; apply H; lia).
    destruct d; [now rewrite Nat.add_0_r | reflexivity].
Qed.

(** The index the loop returns is [-1] or an index of the list, every
    index from it on matched, and without an error it is [0] (or [-1] for
    no element). *)
Lemma verifyLoop_result check (n : nat) (last : Z) :
  let (idx, err) := verifyLoop check n last in
  (idx = last /\ (n = 0%nat \/ err <> None))
  \/ (0 <= idx < Z.of_nat n
      /\ (forall i, (Z.to_nat idx <= i < n)%nat -> check i = None)
      /\ (err = None -> idx = 0)).
Proof.
  revert last. induction n as [|n IH]; intros last; simpl.
  - left. auto.
  - destruct (check n) as [e|] eqn:E.
    + left. split; [reflexivity|]. right. discriminate.
    + specialize (IH (Z.of_nat n)).
      destruct (verifyLoop check n (Z.of_nat n)) as [idx err].
      right. destruct IH as [[-> H]|(H1 & H2 & H3)].
      * split; [lia|]. split.
        -- intros i Hi. replace i with n by lia. exact E.
        -- intros ->. destruct H as [->|H]; [reflexivity|congruence].
      * split; [lia|]. split; [|exact H3].
        intros i Hi. destruct (Nat.eq_dec i n) as [->|Hne]; [exact E|].
        apply H2. lia.
Qed.

(** C8: a matrix that does not hold exactly one series, or whose one
    series holds both floats and histograms, or neither, is refused with an
    error and the index [-1]. *)
Theorem verifySamplesSum_rejects_malformed (matrix : Matrix) :
  (length matrix <> 1%nat ->
   verifySamplesSum expectedSeries expectedStep generateValue matrix
   = (-1, Some (ErrSeriesCount (length matrix))))
  /\ (forall stream,
        matrix = [stream] -> ss_Values stream <> [] -> ss_Histograms stream <> [] ->
        verifySamplesSum expectedSeries expectedStep generateValue matrix
        = (-1, Some ErrFloatsAndHistograms))
  /\ (forall stream,
        matrix = [stream] -> ss_Values stream = [] -> ss_Histograms stream = [] ->
        verifySamplesSum expectedSeries expectedStep generateValue matrix
        = (-1, Some ErrNoFloatsNoHistograms)).
Proof.
  split; [|split].
  - intros H. destruct matrix as [|s [|s' m]]; simpl in *; try reflexivity.
    congruence.
  - intros stream -> Hv Hh. unfold verifySamplesSum.
    destruct (ss_Values stream); [congruence|].
    destruct (ss_Histograms stream); [congruence|]. reflexivity.
  - intros stream -> Hv Hh. unfold verifySamplesSum.
    now rewrite Hv, Hh.
Qed.

End VerifierFacts.

(** C3: three samples at [t], [t + step] and [t + 3 * step] (milliseconds),
    the two newest carrying the expected value, checked with
    [expectedStep = step]: the verifier stops at the sample before the gap
    and reports its timestamp, the timestamp it expected there and the
    timestamp of the next sample; the last matching index is 2, the sample
    that follows the gap.  The same holds for a series of histograms. *)
Theorem verifySamplesSum_detects_gap
    (expectedSeries : Z) (generateValue : Time -> float)
    (metric : list (string * string)) (t step : Z) (v0 v1 v2 : float)
    (Hstep : step <> 0)
    (Ht : GoInt.in_int64 t) (Ht3 : GoInt.in_int64 (t + 3 * step))
    (Hv1 : compareSampleValues v1
             (generateValue (FromUnixMilli (t + step))
              * GoInt.float64_of_int64 expectedSeries)%float = true)
    (Hv2 : compareSampleValues v2
             (generateValue (FromUnixMilli (t + 3 * step))
              * GoInt.float64_of_int64 expectedSeries)%float = true) :
  verifySamplesSum expectedSeries (step * Millisecond) generateValue
    [mkStream metric
       [mkSample t v0; mkSample (t + step) v1; mkSample (t + 3 * step) v2] []]
  = (2, Some (ErrSampleTimestamp (t + step) (t + 2 * step) (t + 3 * step)))
  /\ verifySamplesSum expectedSeries (step * Millisecond) generateValue
       [mkStream metric []
          (map toHistogramPair
             [mkSample t v0; mkSample (t + step) v1; mkSample (t + 3 * step) v2])]
     = (2, Some (ErrHistogramTimestamp (t + step) (t + 2 * step) (t + 3 * step))).
Proof.
  assert (Ht1 : GoInt.in_int64 (t + step))
    by (unfold GoInt.in_int64 in *; lia).
  assert (Ht2 : GoInt.in_int64 (t + 2 * step))
    by (unfold GoInt.in_int64 in *; lia).
  assert (Hexp : UnixMilli (Add (FromUnixMilli (t + 3 * step)) (- (step * Millisecond)))
                 = t + 2 * step).
  { rewrite <- Z.mul_opp_l, UnixMilli_Add_millis.
    replace (t + 3 * step + - step) with (t + 2 * step) by lia.
    now apply wrap64_in_range. }
  assert (Hne : (t + step =? t + 2 * step) = false) by (apply Z.eqb_neq; lia).
  split.
  - unfold verifySamplesSum. cbn [ss_Values ss_Histograms length Nat.ltb Nat.leb andb negb].
    rewrite verifyLoop_match
      by (unfold checkSample; cbn [nth sp_Timestamp sp_Value length]; now rewrite Hv2).
    rewrite (verifyLoop_error _ _ _ (ErrSampleTimestamp (t + step) (t + 2 * step) (t + 3 * step)));
      [reflexivity|].
    unfold checkSample. cbn [nth sp_Timestamp sp_Value length].
    rewrite Hv1. cbn [negb]. change (Z.of_nat 1 <? Z.of_nat 3 - 1) with true. cbv iota.
    rewrite Hexp, !UnixMilli_FromUnixMilli by assumption.
    now rewrite Hne.
  - unfold verifySamplesSum.
    cbn [ss_Values ss_Histograms map length Nat.ltb Nat.leb andb negb].
    rewrite verifyLoop_match
      by (unfold checkHistogram;
          cbn [nth toHistogramPair shp_Timestamp shp_Histogram sh_Sum sp_Timestamp sp_Value length];
          now rewrite Hv2).
    rewrite (verifyLoop_error _ _ _ (ErrHistogramTimestamp (t + step) (t + 2 * step) (t + 3 * step)));
      [reflexivity|].
    unfold checkHistogram.
    cbn [nth toHistogramPair shp_Timestamp shp_Histogram sh_Sum sp_Timestamp sp_Value length].
    rewrite Hv1. cbn [negb]. change (Z.of_nat 1 <? Z.of_nat 3 - 1) with true. cbv iota.
    rewrite Hexp, !UnixMilli_FromUnixMilli by assumption.
    now rewrite Hne.
Qed.

(** ** The query planner *)

(** C4, counterexample: at 2024-01-01T00:00:07Z, with a week of query age
    and a history verified from two hours ago to five minutes ago, the
    planner emits the last-24h window (from two hours ago) as a range of
    its own, next to the last-1h window. *)
Lemma getQueryTimeRanges_emits_24h_window :
  let now := Scenario.now in
  let records := mkHistory (Add now (-5 * Minute)) (Add now (-2 * Hour)) (Add now (-5 * Minute)) in
  fst (fst (getQueryTimeRanges Scenario.cfgWeek Scenario.draw0 Scenario.draw0 now records))
  = [ (Add now (-1 * Hour), Add now (-5 * Minute));
      (Add now (-2 * Hour), Add now (-5 * Minute));
      (Add now (-2 * Hour), Add now (-2 * Hour)) ].
Proof. vm_compute. reflexivity. Qed.

(** C4, as amended: with [queryMinTime = now - 2h], [queryMaxTime = now -
    5m] and a max query age above 2h, the planner emits the last-1h window
    [now - 1h, now - 5m] and, because the history starts before [now - 1h],
    also the last-24h window [now - 2h, now - 5m]; it emits no 23h-24h
    window, and one random range.  The instants are the end of the first,
    the start of the second and the start of the random range. *)
Theorem getQueryTimeRanges_two_hours
    (cfg : WriteReadSeriesTestConfig) (rnd1 rnd2 : Z -> Z)
    (now lastWritten : Time)
    (Hage : 2 * Hour < MaxQueryAge cfg)
    (Hmin : Add now (-2 * Hour) <> zero)
    (Hmax : Add now (-5 * Minute) <> zero) :
  let queryMin := Add now (-2 * Hour) in
  let queryMax := Add now (-5 * Minute) in
  let randMinTime := randTime rnd1 queryMin queryMax in
  getQueryTimeRanges cfg rnd1 rnd2 now (mkHistory lastWritten queryMin queryMax)
  = ( [ (Add now (-1 * Hour), queryMax);
        (queryMin, queryMax);
        (randMinTime, randTime rnd2 randMinTime queryMax) ],
      [ queryMax; queryMin; randMinTime ],
      None ).
Proof.
  intros queryMin queryMax randMinTime.
  unfold getQueryTimeRanges.
  cbn [queryMinTime queryMaxTime].
  assert (E1 : IsZero queryMin = false) by (apply Z.eqb_neq; exact Hmin).
  assert (E2 : IsZero queryMax = false) by (apply Z.eqb_neq; exact Hmax).
  rewrite E1, E2. cbn [orb].
  assert (Eadj : maxTime queryMin (Add now (- MaxQueryAge cfg)) = queryMin).
  { unfold maxTime, After, queryMin, Add, Hour, Minute, Second in *.
    destruct (_ <? _) eqn:E; [reflexivity|]. apply Z.ltb_ge in E. lia. }
  rewrite Eadj.
  unfold queryMin, queryMax, maxTime, minTime, Before, After, Add, Hour, Minute, Second.
  repeat match goal with
  | |- context [?a <? ?b] =>
      first [ replace (a <? b) with true by (symmetry; apply Z.ltb_lt; lia)
            | replace (a <? b) with false by (symmetry; apply Z.ltb_ge; lia) ]
  end.
  reflexivity.
Qed.

(** ** The retry middleware *)

Section RetryFacts.

Variable E Response : Type.
Variable IsAPIError : E -> bool.
Variable IsCanceled : E -> bool.
Variable HTTPResponseFromError : E -> option Z.
Variable ctxErr : nat -> option E.
Variable next : nat -> Response + E.

Let retryable := Retry.retryable E IsAPIError IsCanceled HTTPResponseFromError.
Let DoLoop := Retry.DoLoop E Response IsAPIError IsCanceled HTTPResponseFromError ctxErr next.
Let Do := Retry.Do E Response IsAPIError IsCanceled HTTPResponseFromError ctxErr next.
Let result := Retry.mkDoResult E Response.
Let retriedThrough :=
  Retry.retriedThrough E Response IsAPIError IsCanceled HTTPResponseFromError ctxErr next.

Lemma retryable_true (err : E) :
  retryable err = true <->
  IsAPIError err = false /\ IsCanceled err = false
  /\ (HTTPResponseFromError err = None
      \/ exists code, HTTPResponseFromError err = Some code /\ Z.quot code 100 = 5).
Proof.
  unfold retryable, Retry.retryable.
  destruct (IsAPIError err), (IsCanceled err); cbn [orb negb andb];
    try (split; [discriminate | intros (? & ? & ?); discriminate]).
  destruct (HTTPResponseFromError err) as [code|].
  - rewrite Z.eqb_eq. split.
    + intros H. repeat split. right. now exists code.
    + intros (_ & _ & [H | (c & Hc & H)]); [discriminate | congruence].
  - split; [intros _; auto | reflexivity].
Qed.

Lemma DoLoop_retry (remaining tries : nat) (lastErr : option E) (err : E) :
  ctxErr tries = None -> next tries = inr err -> retryable err = true ->
  DoLoop (S remaining) tries lastErr = DoLoop remaining (S tries) (Some err).
Proof.
  intros Hc Hn Hr. apply retryable_true in Hr. destruct Hr as (Ha & Hcn & Hh).
  unfold DoLoop. cbn [Retry.DoLoop]. rewrite Hc, Hn, Ha, Hcn. cbn [orb].
  destruct Hh as [-> | (code & -> & Hq)]; [reflexivity|].
  apply Z.eqb_eq in Hq. now rewrite Hq.
Qed.

Lemma DoLoop_skip (n remaining tries : nat) (lastErr : option E) :
  retriedThrough tries (S n) ->
  exists err, next (tries + n) = inr err /\ retryable err = true
    /\ DoLoop (S n + remaining) tries lastErr = DoLoop remaining (S (tries + n)) (Some err).
Proof.
  revert tries lastErr. induction n as [|n IH]; intros tries lastErr H.
  - destruct (H tries) as (Hc & err & Hn & Hr); [lia|].
    exists err. rewrite Nat.add_0_r. repeat split; try assumption.
    now apply DoLoop_retry.
  - destruct (H tries) as (Hc & err & Hn & Hr); [lia|].
    destruct (IH (S tries) (Some err)) as (err' & Hn' & Hr' & Heq).
    { intros i Hi. apply H. lia. }
    replace (S tries + n)%nat with (tries + S n)%nat in * by lia.
    exists err'. repeat split; try assumption.
    change (S (S n) + remaining)%nat with (S (S n + remaining)).
    rewrite (DoLoop_retry _ _ _ err) by assumption. exact Heq.
Qed.

Lemma DoLoop_calls (remaining tries : nat) (lastErr : option E) :
  let r := DoLoop remaining tries lastErr in
  (tries <= Retry.do_calls _ _ r <= tries + remaining)%nat
  /\ retriedThrough tries (Retry.do_calls _ _ r - tries - 1).
Proof.
  revert tries lastErr. induction remaining as [|remaining IH]; intros tries lastErr.
  - cbn [DoLoop Retry.DoLoop Retry.do_calls]. split; [lia|]. intros i Hi. lia.
  - cbn zeta. unfold DoLoop. cbn [Retry.DoLoop].
    assert (Hstop : forall r : Retry.DoResult E Response,
              (tries <= Retry.do_calls _ _ r <= S tries)%nat ->
              (tries <= Retry.do_calls _ _ r <= tries + S remaining)%nat
              /\ retriedThrough tries (Retry.do_calls _ _ r - tries - 1)).
    { intros r Hr. split; [lia|]. intros i Hi. lia. }
    destruct (ctxErr tries) as [e|] eqn:Hc;
      [apply Hstop; cbn [Retry.do_calls]; lia|].
    destruct (next tries) as [resp|err] eqn:Hn;
      [apply Hstop; cbn [Retry.do_calls]; lia|].
    destruct (IsAPIError err || IsCanceled err) eqn:Hac;
      [apply Hstop; cbn [Retry.do_calls]; lia|].
    assert (Hgo : forall r : Retry.DoResult E Response,
              retryable err = true ->
              r = DoLoop remaining (S tries) (Some err) ->
              (tries <= Retry.do_calls _ _ r <= tries + S remaining)%nat
              /\ retriedThrough tries (Retry.do_calls _ _ r - tries - 1)).
    { intros r Hr ->. destruct (IH (S tries) (Some err)) as [Hb Hre].
      split; [lia|]. intros i Hi.
      destruct (Nat.eq_dec i tries) as [->|Hne].
      - split; [exact Hc|]. now exists err.
      - apply Hre. lia. }
    destruct (HTTPResponseFromError err) as [code|] eqn:Hh.
    + destruct (Z.quot code 100 =? 5) eqn:Hq;
        [|apply Hstop; cbn [Retry.do_calls]; lia].
      apply Hgo; [|reflexivity].
      unfold retryable, Retry.retryable. now rewrite Hac, Hh, Hq.
    + apply Hgo; [|reflexivity].
      unfold retryable, Retry.retryable. now rewrite Hac, Hh.
Qed.

(** C10: [Do] calls the handler at most [maxRetries] times, and every call
    followed by another one had failed with a retryable error (neither a
    Prometheus API error nor a cancellation, and either no HTTP response or
    a 5xx one) while the context was live.  When all [maxRetries] calls
    fail that way, the last error is returned.  A call reached after
    retries that fails with an error that is not retryable (an API error, a
    cancellation, an HTTP response that is not 5xx) ends [Do] with that
    error and no further call; so does a context found done when an
    iteration starts, with the context's error. *)
Theorem retry_Do_policy (maxRetries : Z) :
  (Retry.do_calls _ _ (Do maxRetries) <= Z.to_nat maxRetries)%nat
  /\ retriedThrough 0 (Retry.do_calls _ _ (Do maxRetries) - 1)
  /\ (forall n, Z.to_nat maxRetries = S n -> retriedThrough 0 (S n) ->
        exists err, next n = inr err /\ Do maxRetries = result None (Some err) (S n) (S n))
  /\ (forall n err, (n < Z.to_nat maxRetries)%nat -> retriedThrough 0 n ->
        ctxErr n = None -> next n = inr err -> retryable err = false ->
        Do maxRetries = result None (Some err) n (S n))
  /\ (forall n err, (n < Z.to_nat maxRetries)%nat -> retriedThrough 0 n ->
        ctxErr n = Some err ->
        Do maxRetries = result None (Some err) n n)
  /\ (forall n resp, (n < Z.to_nat maxRetries)%nat -> retriedThrough 0 n ->
        ctxErr n = None -> next n = inl resp ->
        Do maxRetries = result (Some resp) None n (S n)).
Proof.
  assert (Hreach : forall n remaining, retriedThrough 0 n ->
            exists lastErr, DoLoop (n + remaining) 0 None = DoLoop remaining n lastErr
              /\ (n = 0%nat -> lastErr = None)
              /\ (forall m, n = S m -> exists err, next m = inr err /\ lastErr = Some err)).
  { intros [|n] remaining H.
    - exists None. repeat split; auto. intros m Hm. discriminate.
    - destruct (DoLoop_skip n remaining 0 None H) as (err & Hn & _ & Heq).
      exists (Some err). split; [exact Heq|]. split; [discriminate|].
      intros m Hm. injection Hm as <-. now exists err. }
  pose proof (DoLoop_calls (Z.to_nat maxRetries) 0 None) as [Hb Hre].
  fold (Do maxRetries) in Hb, Hre. cbn zeta in Hb, Hre.
  split; [unfold Do, Retry.Do; fold DoLoop; lia|].
  split; [unfold Do, Retry.Do; fold DoLoop;
          replace (Retry.do_calls _ _ (DoLoop (Z.to_nat maxRetries) 0 None) - 1)%nat
            with (Retry.do_calls _ _ (DoLoop (Z.to_nat maxRetries) 0 None) - 0 - 1)%nat by lia;
          exact Hre|].
  split; [|split; [|split]].
  - intros n Hmax H.
    destruct (Hreach (S n) 0%nat H) as (lastErr & Heq & _ & Hlast).
    destruct (Hlast n eq_refl) as (err & Hn & ->).
    exists err. split; [exact Hn|].
    unfold Do, Retry.Do. fold DoLoop. rewrite Hmax.
    replace (S n) with (S n + 0)%nat at 1 by lia. rewrite Heq. reflexivity.
  - intros n err Hlt H Hc Hn Hr.
    destruct (Hreach n (Z.to_nat maxRetries - n)%nat H) as (lastErr & Heq & _).
    unfold Do, Retry.Do. fold DoLoop.
    replace (Z.to_nat maxRetries) with (n + (Z.to_nat maxRetries - n))%nat at 1 by lia.
    rewrite Heq.
    destruct (Z.to_nat maxRetries - n)%nat as [|remaining] eqn:Hrem; [lia|].
    unfold DoLoop. cbn [Retry.DoLoop]. rewrite Hc, Hn.
    unfold retryable, Retry.retryable in Hr.
    destruct (IsAPIError err || IsCanceled err); [reflexivity|].
    cbn [negb andb] in Hr.
    destruct (HTTPResponseFromError err) as [code|]; [|discriminate].
    now rewrite Hr.
  - intros n err Hlt H Hc.
    destruct (Hreach n (Z.to_nat maxRetries - n)%nat H) as (lastErr & Heq & _).
    unfold Do, Retry.Do. fold DoLoop.
    replace (Z.to_nat maxRetries) with (n + (Z.to_nat maxRetries - n))%nat at 1 by lia.
    rewrite Heq.
    destruct (Z.to_nat maxRetries - n)%nat as [|remaining] eqn:Hrem; [lia|].
    unfold DoLoop. cbn [Retry.DoLoop]. now rewrite Hc.
  - intros n resp Hlt H Hc Hn.
    destruct (Hreach n (Z.to_nat maxRetries - n)%nat H) as (lastErr & Heq & _).
    unfold Do, Retry.Do. fold DoLoop.
    replace (Z.to_nat maxRetries) with (n + (Z.to_nat maxRetries - n))%nat at 1 by lia.
    rewrite Heq.
    destruct (Z.to_nat maxRetries - n)%nat as [|remaining] eqn:Hrem; [lia|].
    unfold DoLoop. cbn [Retry.DoLoop]. now rewrite Hc, Hn.
Qed.

End RetryFacts.

(** ** Writing *)

Lemma writeSamples_4xx (statusCode : Z) (err : option Errors.error)
    (timestamp : Time) (records : MetricHistory) :
  Z.quot statusCode 100 = 4 ->
  writeSamples (statusCode, err) timestamp records = (mkHistory timestamp zero zero, None).
Proof. intros H. unfold writeSamples. now rewrite H. Qed.

Lemma writeSamples_error (statusCode : Z) (err : Errors.error)
    (timestamp : Time) (records : MetricHistory) :
  Z.quot statusCode 100 <> 4 ->
  writeSamples (statusCode, Some err) timestamp records
  = (records, Some (Errors.Wrapped "failed to remote write series" err)).
Proof.
  intros H. unfold writeSamples. apply Z.eqb_neq in H. now rewrite H.
Qed.

Lemma writeSamples_2xx (statusCode : Z) (timestamp : Time) (records : MetricHistory) :
  Z.quot statusCode 100 = 2 ->
  writeSamples (statusCode, None) timestamp records
  = (mkHistory timestamp
       (if IsZero (queryMinTime records) then timestamp else queryMinTime records)
       timestamp,
     None).
Proof. intros H. unfold writeSamples. now rewrite H. Qed.

(** Without an error value, every status outside 2xx and 4xx leaves the
    history as it is and returns no error: [errors.Wrapf] of a [nil] error
    is [nil]. *)
Lemma writeSamples_status_without_error (statusCode : Z)
    (timestamp : Time) (records : MetricHistory) :
  Z.quot statusCode 100 <> 4 -> Z.quot statusCode 100 <> 2 ->
  writeSamples (statusCode, None) timestamp records = (records, None).
Proof.
  intros H4 H2. unfold writeSamples.
  apply Z.eqb_neq in H4, H2. now rewrite H4, H2.
Qed.

(** C2, the code at the failing input: a 503 that comes without an error
    value leaves the history unchanged but returns no error, so the write
    loop of [RunInner] does not stop: it asks for the same timestamp again,
    whatever the number of iterations allowed. *)
Theorem writeSamples_503_without_error :
  (forall timestamp records,
     writeSamples (503, None) timestamp records = (records, None))
  /\ (forall fuel,
        writeLoop (fun _ => None) (fun _ _ => (503, None))
          fuel 0 Scenario.now emptyHistory [] = None).
Proof.
  split.
  - intros timestamp records. apply writeSamples_status_without_error; discriminate.
  - intros fuel. generalize 0%nat as call.
    induction fuel as [|fuel IH]; intros call; [reflexivity|].
    cbn [writeLoop].
    change (After (nextWriteTimestamp Scenario.now emptyHistory) Scenario.now) with false.
    cbv iota. rewrite writeSamples_status_without_error by discriminate.
    apply IH.
Qed.

(** ** Recovery *)


(** ** Histogram generators *)

Lemma H_Sum_setIntGauge (gauge : bool) (h : Histogram) :
  H_Sum (setIntGauge gauge h) = H_Sum h.
Proof. now destruct gauge. Qed.

Lemma H_Count_setIntGauge (gauge : bool) (h : Histogram) :
  H_Count (setIntGauge gauge h) = H_Count h.
Proof. now destruct gauge. Qed.

Lemma FH_Sum_setFloatGauge (gauge : bool) (h : FloatHistogram) :
  FH_Sum (setFloatGauge gauge h) = FH_Sum h.
Proof. now destruct gauge. Qed.

Lemma FH_Count_setFloatGauge (gauge : bool) (h : FloatHistogram) :
  FH_Count (setFloatGauge gauge h) = FH_Count h.
Proof. now destruct gauge. Qed.

(** The sum of an integer histogram is the binary64 value of the [int64]
    product [10 * value]. *)
Lemma generateIntHistogram_Sum (value : Z) (gauge : bool) :
  Z.abs value * 10 < 2 ^ 63 ->
  H_Sum (generateIntHistogram value gauge) = GoInt.float64_of_int64 (10 * value).
Proof.
  intros H. unfold generateIntHistogram. rewrite H_Sum_setIntGauge.
  destruct (0 <=? value) eqn:E; cbn [generatePosIntHistogram generateNegIntHistogram H_Sum].
  - apply Z.leb_le in E. rewrite wrap64_in_range; [f_equal; lia|].
    unfold GoInt.in_int64, GoInt.min_int64, GoInt.max_int64. lia.
  - apply Z.leb_gt in E.
    rewrite (wrap64_in_range (- value))
      by (unfold GoInt.in_int64, GoInt.min_int64, GoInt.max_int64; lia).
    rewrite wrap64_in_range; [f_equal; lia|].
    unfold GoInt.in_int64, GoInt.min_int64, GoInt.max_int64. lia.
Qed.

Lemma generateIntHistogram_Count (value : Z) (gauge : bool) :
  Z.abs value * 4 < 2 ^ 63 ->
  H_Count (generateIntHistogram value gauge) = 4 * Z.abs value.
Proof.
  intros H. unfold generateIntHistogram. rewrite H_Count_setIntGauge.
  destruct (0 <=? value) eqn:E;
    cbn [generatePosIntHistogram generateNegIntHistogram H_Count]; unfold GoInt.wrapU64.
  - apply Z.leb_le in E.
    rewrite wrap64_in_range
      by (unfold GoInt.in_int64, GoInt.min_int64, GoInt.max_int64; lia).
    rewrite Z.mod_small; lia.
  - apply Z.leb_gt in E.
    rewrite (wrap64_in_range (- value))
      by (unfold GoInt.in_int64, GoInt.min_int64, GoInt.max_int64; lia).
    rewrite wrap64_in_range
      by (unfold GoInt.in_int64, GoInt.min_int64, GoInt.max_int64; lia).
    rewrite Z.mod_small; lia.
Qed.

Lemma generateFloatHistogram_Sum (value : float) (gauge : bool) :
  FH_Sum (generateFloatHistogram value gauge) = (value * 10)%float.
Proof.
  unfold generateFloatHistogram. rewrite FH_Sum_setFloatGauge.
  destruct (0 <=? value)%float;
    cbn [generatePosFloatHistogram generateNegFloatHistogram FH_Sum];
    [reflexivity | apply mul_opp_opp_ten].
Qed.

Lemma generateFloatHistogram_Count (value : float) (gauge : bool) :
  Prim2SF value <> S754_zero true ->
  FH_Count (generateFloatHistogram value gauge) = (abs value * 4)%float.
Proof.
  intros H. unfold generateFloatHistogram. rewrite FH_Count_setFloatGauge.
  rewrite <- (float_abs_cases value H).
  now destruct (0 <=? value)%float.
Qed.

Lemma generateHistogramIntValue_abs (t : Time) (gauge : bool) :
  Z.abs (Unix t) < 2 ^ 63 ->
  Z.abs (generateHistogramIntValue t gauge) = Z.abs (Unix t).
Proof.
  intros H. unfold generateHistogramIntValue.
  destruct (gauge && (MinuteOf t mod 2 =? 0)); [|reflexivity].
  rewrite wrap64_in_range; [lia|].
  unfold GoInt.in_int64, GoInt.min_int64, GoInt.max_int64. lia.
Qed.

(** C9, counterexample: at the instant [2 ^ 53 + 1] seconds after the Unix
    epoch, the int-counter profile builds a histogram whose sum is
    90071992547409936 (the [int64] product, rounded once) while its
    expected value is 90071992547409920 (the seconds rounded to binary64,
    then multiplied). *)
Lemma histogram_sum_differs_from_expected_value :
  let t := FromUnix (2 ^ 53 + 1) in
  H_Sum (generateIntHistogram (generateHistogramIntValue t false) false)
  = 90071992547409936%float
  /\ generateExpHistogramIntValue t false = 90071992547409920%float
  /\ (H_Sum (generateIntHistogram (generateHistogramIntValue t false) false)
      =? generateExpHistogramIntValue t false)%float = false.
Proof. vm_compute. repeat split. Qed.

(** C9, as amended.  The histogram's sum equals the profile's expected
    value at every timestamp for the float profiles, and for the integer
    profiles at every timestamp whose Unix seconds [s] satisfy
    [|s| * 10 < 2 ^ 53]: there [generateIntHistogram v g] has
    [Sum = float64 (10 * v) = float64 v * 10] and [Count = 4 * |v|].
    [generateFloatHistogram v g] has [Sum = v * 10] for every [v], and
    [Count = |v| * 4] for every [v] but the negative zero, whose count is
    the negative zero. *)
Theorem histogram_sum_matches_expected_value :
  (forall value gauge,
     Z.abs value * 10 < 2 ^ 53 ->
     H_Sum (generateIntHistogram value gauge) = GoInt.float64_of_int64 (10 * value)
     /\ H_Sum (generateIntHistogram value gauge) = (GoInt.float64_of_int64 value * 10)%float
     /\ H_Count (generateIntHistogram value gauge) = 4 * Z.abs value)
  /\ (forall value gauge,
        FH_Sum (generateFloatHistogram value gauge) = (value * 10)%float)
  /\ (forall value gauge,
        Prim2SF value <> S754_zero true ->
        FH_Count (generateFloatHistogram value gauge) = (abs value * 4)%float)
  /\ (forall gauge,
        FH_Count (generateFloatHistogram (-0)%float gauge) = (-0)%float
        /\ ((-0) =? abs (-0) * 4)%float = true)
  /\ (forall t gauge,
        Z.abs (Unix t) * 10 < 2 ^ 53 ->
        H_Sum (generateIntHistogram (generateHistogramIntValue t gauge) gauge)
        = generateExpHistogramIntValue t gauge)
  /\ (forall t gauge,
        FH_Sum (generateFloatHistogram (generateHistogramFloatValue t gauge) gauge)
        = generateExpHistogramFloatValue t gauge)
  /\ (forall profile t,
        In profile histogramProfiles ->
        Z.abs (Unix t) * 10 < 2 ^ 53 ->
        histogramSum (generateHistogram profile t) = generateValue profile t).
Proof.
  assert (Hint : forall value gauge, Z.abs value * 10 < 2 ^ 53 ->
            H_Sum (generateIntHistogram value gauge)
            = (GoInt.float64_of_int64 value * 10)%float).
  { intros value gauge H.
    rewrite generateIntHistogram_Sum by lia. now apply float64_of_int64_mul10. }
  assert (Hprof : forall t gauge, Z.abs (Unix t) * 10 < 2 ^ 53 ->
            H_Sum (generateIntHistogram (generateHistogramIntValue t gauge) gauge)
            = generateExpHistogramIntValue t gauge).
  { intros t gauge H. unfold generateExpHistogramIntValue. apply Hint.
    rewrite generateHistogramIntValue_abs; lia. }
  split; [|split; [|split; [|split; [|split; [|split]]]]].
  - intros value gauge H. split; [apply generateIntHistogram_Sum; lia|].
    split; [now apply Hint|]. apply generateIntHistogram_Count. lia.
  - apply generateFloatHistogram_Sum.
  - apply generateFloatHistogram_Count.
  - intros gauge. split; [|vm_compute; reflexivity].
    unfold generateFloatHistogram. rewrite FH_Count_setFloatGauge.
    vm_compute. reflexivity.
  - exact Hprof.
  - intros t gauge. apply generateFloatHistogram_Sum.
  - intros profile t Hin H.
    cbn [histogramProfiles In] in Hin.
    destruct Hin as [<-|[<-|[<-|[<-|[]]]]];
      cbn [generateHistogram generateValue histogramSum];
      first [now apply Hprof | apply generateFloatHistogram_Sum].
Qed.

(** ** The recovery scan: order and termination *)

Lemma timestampOk_range (msec : Z) :
  timestampOk msec = true ->
  GoInt.in_int64 msec /\ GoInt.in_int64 (msec - writeIntervalMillis).
Proof.
  unfold timestampOk, GoInt.in_int64, GoInt.min_int64, GoInt.max_int64, writeIntervalMillis.
  rewrite andb_true_iff, !Z.leb_le. lia.
Qed.

Lemma UnixMilli_previous (msec : Z) :
  timestampOk msec = true ->
  UnixMilli (Add (FromUnixMilli msec) (- writeInterval)) = msec - writeIntervalMillis.
Proof.
  intros H. apply timestampOk_range in H. destruct H as [_ H].
  change (- writeInterval) with (- writeIntervalMillis * Millisecond).
  rewrite UnixMilli_Add_millis.
  replace (msec + - writeIntervalMillis) with (msec - writeIntervalMillis) by lia.
  now apply wrap64_in_range.
Qed.

Section Spacing.

Variable expectedSeries : Z.
Variable generateValue : Time -> float.

Let checkS := checkSample expectedSeries writeInterval generateValue.
Let checkH := checkHistogram expectedSeries writeInterval generateValue.

Lemma checkSample_None (samples : list SamplePair) (idx : nat) :
  checkS samples idx = None <->
  valueOk expectedSeries generateValue (nth idx samples noSample) = true
  /\ ((S idx < length samples)%nat ->
      UnixMilli (FromUnixMilli (sp_Timestamp (nth idx samples noSample)))
      = UnixMilli (Add (FromUnixMilli (sp_Timestamp (nth (S idx) samples noSample)))
                       (- writeInterval))).
Proof.
  unfold checkS, checkSample, valueOk.
  destruct (compareSampleValues _ _); cbn [negb].
  - destruct (Z.ltb_spec (Z.of_nat idx) (Z.of_nat (length samples) - 1)) as [Hlt|Hge].
    + destruct (Z.eqb_spec
        (UnixMilli (FromUnixMilli (sp_Timestamp (nth idx samples noSample))))
        (UnixMilli (Add (FromUnixMilli (sp_Timestamp (nth (S idx) samples noSample)))
                        (- writeInterval)))) as [Heq|Hne]; cbn [negb].
      * split; auto.
      * split; [discriminate|]. intros [_ H]. exfalso. apply Hne, H. lia.
    + split; auto. intros _. split; auto. intros H. lia.
  - split; [discriminate|]. intros [H _]. discriminate.
Qed.

Lemma checkHistogram_None (histograms : list SampleHistogramPair) (idx : nat) :
  checkH histograms idx = None ->
  (S idx < length histograms)%nat ->
  UnixMilli (FromUnixMilli (shp_Timestamp (nth idx histograms noHistogram)))
  = UnixMilli (Add (FromUnixMilli (shp_Timestamp (nth (S idx) histograms noHistogram)))
                   (- writeInterval)).
Proof.
  unfold checkH, checkHistogram. intros H Hlt.
  destruct (shp_Histogram (nth idx histograms noHistogram)) as [h|]; [|discriminate].
  destruct (compareSampleValues _ _); cbn [negb] in H; [|discriminate].
  replace (Z.of_nat idx <? Z.of_nat (length histograms) - 1) with true in H
    by (symmetry; apply Z.ltb_lt; lia).
  destruct (Z.eqb_spec
    (UnixMilli (FromUnixMilli (shp_Timestamp (nth idx histograms noHistogram))))
    (UnixMilli (Add (FromUnixMilli (shp_Timestamp (nth (S idx) histograms noHistogram)))
                    (- writeInterval)))) as [Heq|Hne]; cbn [negb] in H; [exact Heq|discriminate].
Qed.

(** Matching indices are one write interval apart. *)
Lemma matching_run_ordered {A} (ts : A -> Z) (l : list A) (d : A) (k n : nat) :
  Forall (fun x => timestampOk (ts x) = true) l ->
  (forall i, (k <= i)%nat -> (S i < length l)%nat ->
     UnixMilli (FromUnixMilli (ts (nth i l d)))
     = UnixMilli (Add (FromUnixMilli (ts (nth (S i) l d))) (- writeInterval))) ->
  (k + n < length l)%nat ->
  ts (nth k l d) = ts (nth (k + n) l d) - Z.of_nat n * writeIntervalMillis.
Proof.
  intros Hok Hstep. induction n as [|n IH]; intros Hlen.
  - rewrite Nat.add_0_r. lia.
  - rewrite IH by lia.
    assert (H := Hstep (k + n)%nat ltac:(lia) ltac:(lia)).
    rewrite Forall_forall in Hok.
    assert (Hk : timestampOk (ts (nth (k + n) l d)) = true)
      by (apply Hok, nth_In; lia).
    assert (HSk : timestampOk (ts (nth (S (k + n)) l d)) = true)
      by (apply Hok, nth_In; lia).
    rewrite UnixMilli_FromUnixMilli in H by (now apply timestampOk_range).
    rewrite UnixMilli_previous in H by assumption.
    replace (k + S n)%nat with (S (k + n)) by lia. lia.
Qed.

End Spacing.

Section ScanFacts.

Variable cfg : WriteReadSeriesTestConfig.
Variable QueryRange : Time -> Time -> Duration -> QueryResult.
Variable generateValue : Time -> float.

Let verify := verifySamplesSum (NumSeries cfg) writeInterval generateValue.

Lemma verifySamplesSum_floats (samples : list SamplePair) :
  samples <> [] ->
  verify [mkStream [] samples []]
  = verifyLoop (checkSample (NumSeries cfg) writeInterval generateValue samples)
      (length samples) (-1).
Proof.
  intros H. unfold verify, verifySamplesSum. cbn [ss_Values ss_Histograms].
  destruct samples; [congruence|reflexivity].
Qed.

Lemma verifySamplesSum_histograms (histograms : list SampleHistogramPair) :
  histograms <> [] ->
  verify [mkStream [] [] histograms]
  = verifyLoop (checkHistogram (NumSeries cfg) writeInterval generateValue histograms)
      (length histograms) (-1).
Proof.
  intros H. unfold verify, verifySamplesSum. cbn [ss_Values ss_Histograms].
  destruct histograms; [congruence|reflexivity].
Qed.

(** The range the verifier accepts is in order: its oldest timestamp is
    not after its newest. *)
Lemma verified_floats_ordered (samples : list SamplePair) (idx : Z) err :
  Forall (fun p => timestampOk (sp_Timestamp p) = true) samples ->
  samples <> [] ->
  verify [mkStream [] samples []] = (idx, err) -> idx <> -1 ->
  0 <= idx < Z.of_nat (length samples)
  /\ sp_Timestamp (nth (Z.to_nat idx) samples noSample)
     <= sp_Timestamp (nth (length samples - 1) samples noSample).
Proof.
  intros Hok Hne Hv Hidx. rewrite verifySamplesSum_floats in Hv by assumption.
  pose proof (verifyLoop_result
                (checkSample (NumSeries cfg) writeInterval generateValue samples)
                (length samples) (-1)) as R.
  rewrite Hv in R. destruct R as [[-> _]|(Hr & Hm & _)]; [congruence|].
  split; [exact Hr|].
  pose proof (matching_run_ordered sp_Timestamp samples noSample (Z.to_nat idx)
                (length samples - 1 - Z.to_nat idx) Hok) as H.
  replace (Z.to_nat idx + (length samples - 1 - Z.to_nat idx))%nat
    with (length samples - 1)%nat in H by lia.
  rewrite H; [unfold writeIntervalMillis; lia| |lia].
  intros i Hi HSi. apply (checkSample_None (NumSeries cfg) generateValue samples i); [|exact HSi].
  apply Hm. lia.
Qed.

Lemma verified_histograms_ordered (histograms : list SampleHistogramPair) (idx : Z) err :
  Forall (fun p => timestampOk (shp_Timestamp p) = true) histograms ->
  histograms <> [] ->
  verify [mkStream [] [] histograms] = (idx, err) -> idx <> -1 ->
  0 <= idx < Z.of_nat (length histograms)
  /\ shp_Timestamp (nth (Z.to_nat idx) histograms noHistogram)
     <= shp_Timestamp (nth (length histograms - 1) histograms noHistogram).
Proof.
  intros Hok Hne Hv Hidx. rewrite verifySamplesSum_histograms in Hv by assumption.
  pose proof (verifyLoop_result
                (checkHistogram (NumSeries cfg) writeInterval generateValue histograms)
                (length histograms) (-1)) as R.
  rewrite Hv in R. destruct R as [[-> _]|(Hr & Hm & _)]; [congruence|].
  split; [exact Hr|].
  pose proof (matching_run_ordered shp_Timestamp histograms noHistogram (Z.to_nat idx)
                (length histograms - 1 - Z.to_nat idx) Hok) as H.
  replace (Z.to_nat idx + (length histograms - 1 - Z.to_nat idx))%nat
    with (length histograms - 1)%nat in H by lia.
  rewrite H; [unfold writeIntervalMillis; lia| |lia].
  intros i Hi HSi. apply (checkHistogram_None (NumSeries cfg) generateValue histograms i); [|exact HSi].
  apply Hm. lia.
Qed.

Hypothesis client_ok : clientOk QueryRange.

Lemma findLoop_ordered (fuel : nat) :
  forall now endT samples histograms from to range,
    Forall (fun p => timestampOk (sp_Timestamp p) = true) samples ->
    Forall (fun p => timestampOk (shp_Timestamp p) = true) histograms ->
    from <= to ->
    findLoop cfg QueryRange generateValue fuel now endT samples histograms from to
    = Some range ->
    fst range <= snd range.
Proof.
  induction fuel as [|fuel IH]; intros now endT samples histograms from to range Hs Hh Hft;
    [discriminate|].
  cbn [findLoop].
  set (start := alignTimestampToInterval _ writeInterval).
  assert (Hkeep : Some (from, to) = Some range -> fst range <= snd range)
    by (intros [= <-]; exact Hft).
  destruct (negb (Before start endT)); [exact Hkeep|].
  destruct (QueryRange start endT writeInterval) as [matrix|e] eqn:EQ; [|exact Hkeep].
  destruct matrix as [|stream [|stream' matrix]]; [exact Hkeep| |exact Hkeep].
  pose proof (client_ok _ _ _ _ EQ) as Hm. cbn [forallb] in Hm.
  rewrite andb_true_r in Hm. unfold streamOk in Hm.
  apply andb_true_iff in Hm. destruct Hm as [Hv Hg].
  rewrite forallb_forall in Hv, Hg.
  assert (Hs' : Forall (fun p => timestampOk (sp_Timestamp p) = true) (ss_Values stream ++ samples)).
  { apply Forall_app. split; [|exact Hs]. apply Forall_forall. exact Hv. }
  assert (Hh' : Forall (fun p => timestampOk (shp_Timestamp p) = true)
                  (ss_Histograms stream ++ histograms)).
  { apply Forall_app. split; [|exact Hh]. apply Forall_forall. exact Hg. }
  set (samples' := ss_Values stream ++ samples) in *.
  set (histograms' := ss_Histograms stream ++ histograms) in *.
  destruct ((0 <? length samples')%nat && (length histograms' =? 0)%nat) eqn:E1.
  - (* floats *)
    apply andb_true_iff in E1. destruct E1 as [E1 _]. apply Nat.ltb_lt in E1.
    assert (Hne : samples' <> []) by (intros E; rewrite E in E1; cbn in E1; lia).
    cbv iota beta.
    fold verify.
    destruct (verify [mkStream [] samples' []]) as [idx err] eqn:EV.
    destruct (idx =? -1) eqn:Ei; [exact Hkeep|]. apply Z.eqb_neq in Ei.
    destruct (verified_floats_ordered samples' idx err Hs' Hne EV Ei) as [_ Hord].
    apply FromUnixMilli_le in Hord.
    match goal with
    | |- (if ?c then _ else _) = _ -> _ => destruct c
    end.
    + intros [= <-]. exact Hord.
    + apply IH; assumption.
  - destruct ((0 <? length histograms')%nat && (length samples' =? 0)%nat) eqn:E2;
      [|exact Hkeep].
    apply andb_true_iff in E2. destruct E2 as [E2 _]. apply Nat.ltb_lt in E2.
    assert (Hne : histograms' <> []) by (intros E; rewrite E in E2; cbn in E2; lia).
    cbv iota beta.
    fold verify.
    destruct (verify [mkStream [] [] histograms']) as [idx err] eqn:EV.
    destruct (idx =? -1) eqn:Ei; [exact Hkeep|]. apply Z.eqb_neq in Ei.
    destruct (verified_histograms_ordered histograms' idx err Hh' Hne EV Ei) as [_ Hord].
    apply FromUnixMilli_le in Hord.
    match goal with
    | |- (if ?c then _ else _) = _ -> _ => destruct c
    end.
    + intros [= <-]. exact Hord.
    + apply IH; assumption.
Qed.

End ScanFacts.

Lemma maxTime_ge_l (a b : Time) : a <= maxTime a b.
Proof. unfold maxTime, After. destruct (Z.ltb_spec b a); lia. Qed.

Lemma maxTime_ge_r (a b : Time) : b <= maxTime a b.
Proof. unfold maxTime, After. destruct (Z.ltb_spec b a); lia. Qed.

Section ScanTermination.

Variable cfg : WriteReadSeriesTestConfig.
Variable QueryRange : Time -> Time -> Duration -> QueryResult.
Variable generateValue : Time -> float.

Lemma findLoop_terminates (fuel : nat) :
  forall now endT samples histograms from to,
    (1 <= fuel)%nat ->
    endT - scanFloor cfg now < (Z.of_nat fuel - 1) * writeInterval ->
    findLoop cfg QueryRange generateValue fuel now endT samples histograms from to <> None.
Proof.
  induction fuel as [|fuel IH]; intros now endT samples histograms from to Hf Hm; [lia|].
  cbn [findLoop].
  set (start := alignTimestampToInterval _ writeInterval).
  assert (Hfloor : scanFloor cfg now <= start).
  { unfold start, scanFloor, alignTimestampToInterval.
    apply Truncate_mono, maxTime_ge_l. }
  unfold Before. destruct (Z.ltb_spec start endT) as [Hlt|Hge]; cbn [negb]; [|discriminate].
  destruct (QueryRange start endT writeInterval) as [matrix|e]; [|discriminate].
  destruct matrix as [|stream [|stream' matrix]]; [discriminate| |discriminate].
  assert (Hrec : forall s h f t,
            findLoop cfg QueryRange generateValue fuel now (Add start (- writeInterval)) s h f t
            <> None).
  { intros s h f t. apply IH.
    - assert (0 < writeInterval) by reflexivity. nia.
    - unfold Add. assert (0 < writeInterval) by reflexivity. nia. }
  repeat match goal with
  | |- (let (_, _) := ?p in _) <> None => destruct p
  | |- (if ?c then _ else _) <> None => destruct c
  | |- Some _ <> None => discriminate
  | |- findLoop _ _ _ _ _ _ _ _ _ _ <> None => apply Hrec
  | |- match ?o with Some _ => _ | None => _ end <> None => destruct o
  end.
Qed.

Lemma findPreviouslyWrittenTimeRange_returns (now : Time) :
  findLoop cfg QueryRange generateValue (scanFuel cfg now) now
    (alignTimestampToInterval now writeInterval) [] [] zero zero
  = Some (findPreviouslyWrittenTimeRange cfg QueryRange generateValue now).
Proof.
  unfold findPreviouslyWrittenTimeRange.
  pose proof (findLoop_terminates (scanFuel cfg now) now
                (alignTimestampToInterval now writeInterval) [] [] zero zero) as H.
  destruct (findLoop _ _ _ _ _ _ _ _ _ _) as [r|]; [reflexivity|].
  exfalso. apply H; [unfold scanFuel; lia| |reflexivity].
  unfold scanFuel.
  set (d := alignTimestampToInterval now writeInterval - scanFloor cfg now).
  assert (Hw : 0 < writeInterval) by reflexivity.
  rewrite Nat2Z.inj_add.
  destruct (Z.le_gt_cases 0 d) as [Hd|Hd].
  - rewrite Z2Nat.id by (apply Z.div_pos; lia).
    pose proof (Z.mod_pos_bound d writeInterval Hw).
    pose proof (Z.div_mod d writeInterval ltac:(lia)). change (Z.of_nat 2) with 2. nia.
  - assert (0 <= Z.of_nat (Z.to_nat (d / writeInterval))) by lia.
    change (Z.of_nat 2) with 2. nia.
Qed.

Lemma findPreviouslyWrittenTimeRange_ordered (now : Time) :
  clientOk QueryRange ->
  let (from, to) := findPreviouslyWrittenTimeRange cfg QueryRange generateValue now in
  from <= to.
Proof.
  intros Hc.
  pose proof (findLoop_ordered cfg QueryRange generateValue Hc (scanFuel cfg now) now
                (alignTimestampToInterval now writeInterval) [] [] zero zero
                (findPreviouslyWrittenTimeRange cfg QueryRange generateValue now)
                (Forall_nil _) (Forall_nil _) (Z.le_refl _)
                (findPreviouslyWrittenTimeRange_returns now)) as H.
  now destruct (findPreviouslyWrittenTimeRange cfg QueryRange generateValue now).
Qed.

End ScanTermination.

(** The invariant carried along [reachable]. *)
Lemma reachable_invariant (records : MetricHistory) (written : bool) :
  reachable records written ->
  0 <= lastWrittenTimestamp records
  /\ ((queryMinTime records = zero /\ queryMaxTime records = zero)
      \/ (queryMinTime records <> zero
          /\ queryMinTime records <= queryMaxTime records
          /\ queryMaxTime records = lastWrittenTimestamp records
          /\ 0 < lastWrittenTimestamp records))
  /\ (written = true -> 0 < lastWrittenTimestamp records).
Proof.
  induction 1 as [|cfg QueryRange generateValue now records written Hr IH Hc Hnow
                  |response now records written Hr IH Hnow].
  - cbn. unfold zero. split; [lia|]. split; [left; auto|discriminate].
  - pose proof (findPreviouslyWrittenTimeRange_ordered cfg QueryRange generateValue now Hc) as Hord.
    unfold recoverPast, recovers.
    destruct (findPreviouslyWrittenTimeRange cfg QueryRange generateValue now) as [from to].
    destruct IH as (IH1 & IH2 & IH3).
    unfold IsZero, Before, Add.
    destruct (Z.eqb_spec from 0) as [Hf|Hf]; cbn [orb negb andb fst].
    { rewrite orb_false_r. auto. }
    destruct (Z.eqb_spec to 0) as [Ht|Ht]; cbn [orb negb andb fst].
    { rewrite orb_false_r. auto. }
    unfold clockOk in Hnow.
    destruct (Z.ltb_spec to (now + - writeMaxAge)) as [Hs|Hs]; cbn [negb fst].
    { rewrite orb_false_r. auto. }
    cbn [lastWrittenTimestamp queryMinTime queryMaxTime].
    split; [lia|]. split; [right; unfold zero; repeat split; lia|]. intros _. lia.
  - destruct IH as (IH1 & IH2 & IH3).
    assert (Hts : 0 < nextWriteTimestamp now records).
    { unfold nextWriteTimestamp, IsZero, alignTimestampToInterval, Add.
      destruct (Z.eqb_spec (lastWrittenTimestamp records) 0).
      - pose proof (Truncate_gt now writeInterval ltac:(reflexivity)).
        unfold clockOk in Hnow.
        assert (writeInterval < writeMaxAge) by reflexivity. lia.
      - assert (0 < writeInterval) by reflexivity. lia. }
    assert (Hnext : lastWrittenTimestamp records <> 0 ->
                    lastWrittenTimestamp records < nextWriteTimestamp now records).
    { intros Hne. unfold nextWriteTimestamp, IsZero, Add.
      destruct (Z.eqb_spec (lastWrittenTimestamp records) 0); [contradiction|].
      assert (0 < writeInterval) by reflexivity. lia. }
    set (ts := nextWriteTimestamp now records) in *.
    destruct response as [statusCode err]. unfold writeSamples, succeeded.
    destruct (Z.quot statusCode 100 =? 4) eqn:E4;
      cbn [fst lastWrittenTimestamp queryMinTime queryMaxTime].
    { split; [lia|]. split; [left; auto|]. intros _. exact Hts. }
    destruct err as [e|]; cbn [fst Errors.Wrap].
    { rewrite orb_false_r. auto. }
    destruct (Z.quot statusCode 100 =? 2) eqn:E2;
      cbn [negb fst Errors.Wrapf Errors.Wrap lastWrittenTimestamp queryMinTime queryMaxTime].
    + split; [lia|]. split; [|intros _; exact Hts].
      right. unfold IsZero.
      destruct (Z.eqb_spec (queryMinTime records) 0) as [Hz|Hz].
      * unfold zero. repeat split; lia.
      * destruct IH2 as [[Hq _]|(Hq1 & Hq2 & Hq3 & Hq4)]; [unfold zero in Hq; contradiction|].
        assert (lastWrittenTimestamp records < ts) by (apply Hnext; lia).
        unfold zero. repeat split; lia.
    + rewrite orb_false_r. auto.
Qed.

(** C5: in every history a profile can reach (from the zero value, by
    [recoverPast] and by [writeSamples] at [nextWriteTimestamp] with any
    response), [queryMinTime <= queryMaxTime <= lastWrittenTimestamp]
    whenever both query bounds are non-zero, and the three timestamps are
    zero together only while no write has succeeded and no range has been
    recovered.  The clock is taken to read later than the first 50 minutes
    of year 1, so that no timestamp the test handles is the zero time, and
    sample timestamps to be [int64] values at least one write interval
    above the smallest one. *)
Theorem history_invariant (records : MetricHistory) (written : bool) :
  reachable records written ->
  (queryMinTime records <> zero -> queryMaxTime records <> zero ->
   queryMinTime records <= queryMaxTime records
   /\ queryMaxTime records <= lastWrittenTimestamp records)
  /\ (lastWrittenTimestamp records = zero -> queryMinTime records = zero ->
      queryMaxTime records = zero -> written = false).
Proof.
  intros H. destruct (reachable_invariant records written H) as (H1 & H2 & H3).
  split.
  - intros Hmin Hmax. destruct H2 as [[Hz _]|(_ & Hle & Heq & _)]; [contradiction|lia].
  - intros Hlw _ _. destruct written; [|reflexivity].
    specialize (H3 eq_refl). unfold zero in Hlw. lia.
Qed.

(** ** The recovery scan: a history preceded by a missing interval *)

Lemma verifyLoop_run check (k d : nat) :
  (0 < d)%nat ->
  (forall idx, (k <= idx < k + d)%nat -> check idx = None) ->
  ((0 < k)%nat -> check (k - 1)%nat <> None) ->
  fst (verifyLoop check (k + d) (-1)) = Z.of_nat k.
Proof.
  intros Hd Hrun Hgap. rewrite verifyLoop_matches by assumption.
  destruct d as [|d]; [lia|].
  destruct k as [|k]; [reflexivity|].
  cbn [verifyLoop]. specialize (Hgap ltac:(lia)).
  replace (S k - 1)%nat with k in Hgap by lia.
  destruct (check k); [reflexivity|congruence].
Qed.

Lemma spacedFrom_nth (first : Z) (points : list SamplePair) (i : nat) :
  spacedFrom first points = true -> (i < length points)%nat ->
  sp_Timestamp (nth i points noSample) = first + Z.of_nat i * writeIntervalMillis.
Proof.
  revert first i. induction points as [|p points IH]; intros first i H Hi; [cbn in Hi; lia|].
  cbn [spacedFrom] in H. apply andb_true_iff in H. destruct H as [Hp H].
  apply Z.eqb_eq in Hp. destruct i as [|i]; cbn [nth].
  - lia.
  - rewrite (IH _ _ H) by (cbn in Hi; lia). lia.
Qed.

Lemma checkHistogram_toHistogramPair n step gen (points : list SamplePair) (idx : nat) :
  (idx < length points)%nat ->
  checkHistogram n step gen (map toHistogramPair points) idx = None <->
  checkSample n step gen points idx = None.
Proof.
  intros Hidx. unfold checkHistogram, checkSample. rewrite length_map.
  rewrite (nth_indep _ noHistogram (toHistogramPair noSample)) by (now rewrite length_map).
  rewrite map_nth. cbn [toHistogramPair shp_Histogram shp_Timestamp sh_Sum].
  destruct (compareSampleValues _ _); cbn [negb]; [|split; discriminate].
  destruct (Z.ltb_spec (Z.of_nat idx) (Z.of_nat (length points) - 1)) as [Hlt|Hge];
    [|tauto].
  rewrite (nth_indep _ noHistogram (toHistogramPair noSample))
    by (rewrite length_map; lia).
  rewrite map_nth. cbn [toHistogramPair shp_Timestamp].
  destruct (negb _); split; intros; congruence.
Qed.

Section GapScenario.

Variable expectedSeries : Z.
Variable generateValue : Time -> float.
Variable older recent : list SamplePair.
Variable first : Z.

Hypothesis recent_nonempty : recent <> [].
Hypothesis recent_spaced : spacedFrom first recent = true.
Hypothesis recent_valued : forallb (valueOk expectedSeries generateValue) recent = true.
Hypothesis older_before :
  forallb (fun p => sp_Timestamp p <? first - writeIntervalMillis) older = true.
Hypothesis timestamps_ok :
  forallb (fun p => timestampOk (sp_Timestamp p)) (older ++ recent) = true.

Let samples := older ++ recent.
Let check := checkSample expectedSeries writeInterval generateValue samples.

Lemma scenario_nth_recent (i : nat) :
  (i < length recent)%nat ->
  nth (length older + i) samples noSample = nth i recent noSample.
Proof.
  intros Hi. unfold samples. rewrite app_nth2 by lia. f_equal. lia.
Qed.

Lemma scenario_timestampOk (i : nat) :
  (i < length samples)%nat -> timestampOk (sp_Timestamp (nth i samples noSample)) = true.
Proof.
  intros Hi. rewrite forallb_forall in timestamps_ok.
  apply (timestamps_ok (nth i samples noSample)). now apply nth_In.
Qed.

Lemma scenario_run (idx : nat) :
  (length older <= idx < length older + length recent)%nat -> check idx = None.
Proof.
  intros Hidx. apply checkSample_None.
  assert (Hlen : length samples = (length older + length recent)%nat)
    by (unfold samples; apply length_app).
  replace idx with (length older + (idx - length older))%nat by lia.
  set (i := (idx - length older)%nat). assert (Hi : (i < length recent)%nat) by lia.
  split.
  - rewrite scenario_nth_recent by assumption.
    rewrite forallb_forall in recent_valued. apply recent_valued. now apply nth_In.
  - intros HS.
    rewrite UnixMilli_FromUnixMilli
      by (apply timestampOk_range, scenario_timestampOk; lia).
    rewrite UnixMilli_previous by (apply scenario_timestampOk; lia).
    replace (S (length older + i)) with (length older + S i)%nat by lia.
    rewrite !scenario_nth_recent by lia.
    rewrite !(spacedFrom_nth first recent) by (assumption || lia). lia.
Qed.

Lemma scenario_gap : (0 < length older)%nat -> check (length older - 1)%nat <> None.
Proof.
  intros Hk Hnone. apply checkSample_None in Hnone. destruct Hnone as [_ Hs].
  assert (Hlen : length samples = (length older + length recent)%nat)
    by (unfold samples; apply length_app).
  assert (Hd : (0 < length recent)%nat)
    by (destruct recent; [congruence|cbn; lia]).
  specialize (Hs ltac:(lia)).
  rewrite UnixMilli_FromUnixMilli in Hs
    by (apply timestampOk_range, scenario_timestampOk; lia).
  rewrite UnixMilli_previous in Hs by (apply scenario_timestampOk; lia).
  replace (S (length older - 1)) with (length older + 0)%nat in Hs by lia.
  rewrite scenario_nth_recent in Hs by lia.
  rewrite (spacedFrom_nth first recent) in Hs by (assumption || lia).
  unfold samples in Hs. rewrite app_nth1 in Hs by lia.
  rewrite forallb_forall in older_before.
  assert (Hin : In (nth (length older - 1) older noSample) older) by (apply nth_In; lia).
  apply older_before in Hin. apply Z.ltb_lt in Hin. lia.
Qed.

Lemma scenario_verify_floats :
  fst (verifySamplesSum expectedSeries writeInterval generateValue [mkStream [] samples []])
  = Z.of_nat (length older).
Proof.
  assert (Hd : (0 < length recent)%nat)
    by (destruct recent; [congruence|cbn; lia]).
  unfold verifySamplesSum. cbn [ss_Values ss_Histograms length].
  assert (Hlen : length samples = (length older + length recent)%nat)
    by (unfold samples; apply length_app).
  replace (0 <? length samples)%nat with true by (symmetry; apply Nat.ltb_lt; lia).
  cbn [Nat.ltb Nat.leb andb negb]. rewrite Hlen.
  apply verifyLoop_run; [exact Hd|apply scenario_run|apply scenario_gap].
Qed.

Lemma scenario_verify_histograms :
  fst (verifySamplesSum expectedSeries writeInterval generateValue
         [mkStream [] [] (map toHistogramPair samples)])
  = Z.of_nat (length older).
Proof.
  assert (Hd : (0 < length recent)%nat)
    by (destruct recent; [congruence|cbn; lia]).
  unfold verifySamplesSum. cbn [ss_Values ss_Histograms length].
  assert (Hlen : length samples = (length older + length recent)%nat)
    by (unfold samples; apply length_app).
  rewrite length_map.
  replace (0 <? length samples)%nat with true by (symmetry; apply Nat.ltb_lt; lia).
  cbn [Nat.ltb Nat.leb andb negb]. rewrite Hlen.
  apply verifyLoop_run; [exact Hd| |].
  - intros idx Hidx. apply checkHistogram_toHistogramPair; [lia|]. now apply scenario_run.
  - intros Hk Hnone. apply checkHistogram_toHistogramPair in Hnone; [|lia].
    now apply scenario_gap.
Qed.

End GapScenario.

Lemma scanFuel_pos cfg now : exists fuel, scanFuel cfg now = S (S fuel).
Proof.
  unfold scanFuel. exists (Z.to_nat
    ((alignTimestampToInterval now writeInterval - scanFloor cfg now) / writeInterval)).
  lia.
Qed.

(** C6, as amended: let the range query over the scan's first window, from
    [start] (the later of [now - MaxQueryAge] and 24h before [end], aligned)
    to [end] ([now] aligned), return one series, of floats or of
    histograms, made of points older than a missing write interval followed
    by the history: points one write interval apart from [first] to
    [last], each carrying the expected value; and let the window hold the
    missing interval and the history ([start] is not after the missing
    interval, [last] not after [end]).  Then the scan returns exactly
    [(first, last)], three hours apart when the history has 541 points, and
    [recoverPast] sets [queryMinTime = first], [queryMaxTime = last] and
    [lastWrittenTimestamp = last] when [last] is within the staleness bound
    (and neither is the zero time). *)
Theorem recovery_scan_recovers_history
    (cfg : WriteReadSeriesTestConfig)
    (QueryRange : Time -> Time -> Duration -> QueryResult)
    (generateValue : Time -> float) (now : Time)
    (asHistograms : bool) (older recent : list SamplePair) (first : Z) :
  let endT := alignTimestampToInterval now writeInterval in
  let start :=
    alignTimestampToInterval
      (maxTime (Add now (- MaxQueryAge cfg)) (Add (Add endT (-24 * Hour)) writeInterval))
      writeInterval in
  let last := first + (Z.of_nat (length recent) - 1) * writeIntervalMillis in
  recent <> [] ->
  spacedFrom first recent = true ->
  forallb (valueOk (NumSeries cfg) generateValue) recent = true ->
  forallb (fun p => sp_Timestamp p <? first - writeIntervalMillis) older = true ->
  forallb (fun p => timestampOk (sp_Timestamp p)) (older ++ recent) = true ->
  start <= FromUnixMilli (first - writeIntervalMillis) ->
  FromUnixMilli last <= endT ->
  QueryRange start endT writeInterval = QueryOk [streamOf asHistograms (older ++ recent)] ->
  findPreviouslyWrittenTimeRange cfg QueryRange generateValue now
  = (FromUnixMilli first, FromUnixMilli last)
  /\ (length recent = 541%nat -> FromUnixMilli last - FromUnixMilli first = 3 * Hour)
  /\ (FromUnixMilli first <> zero -> FromUnixMilli last <> zero ->
      Add now (- writeMaxAge) <= FromUnixMilli last ->
      forall records,
        recoverPast cfg QueryRange generateValue now records
        = (mkHistory (FromUnixMilli last) (FromUnixMilli first) (FromUnixMilli last), None)).
Proof.
  intros endT start last Hne Hsp Hval Hold Hok Hstart Hlast HQ.
  assert (Hd : (0 < length recent)%nat) by (destruct recent; [congruence|cbn; lia]).
  assert (Hlen : length (older ++ recent) = (length older + length recent)%nat)
    by apply length_app.
  assert (Hnth_first : sp_Timestamp (nth (length older) (older ++ recent) noSample) = first).
  { rewrite app_nth2 by lia. rewrite Nat.sub_diag.
    rewrite (spacedFrom_nth first recent) by (assumption || lia). lia. }
  assert (Hnth_last :
            sp_Timestamp (nth (length (older ++ recent) - 1) (older ++ recent) noSample) = last).
  { rewrite Hlen, app_nth2 by lia.
    rewrite (spacedFrom_nth first recent) by (assumption || lia).
    unfold last, writeIntervalMillis. lia. }
  assert (Hfl : FromUnixMilli first <= FromUnixMilli last).
  { unfold last, FromUnixMilli, writeIntervalMillis, Millisecond. lia. }
  assert (Hlt : start < endT).
  { assert (FromUnixMilli (first - writeIntervalMillis) < FromUnixMilli first)
      by (unfold FromUnixMilli, writeIntervalMillis, Millisecond; lia).
    lia. }
  assert (Hfind : findPreviouslyWrittenTimeRange cfg QueryRange generateValue now
                  = (FromUnixMilli first, FromUnixMilli last)).
  { unfold findPreviouslyWrittenTimeRange.
    destruct (scanFuel_pos cfg now) as (fuel & ->).
    cbn [findLoop]. fold endT. fold start.
    unfold Before. replace (start <? endT) with true by (symmetry; now apply Z.ltb_lt).
    cbn [negb]. rewrite HQ.
    destruct asHistograms; cbn [streamOf ss_Values ss_Histograms app]; rewrite app_nil_r.
    - (* histograms *)
      rewrite length_map.
      replace (0 <? length (older ++ recent))%nat with true
        by (symmetry; apply Nat.ltb_lt; lia).
      cbn [length Nat.ltb Nat.leb Nat.eqb andb].
      pose proof (scenario_verify_histograms (NumSeries cfg) generateValue older recent first
                    Hne Hsp Hval Hold Hok) as Hv.
      destruct (verifySamplesSum _ _ _ _) as [idx err]. cbn [fst] in Hv. subst idx.
      replace (Z.of_nat (length older) =? -1) with false by (symmetry; apply Z.eqb_neq; lia).
      rewrite Nat2Z.id.
      rewrite !(nth_indep _ noHistogram (toHistogramPair noSample))
        by (rewrite length_map; lia).
      rewrite !map_nth. cbn [toHistogramPair shp_Timestamp].
      rewrite Hnth_first, Hnth_last.
      match goal with |- context [if ?c then Some _ else _] => replace c with true end;
        [reflexivity|].
      symmetry. cbn [negb andb orb]. rewrite orb_false_r.
      destruct (Z.eqb_spec (Z.of_nat (length older)) 0) as [Hz|Hz]; cbn [negb orb];
        [|reflexivity].
      assert (Hk : length older = 0%nat) by lia. rewrite Hk in Hnth_first.
      rewrite Hnth_first. unfold Equal. apply negb_true_iff, Z.eqb_neq.
      unfold FromUnixMilli, writeIntervalMillis, Millisecond in *. lia.
    - (* floats *)
      replace (0 <? length (older ++ recent))%nat with true
        by (symmetry; apply Nat.ltb_lt; lia).
      cbn [length Nat.ltb Nat.leb Nat.eqb andb].
      pose proof (scenario_verify_floats (NumSeries cfg) generateValue older recent first
                    Hne Hsp Hval Hold Hok) as Hv.
      destruct (verifySamplesSum _ _ _ _) as [idx err]. cbn [fst] in Hv. subst idx.
      replace (Z.of_nat (length older) =? -1) with false by (symmetry; apply Z.eqb_neq; lia).
      rewrite Nat2Z.id.
      rewrite Hnth_first, Hnth_last.
      match goal with |- context [if ?c then Some _ else _] => replace c with true end;
        [reflexivity|].
      symmetry. cbn [negb andb orb]. rewrite orb_false_r.
      destruct (Z.eqb_spec (Z.of_nat (length older)) 0) as [Hz|Hz]; cbn [negb orb];
        [|reflexivity].
      assert (Hk : length older = 0%nat) by lia. rewrite Hk in Hnth_first.
      rewrite Hnth_first. unfold Equal. apply negb_true_iff, Z.eqb_neq.
      unfold FromUnixMilli, writeIntervalMillis, Millisecond in *. lia. }
  split; [exact Hfind|]. split.
  - intros H541. unfold last. rewrite H541.
    unfold FromUnixMilli, writeIntervalMillis, Millisecond, Hour, Minute, Second. lia.
  - intros Hf Hl Hfresh records. unfold recoverPast. rewrite Hfind.
    unfold IsZero, Before.
    replace (FromUnixMilli first =? 0) with false by (symmetry; now apply Z.eqb_neq).
    replace (FromUnixMilli last =? 0) with false by (symmetry; now apply Z.eqb_neq).
    replace (FromUnixMilli last <? Add now (- writeMaxAge)) with false
      by (symmetry; apply Z.ltb_ge; exact Hfresh).
    reflexivity.
Qed.

(** C6, counterexample: the store holds exactly three hours of valid
    history, from 20:55:00 to 23:55:00, and nothing before; the newest
    point is five minutes old at 00:00:07.  With a max query age of one
    hour the scan returns the range from 23:00:00 to 23:55:00, and
    [recoverPast] takes that range over: 55 minutes, not the three hours. *)
Lemma recovery_scan_stops_at_max_query_age :
  length Scenario.threeHours = 541%nat
  /\ spacedFrom Scenario.oldest Scenario.threeHours = true
  /\ forallb (valueOk 1 Scenario.expected) Scenario.threeHours = true
  /\ FromUnixMilli Scenario.newest - FromUnixMilli Scenario.oldest = 3 * Hour
  /\ Before (FromUnixMilli Scenario.newest) (Add Scenario.now (- writeMaxAge)) = false
  /\ findPreviouslyWrittenTimeRange Scenario.cfgHour
       (storeQueryRange true Scenario.threeHours) Scenario.expected Scenario.now
     = (FromUnixMilli (Scenario.newest - 3300000), FromUnixMilli Scenario.newest)
  /\ recoverPast Scenario.cfgHour
       (storeQueryRange true Scenario.threeHours) Scenario.expected Scenario.now emptyHistory
     = (mkHistory (FromUnixMilli Scenario.newest)
          (FromUnixMilli (Scenario.newest - 3300000))
          (FromUnixMilli Scenario.newest),
        None).
Proof. vm_compute. repeat split. Qed.

(** ** Instances *)

Lemma storeQueryRange_clientOk (asHistograms : bool) (data : list SamplePair) :
  forallb (fun p => timestampOk (sp_Timestamp p)) data = true ->
  clientOk (storeQueryRange asHistograms data).
Proof.
  intros Hdata start endT step matrix. unfold storeQueryRange.
  assert (Hf : forallb (fun p => timestampOk (sp_Timestamp p))
                 (filter (inWindow start endT step) data) = true).
  { rewrite forallb_forall in *. intros p Hp. apply Hdata.
    apply filter_In in Hp. tauto. }
  destruct (filter (inWindow start endT step) data) as [|p points];
    intros [= <-]; [reflexivity|].
  cbn [forallb]. rewrite andb_true_r. unfold streamOk.
  destruct asHistograms; cbn [streamOf ss_Values ss_Histograms].
  - cbn [forallb andb]. rewrite forallb_forall in *. intros h Hh.
    apply in_map_iff in Hh. destruct Hh as (q & <- & Hq). now apply Hf.
  - rewrite Hf. reflexivity.
Qed.

Lemma verifySamplesSum_detects_gap_witness :
  let t := Scenario.oldest in
  verifySamplesSum 1 (20000 * Millisecond) Scenario.expected
    [mkStream []
       [mkSample t (Scenario.stored t);
        mkSample (t + 20000) (Scenario.stored (t + 20000));
        mkSample (t + 3 * 20000) (Scenario.stored (t + 3 * 20000))] []]
  = (2, Some (ErrSampleTimestamp (t + 20000) (t + 2 * 20000) (t + 3 * 20000))).
Proof.
  intros t.
  apply (verifySamplesSum_detects_gap 1 Scenario.expected [] t 20000
           (Scenario.stored t) (Scenario.stored (t + 20000))
           (Scenario.stored (t + 3 * 20000)));
    try discriminate; try (vm_compute; reflexivity);
    vm_compute; split; discriminate.
Defined.

Lemma getQueryTimeRanges_two_hours_witness :
  let now := Add Scenario.now (3 * Hour) in
  fst (fst (getQueryTimeRanges Scenario.cfgWeek Scenario.draw0 Scenario.draw0 now
              (mkHistory (Add now (-5 * Minute)) (Add now (-2 * Hour)) (Add now (-5 * Minute)))))
  = [ (Add now (-1 * Hour), Add now (-5 * Minute));
      (Add now (-2 * Hour), Add now (-5 * Minute));
      (Add now (-2 * Hour), Add now (-2 * Hour)) ].
Proof.
  intros now.
  rewrite (getQueryTimeRanges_two_hours Scenario.cfgWeek Scenario.draw0 Scenario.draw0
             now (Add now (-5 * Minute)));
    [vm_compute; reflexivity | vm_compute; reflexivity | discriminate | discriminate].
Defined.

Lemma history_invariant_witness :
  (queryMinTime Scenario.refused <> zero -> queryMaxTime Scenario.refused <> zero ->
   queryMinTime Scenario.refused <= queryMaxTime Scenario.refused
   /\ queryMaxTime Scenario.refused <= lastWrittenTimestamp Scenario.refused)
  /\ (lastWrittenTimestamp Scenario.refused = zero -> queryMinTime Scenario.refused = zero ->
      queryMaxTime Scenario.refused = zero ->
      false
      || recovers Scenario.cfgWeek (storeQueryRange true Scenario.threeHours)
           Scenario.expected Scenario.now
      || succeeded (200, None)
      || succeeded (400, Some (Errors.New "bad request")) = false).
Proof.
  apply history_invariant.
  apply reach_writeSamples; [|vm_compute; reflexivity].
  apply reach_writeSamples; [|vm_compute; reflexivity].
  apply reach_recoverPast; [apply reach_new| |vm_compute; reflexivity].
  apply storeQueryRange_clientOk. vm_compute. reflexivity.
Defined.

Lemma recovery_scan_recovers_history_witness :
  findPreviouslyWrittenTimeRange Scenario.cfgWeek
    (storeQueryRange true (Scenario.beforeGap ++ Scenario.threeHours))
    Scenario.expected Scenario.now
  = (FromUnixMilli Scenario.oldest, FromUnixMilli Scenario.newest).
Proof.
  refine (proj1 (recovery_scan_recovers_history Scenario.cfgWeek
                   (storeQueryRange true (Scenario.beforeGap ++ Scenario.threeHours))
                   Scenario.expected Scenario.now true
                   Scenario.beforeGap Scenario.threeHours Scenario.oldest
                   _ _ _ _ _ _ _ _));
    try (vm_compute; reflexivity); vm_compute; discriminate.
Defined.


Lemma verifySamplesSum_rejects_malformed_witness :
  verifySamplesSum 1 writeInterval Scenario.expected [] = (-1, Some (ErrSeriesCount 0))
  /\ verifySamplesSum 1 writeInterval Scenario.expected
       [mkStream [] [noSample] [noHistogram]]
     = (-1, Some ErrFloatsAndHistograms)
  /\ verifySamplesSum 1 writeInterval Scenario.expected [mkStream [] [] []]
     = (-1, Some ErrNoFloatsNoHistograms).
Proof.
  split; [|split].
  - apply (proj1 (verifySamplesSum_rejects_malformed 1 writeInterval Scenario.expected [])).
    discriminate.
  - apply (proj1 (proj2 (verifySamplesSum_rejects_malformed 1 writeInterval Scenario.expected
                           [mkStream [] [noSample] [noHistogram]]))
             (mkStream [] [noSample] [noHistogram]));
      [reflexivity|discriminate|discriminate].
  - apply (proj2 (proj2 (verifySamplesSum_rejects_malformed 1 writeInterval Scenario.expected
                           [mkStream [] [] []]))
             (mkStream [] [] [])); reflexivity.
Defined.

Lemma histogram_sum_matches_expected_value_witness :
  H_Sum (generateIntHistogram (generateHistogramIntValue Scenario.now true) true)
  = generateExpHistogramIntValue Scenario.now true
  /\ H_Count (generateIntHistogram (-1704067207) true) = 4 * 1704067207.
Proof.
  split.
  - apply (proj1 (proj2 (proj2 (proj2 (proj2 histogram_sum_matches_expected_value))))
             Scenario.now true).
    vm_compute. reflexivity.
  - apply (proj1 histogram_sum_matches_expected_value (-1704067207) true).
    vm_compute. reflexivity.
Defined.

Lemma retry_Do_policy_witness :
  Retry.Do Scenario.handlerError unit Scenario.notAPIError Scenario.notCanceled
    Scenario.statusOf Scenario.liveContext Scenario.always500 5
  = Retry.mkDoResult Scenario.handlerError unit None (Some Scenario.InternalServerError) 5 5.
Proof.
  destruct (proj1 (proj2 (proj2
              (retry_Do_policy Scenario.handlerError unit Scenario.notAPIError
                 Scenario.notCanceled Scenario.statusOf Scenario.liveContext
                 Scenario.always500 5))) 4%nat eq_refl) as (err & Hnext & Hdo).
  - intros i Hi. split; [reflexivity|].
    exists Scenario.InternalServerError. split; reflexivity.
  - injection Hnext as <-. exact Hdo.
Defined.

(** ** Further properties *)


(** The range the scan returns is in order, for every client whose sample
    timestamps are well formed. *)
Theorem recovered_range_ordered
    (cfg : WriteReadSeriesTestConfig) (QueryRange : Time -> Time -> Duration -> QueryResult)
    (generateValue : Time -> float) (now : Time) :
  clientOk QueryRange ->
  Before (snd (findPreviouslyWrittenTimeRange cfg QueryRange generateValue now))
         (fst (findPreviouslyWrittenTimeRange cfg QueryRange generateValue now)) = false.
Proof.
  intros H.
  pose proof (findPreviouslyWrittenTimeRange_ordered cfg QueryRange generateValue now H) as Hord.
  destruct (findPreviouslyWrittenTimeRange cfg QueryRange generateValue now) as [from to].
  cbn [fst snd]. unfold Before. apply Z.ltb_ge. exact Hord.
Qed.

Lemma recovered_range_ordered_witness :
  Before (snd (findPreviouslyWrittenTimeRange Scenario.cfgHour
                 (storeQueryRange false Scenario.threeHours) Scenario.expected Scenario.now))
         (fst (findPreviouslyWrittenTimeRange Scenario.cfgHour
                 (storeQueryRange false Scenario.threeHours) Scenario.expected Scenario.now))
  = false.
Proof.
  apply recovered_range_ordered.
  apply storeQueryRange_clientOk. vm_compute. reflexivity.
Defined.

(** A write answered with a 4xx status, with or without an error value,
    moves [lastWrittenTimestamp] to the written timestamp, resets both query
    bounds to the zero time, returns no error, and the write loop goes on
    with the next call. *)
Theorem write_4xx_advances_and_continues
    (WaitN : nat -> option Errors.error)
    (WriteSeries : nat -> Time -> Z * option Errors.error)
    (fuel call : nat) (now : Time) (records : MetricHistory)
    (errs : list Errors.error) (statusCode : Z) (err : option Errors.error) :
  let timestamp := nextWriteTimestamp now records in
  After timestamp now = false ->
  WaitN call = None ->
  WriteSeries call timestamp = (statusCode, err) ->
  Z.quot statusCode 100 = 4 ->
  writeSamples (statusCode, err) timestamp records = (mkHistory timestamp zero zero, None)
  /\ writeLoop WaitN WriteSeries (S fuel) call now records errs
     = writeLoop WaitN WriteSeries fuel (S call) now (mkHistory timestamp zero zero) errs.
Proof.
  intros timestamp Hnow Hwait Hresp H4.
  split; [now apply writeSamples_4xx|].
  cbn [writeLoop]. fold timestamp.
  now rewrite Hnow, Hwait, Hresp, writeSamples_4xx.
Qed.

Lemma write_4xx_advances_and_continues_witness :
  writeSamples (400, Some (Errors.New "bad request"))
    (nextWriteTimestamp Scenario.now Scenario.written) Scenario.written
  = (mkHistory (nextWriteTimestamp Scenario.now Scenario.written) zero zero, None).
Proof.
  refine (proj1 (write_4xx_advances_and_continues
                   (fun _ => None) (fun _ _ => (400, Some (Errors.New "bad request")))
                   0 0 Scenario.now Scenario.written [] 400
                   (Some (Errors.New "bad request")) _ _ _ _));
    vm_compute; reflexivity.
Defined.

(** A write that fails with an error value and a status outside 4xx (a
    network error, or a 5xx reported with an error) leaves the history
    unchanged, returns the wrapped error, and ends the write loop: no
    further write is sent in this run. *)
Theorem write_error_aborts
    (WaitN : nat -> option Errors.error)
    (WriteSeries : nat -> Time -> Z * option Errors.error)
    (fuel call : nat) (now : Time) (records : MetricHistory)
    (errs : list Errors.error) (statusCode : Z) (err : Errors.error) :
  let timestamp := nextWriteTimestamp now records in
  let wrapped := Errors.Wrapped "failed to remote write series" err in
  After timestamp now = false ->
  WaitN call = None ->
  WriteSeries call timestamp = (statusCode, Some err) ->
  Z.quot statusCode 100 <> 4 ->
  writeSamples (statusCode, Some err) timestamp records = (records, Some wrapped)
  /\ writeLoop WaitN WriteSeries (S fuel) call now records errs
     = Some (mkLoopResult records (errs ++ [wrapped]) LoopBroken (S call)).
Proof.
  intros timestamp wrapped Hnow Hwait Hresp H4.
  split; [now apply writeSamples_error|].
  cbn [writeLoop]. fold timestamp.
  now rewrite Hnow, Hwait, Hresp, writeSamples_error.
Qed.

Lemma write_error_aborts_witness :
  writeLoop (fun _ => None) (fun _ _ => (503, Some (Errors.New "unavailable")))
    1 0 Scenario.now Scenario.recovered []
  = Some (mkLoopResult Scenario.recovered
            [Errors.Wrapped "failed to remote write series" (Errors.New "unavailable")]
            LoopBroken 1).
Proof.
  refine (proj2 (write_error_aborts
                   (fun _ => None) (fun _ _ => (503, Some (Errors.New "unavailable")))
                   0 0 Scenario.now Scenario.recovered [] 503
                   (Errors.New "unavailable") _ _ _ _));
    try (vm_compute; reflexivity); discriminate.
Defined.

(** ** Time helpers *)

Lemma timeSub_in_int64 (t u : Time) : GoInt.in_int64 (timeSub t u).
Proof. unfold timeSub, GoInt.in_int64, GoInt.min_int64, GoInt.max_int64. lia. Qed.

Lemma div64_small (a b : Z) :
  GoInt.in_int64 a -> 0 < b -> div64 a b = Z.quot a b.
Proof.
  intros Ha Hb. unfold div64. apply wrap64_in_range.
  unfold GoInt.in_int64, GoInt.min_int64, GoInt.max_int64 in *.
  destruct (Z.le_gt_cases 0 a) as [H|H].
  - pose proof (Z.quot_pos a b H Hb).
    assert (Z.quot a b <= a).
    { rewrite Z.quot_div_nonneg by lia. apply Z.div_le_upper_bound; nia. }
    lia.
  - assert (Hq : Z.quot a b = - Z.quot (- a) b) by (rewrite Z.quot_opp_l by lia; lia).
    assert (0 <= Z.quot (- a) b) by (apply Z.quot_pos; lia).
    assert (Z.quot (- a) b <= - a).
    { rewrite Z.quot_div_nonneg by lia. apply Z.div_le_upper_bound; nia. }
    lia.
Qed.

Lemma Truncate_multiple (t : Time) (d : Duration) : 0 < d -> Truncate t d mod d = 0.
Proof.
  intros H. unfold Truncate. replace (d <=? 0) with false by (symmetry; apply Z.leb_gt; lia).
  pose proof (Z.div_mod t d ltac:(lia)).
  replace (t - t mod d) with (t / d * d) by lia. apply Z.mod_mul. lia.
Qed.

Lemma Truncate_aligned (t : Time) (d : Duration) : t mod d = 0 -> Truncate t d = t.
Proof. intros H. unfold Truncate. destruct (d <=? 0); lia. Qed.

Lemma getQueryStep_spec (start endT : Time) (alignInterval : Duration) :
  0 < alignInterval <= 2 ^ 62 ->
  let span := timeSub endT start in
  let step := getQueryStep start endT alignInterval in
  alignInterval <= step
  /\ step mod alignInterval = 0
  /\ Z.quot span step <= maxSamples
  /\ (Z.quot span alignInterval <= maxSamples -> step = alignInterval)
  /\ step <= Z.max 0 (Z.quot span maxSamples) + alignInterval.
Proof.
  intros Ha span step.
  pose proof (timeSub_in_int64 endT start) as Hspan. fold span in Hspan.
  unfold step, getQueryStep. fold span.
  rewrite (div64_small span alignInterval) by (assumption || lia).
  unfold maxSamples in *.
  destruct (Z.leb_spec (Z.quot span alignInterval) 1000) as [Hle|Hgt].
  - split; [lia|]. split; [apply Z.mod_same; lia|]. split; [exact Hle|].
    split; [reflexivity|lia].
  - assert (Hpos : 0 < span).
    { destruct (Z.lt_trichotomy 0 span) as [H|[H|H]]; [assumption| |].
      - rewrite <- H in Hgt. rewrite Z.quot_0_l in Hgt by lia. lia.
      - assert (Z.quot span alignInterval <= 0).
        { rewrite <- (Z.opp_involutive span), Z.quot_opp_l by lia.
          assert (0 <= Z.quot (- span) alignInterval) by (apply Z.quot_pos; lia). lia. }
        lia. }
    rewrite Z.quot_div_nonneg in Hgt by lia.
    rewrite (div64_small span 1000) by (assumption || lia).
    rewrite (Z.quot_div_nonneg span 1000) by lia.
    set (s := span / 1000).
    assert (Hs : 0 <= s) by (apply Z.div_pos; lia).
    assert (Hs1 : span < 1000 * s + 1000).
    { pose proof (Z.mod_pos_bound span 1000 ltac:(lia)).
      pose proof (Z.div_mod span 1000 ltac:(lia)). fold s in H0. lia. }
    assert (Hsi : GoInt.in_int64 s).
    { unfold GoInt.in_int64, GoInt.min_int64, GoInt.max_int64 in *.
      assert (s <= span) by (apply Z.div_le_upper_bound; lia). lia. }
    rewrite (div64_small s alignInterval) by (assumption || lia).
    rewrite (Z.quot_div_nonneg s alignInterval) by lia.
    set (q := s / alignInterval).
    assert (Hq : 0 <= q) by (apply Z.div_pos; lia).
    assert (Hqa : q * alignInterval <= s < (q + 1) * alignInterval).
    { pose proof (Z.mod_pos_bound s alignInterval ltac:(lia)).
      pose proof (Z.div_mod s alignInterval ltac:(lia)). fold q in H0. nia. }
    assert (Hsmall : s <= 2 ^ 60).
    { unfold GoInt.in_int64, GoInt.max_int64 in Hspan.
      apply Z.div_le_upper_bound; lia. }
    rewrite (wrap64_in_range (q + 1))
      by (unfold GoInt.in_int64, GoInt.min_int64, GoInt.max_int64; nia).
    rewrite wrap64_in_range
      by (unfold GoInt.in_int64, GoInt.min_int64, GoInt.max_int64; nia).
    repeat split.
    + nia.
    + apply Z.mod_mul. lia.
    + rewrite Z.quot_div_nonneg by nia.
      assert (span / ((q + 1) * alignInterval) < 1000); [|lia].
      apply Z.div_lt_upper_bound; nia.
    + intros H. rewrite Z.quot_div_nonneg in H by lia. lia.
    + fold s. nia.
Qed.

(** [getQueryStep], for a positive [alignInterval]: the step is a
    positive multiple of [alignInterval]; a range query over
    [[start, end]] with this step has at most [maxSamples] steps; the step is
    [alignInterval] itself whenever that already gives at most [maxSamples]
    steps; and it exceeds a thousandth of the range by at most
    [alignInterval]. *)
Theorem getQueryStep_bounds (start endT : Time) (alignInterval : Duration) :
  0 < alignInterval <= 2 ^ 62 ->
  let span := timeSub endT start in
  let step := getQueryStep start endT alignInterval in
  alignInterval <= step
  /\ step mod alignInterval = 0
  /\ Z.quot span step <= maxSamples
  /\ (Z.quot span alignInterval <= maxSamples -> step = alignInterval)
  /\ step <= Z.max 0 (Z.quot span maxSamples) + alignInterval.
Proof. exact (getQueryStep_spec start endT alignInterval). Qed.

Lemma getQueryStep_bounds_witness :
  let span := timeSub Scenario.now (Add Scenario.now (-24 * Hour)) in
  let step := getQueryStep (Add Scenario.now (-24 * Hour)) Scenario.now writeInterval in
  writeInterval <= step
  /\ step mod writeInterval = 0
  /\ Z.quot span step <= maxSamples
  /\ (Z.quot span writeInterval <= maxSamples -> step = writeInterval)
  /\ step <= Z.max 0 (Z.quot span maxSamples) + writeInterval.
Proof.
  apply (getQueryStep_bounds (Add Scenario.now (-24 * Hour)) Scenario.now writeInterval).
  unfold writeInterval, Second. lia.
Defined.

Lemma randTime_spec (rnd : Z -> Z) (min max : Time) :
  (forall n, 0 < n -> 0 <= rnd n < n) ->
  let r := randTime rnd min max in
  min - Second < r
  /\ (min <= max -> r <= max)
  /\ (min mod Second = 0 -> min <= r)
  /\ Unix min <= Unix r
  /\ (Unix min < Unix max -> Unix r < Unix max /\ r mod Second = 0)
  /\ (Unix max <= Unix min -> r = min).
Proof.
  intros Hrnd r. unfold r, randTime.
  assert (Hsec : 0 < Second) by reflexivity.
  assert (Hmin : Unix min * Second <= min - unixToInternal * Second
                 < Unix min * Second + Second).
  { unfold Unix. pose proof (Z.mod_pos_bound min Second Hsec).
    pose proof (Z.div_mod min Second ltac:(lia)). nia. }
  assert (Hmax : Unix max * Second <= max - unixToInternal * Second).
  { unfold Unix. pose proof (Z.mod_pos_bound max Second Hsec).
    pose proof (Z.div_mod max Second ltac:(lia)). nia. }
  assert (HU : forall sec, Unix (FromUnix sec) = sec).
  { intros sec. unfold Unix, FromUnix. rewrite Z.div_mul by lia. lia. }
  destruct (Z.leb_spec (Unix max - Unix min) 0) as [Hle|Hgt].
  - repeat split; try lia.
  - specialize (Hrnd (Unix max - Unix min) Hgt).
    rewrite HU. unfold FromUnix.
    repeat split; try nia.
    + intros Hz. pose proof (Z.div_mod min Second ltac:(lia)) as Hd.
      rewrite Hz in Hd. unfold Unix in *. nia.
    + apply Z.mod_mul. lia.
Qed.

(** [randTime], for a generator that keeps [rand.Int63n]'s contract
    ([0 <= rnd n < n]): the result is less than a second before [min], never
    after [max] when [min <= max], and not before a [min] on a whole second;
    when [max] lies in a later second than [min] the result is a whole
    second in [[min.Unix(), max.Unix())], otherwise it is [min] itself. *)
Theorem randTime_range (rnd : Z -> Z) (min max : Time) :
  (forall n, 0 < n -> 0 <= rnd n < n) ->
  let r := randTime rnd min max in
  min - Second < r
  /\ (min <= max -> r <= max)
  /\ (min mod Second = 0 -> min <= r)
  /\ Unix min <= Unix r
  /\ (Unix min < Unix max -> Unix r < Unix max /\ r mod Second = 0)
  /\ (Unix max <= Unix min -> r = min).
Proof. exact (randTime_spec rnd min max). Qed.

Lemma randTime_range_witness :
  let min := Add Scenario.now (-2 * Hour) in
  let max := Scenario.now in
  let r := randTime Scenario.draw0 min max in
  min - Second < r
  /\ (min <= max -> r <= max)
  /\ (min mod Second = 0 -> min <= r)
  /\ Unix min <= Unix r
  /\ (Unix min < Unix max -> Unix r < Unix max /\ r mod Second = 0)
  /\ (Unix max <= Unix min -> r = min).
Proof.
  apply (randTime_range Scenario.draw0 (Add Scenario.now (-2 * Hour)) Scenario.now).
  intros n Hn. unfold Scenario.draw0. lia.
Defined.

(** [alignTimestampToInterval], for a positive interval: the result is
    the multiple of the interval (counted from the zero time) at or below
    the timestamp and less than one interval below it; an aligned timestamp
    is returned unchanged, aligning twice is aligning once, and aligning
    keeps the order of timestamps. *)
Theorem alignTimestampToInterval_rounds_down (ts : Time) (interval : Duration) :
  0 < interval ->
  let aligned := alignTimestampToInterval ts interval in
  aligned mod interval = 0
  /\ ts - interval < aligned <= ts
  /\ (ts mod interval = 0 -> aligned = ts)
  /\ alignTimestampToInterval aligned interval = aligned
  /\ (forall u, ts <= u -> aligned <= alignTimestampToInterval u interval).
Proof.
  intros H aligned. unfold aligned, alignTimestampToInterval.
  split; [|split; [|split; [|split]]].
  - now apply Truncate_multiple.
  - split; [now apply Truncate_gt | apply Truncate_le].
  - apply Truncate_aligned.
  - apply Truncate_aligned. now apply Truncate_multiple.
  - intros u Hu. now apply Truncate_mono.
Qed.

Lemma alignTimestampToInterval_rounds_down_witness :
  let aligned := alignTimestampToInterval Scenario.now writeInterval in
  aligned mod writeInterval = 0
  /\ Scenario.now - writeInterval < aligned <= Scenario.now
  /\ (Scenario.now mod writeInterval = 0 -> aligned = Scenario.now)
  /\ alignTimestampToInterval aligned writeInterval = aligned
  /\ (forall u, Scenario.now <= u -> aligned <= alignTimestampToInterval u writeInterval).
Proof.
  apply (alignTimestampToInterval_rounds_down Scenario.now writeInterval).
  reflexivity.
Defined.

(** ** Alignment of the history *)

Lemma FromUnixMilli_aligned (msec : Z) :
  msec mod writeIntervalMillis = 0 -> FromUnixMilli msec mod writeInterval = 0.
Proof.
  intros H. unfold writeIntervalMillis in H.
  pose proof (Z.div_mod msec 20000 ltac:(lia)) as Hd. rewrite H in Hd.
  apply Z.mod_divide; [discriminate|]. exists (msec / 20000 + 3106779840).
  unfold FromUnixMilli, Millisecond, unixToInternal, Second, writeInterval, Second. lia.
Qed.

Lemma nth_Forall {A} (P : A -> Prop) (l : list A) (d : A) (i : nat) :
  Forall P l -> P d -> P (nth i l d).
Proof.
  intros Hl Hd. destruct (nth_in_or_default i l d) as [H| ->]; [|exact Hd].
  rewrite Forall_forall in Hl. now apply Hl.
Qed.

Section AlignedScan.

Variable cfg : WriteReadSeriesTestConfig.
Variable QueryRange : Time -> Time -> Duration -> QueryResult.
Variable generateValue : Time -> float.
Hypothesis client_aligned : clientAligned QueryRange.

Lemma findLoop_aligned (fuel : nat) :
  forall now endT samples histograms from to range,
    Forall (fun p => sp_Timestamp p mod writeIntervalMillis = 0) samples ->
    Forall (fun p => shp_Timestamp p mod writeIntervalMillis = 0) histograms ->
    from mod writeInterval = 0 -> to mod writeInterval = 0 ->
    findLoop cfg QueryRange generateValue fuel now endT samples histograms from to
    = Some range ->
    fst range mod writeInterval = 0 /\ snd range mod writeInterval = 0.
Proof.
  induction fuel as [|fuel IH];
    intros now endT samples histograms from to range Hs Hh Hf Ht; [discriminate|].
  cbn [findLoop].
  set (start := alignTimestampToInterval _ writeInterval).
  assert (Hkeep : Some (from, to) = Some range ->
                  fst range mod writeInterval = 0 /\ snd range mod writeInterval = 0)
    by (intros [= <-]; auto).
  destruct (negb (Before start endT)); [exact Hkeep|].
  destruct (QueryRange start endT writeInterval) as [matrix|e] eqn:EQ; [|exact Hkeep].
  destruct matrix as [|stream [|stream' matrix]]; [exact Hkeep| |exact Hkeep].
  pose proof (client_aligned _ _ _ _ EQ) as Hm. cbn [forallb] in Hm.
  rewrite andb_true_r in Hm. unfold streamAligned in Hm.
  apply andb_true_iff in Hm. destruct Hm as [Hv Hg].
  rewrite forallb_forall in Hv, Hg.
  assert (Hs' : Forall (fun p => sp_Timestamp p mod writeIntervalMillis = 0)
                  (ss_Values stream ++ samples)).
  { apply Forall_app. split; [|exact Hs]. apply Forall_forall.
    intros p Hp. apply Z.eqb_eq. now apply Hv. }
  assert (Hh' : Forall (fun p => shp_Timestamp p mod writeIntervalMillis = 0)
                  (ss_Histograms stream ++ histograms)).
  { apply Forall_app. split; [|exact Hh]. apply Forall_forall.
    intros p Hp. apply Z.eqb_eq. now apply Hg. }
  set (samples' := ss_Values stream ++ samples) in *.
  set (histograms' := ss_Histograms stream ++ histograms) in *.
  assert (HS : forall i, FromUnixMilli (sp_Timestamp (nth i samples' noSample))
                         mod writeInterval = 0).
  { intros i. apply FromUnixMilli_aligned.
    apply (nth_Forall (fun p => sp_Timestamp p mod writeIntervalMillis = 0));
      [exact Hs'|reflexivity]. }
  assert (HH : forall i, FromUnixMilli (shp_Timestamp (nth i histograms' noHistogram))
                         mod writeInterval = 0).
  { intros i. apply FromUnixMilli_aligned.
    apply (nth_Forall (fun p => shp_Timestamp p mod writeIntervalMillis = 0));
      [exact Hh'|reflexivity]. }
  destruct ((0 <? length samples')%nat && (length histograms' =? 0)%nat).
  - cbv iota beta.
    destruct (verifySamplesSum _ _ _ _) as [idx err].
    destruct (idx =? -1); [exact Hkeep|].
    match goal with
    | |- (if ?c then _ else _) = _ -> _ => destruct c
    end.
    + intros [= <-]. cbn [fst snd]. split; apply HS.
    + apply IH; auto.
  - destruct ((0 <? length histograms')%nat && (length samples' =? 0)%nat);
      [|exact Hkeep].
    cbv iota beta.
    destruct (verifySamplesSum _ _ _ _) as [idx err].
    destruct (idx =? -1); [exact Hkeep|].
    match goal with
    | |- (if ?c then _ else _) = _ -> _ => destruct c
    end.
    + intros [= <-]. cbn [fst snd]. split; apply HH.
    + apply IH; auto.
Qed.

End AlignedScan.

Lemma storeQueryRange_clientAligned (asHistograms : bool) (data : list SamplePair) :
  forallb (fun p => sp_Timestamp p mod writeIntervalMillis =? 0) data = true ->
  clientAligned (storeQueryRange asHistograms data).
Proof.
  intros Hdata start endT step matrix. unfold storeQueryRange.
  assert (Hf : forallb (fun p => sp_Timestamp p mod writeIntervalMillis =? 0)
                 (filter (inWindow start endT step) data) = true).
  { rewrite forallb_forall in *. intros p Hp. apply Hdata.
    apply filter_In in Hp. tauto. }
  destruct (filter (inWindow start endT step) data) as [|p points];
    intros [= <-]; [reflexivity|].
  cbn [forallb]. rewrite andb_true_r. unfold streamAligned.
  destruct asHistograms; cbn [streamOf ss_Values ss_Histograms].
  - cbn [forallb andb]. rewrite forallb_forall in *. intros h Hh.
    apply in_map_iff in Hh. destruct Hh as (q & <- & Hq). now apply Hf.
  - rewrite Hf. reflexivity.
Qed.

Lemma nextWriteTimestamp_aligned (now : Time) (records : MetricHistory) :
  alignedHistory records -> nextWriteTimestamp now records mod writeInterval = 0.
Proof.
  intros (Hl & _). unfold nextWriteTimestamp.
  destruct (IsZero (lastWrittenTimestamp records)).
  - apply Truncate_multiple. reflexivity.
  - unfold Add. rewrite <- Z.add_mod_idemp_l, Hl by discriminate. reflexivity.
Qed.

Lemma writeSamples_aligned (response : Z * option Errors.error) (timestamp : Time)
    (records : MetricHistory) :
  alignedHistory records -> timestamp mod writeInterval = 0 ->
  alignedHistory (fst (writeSamples response timestamp records)).
Proof.
  intros (Hl & Hmin & Hmax) Hts. destruct response as [statusCode err].
  unfold writeSamples, alignedHistory.
  destruct (Z.quot statusCode 100 =? 4);
    cbn [fst lastWrittenTimestamp queryMinTime queryMaxTime]; [auto|].
  destruct err; cbn [fst]; [auto|].
  destruct (Z.quot statusCode 100 =? 2);
    cbn [negb fst lastWrittenTimestamp queryMinTime queryMaxTime]; [|auto].
  destruct (IsZero (queryMinTime records)); auto.
Qed.

Lemma recoverPast_aligned (cfg : WriteReadSeriesTestConfig)
    (QueryRange : Time -> Time -> Duration -> QueryResult)
    (generateValue : Time -> float) (now : Time) (records : MetricHistory) :
  clientAligned QueryRange -> alignedHistory records ->
  alignedHistory (fst (recoverPast cfg QueryRange generateValue now records)).
Proof.
  intros Hc (Hl & Hmin & Hmax).
  pose proof (findLoop_aligned cfg QueryRange generateValue Hc (scanFuel cfg now) now
                (alignTimestampToInterval now writeInterval) [] [] zero zero
                (findPreviouslyWrittenTimeRange cfg QueryRange generateValue now)
                (Forall_nil _) (Forall_nil _) eq_refl eq_refl
                (findPreviouslyWrittenTimeRange_returns cfg QueryRange generateValue now))
    as [Hf Ht].
  unfold recoverPast.
  destruct (findPreviouslyWrittenTimeRange cfg QueryRange generateValue now) as [from to].
  cbn [fst snd] in Hf, Ht.
  destruct (IsZero from || IsZero to); cbn [fst]; [unfold alignedHistory; auto|].
  destruct (Before to (Add now (- writeMaxAge))); cbn [fst]; unfold alignedHistory; auto.
Qed.

Lemma writeLoop_aligned (WaitN : nat -> option Errors.error)
    (WriteSeries : nat -> Time -> Z * option Errors.error) (now : Time) (fuel : nat) :
  forall call records errs result,
    alignedHistory records ->
    writeLoop WaitN WriteSeries fuel call now records errs = Some result ->
    alignedHistory (wl_records result).
Proof.
  induction fuel as [|fuel IH]; intros call records errs result Hal; [discriminate|].
  cbn [writeLoop].
  destruct (After (nextWriteTimestamp now records) now); [now intros [= <-]|].
  destruct (WaitN call); [now intros [= <-]|].
  pose proof (writeSamples_aligned (WriteSeries call (nextWriteTimestamp now records))
                (nextWriteTimestamp now records) records Hal
                (nextWriteTimestamp_aligned now records Hal)) as Hw.
  destruct (writeSamples _ _ _) as [records' [err|]]; cbn [fst] in Hw.
  - now intros [= <-].
  - now apply IH.
Qed.

(** The history stays aligned: when the three instants of a history
    are multiples of the write interval, the next timestamp to write is
    one, and the history is still aligned after [writeSamples] at that
    timestamp, whatever the write returned, and after [recoverPast], for a
    client whose sample timestamps are multiples of the write interval. *)
Theorem history_stays_aligned
    (cfg : WriteReadSeriesTestConfig) (QueryRange : Time -> Time -> Duration -> QueryResult)
    (generateValue : Time -> float) (response : Z * option Errors.error)
    (now : Time) (records : MetricHistory) :
  clientAligned QueryRange ->
  alignedHistory records ->
  nextWriteTimestamp now records mod writeInterval = 0
  /\ alignedHistory (fst (writeSamples response (nextWriteTimestamp now records) records))
  /\ alignedHistory (fst (recoverPast cfg QueryRange generateValue now records)).
Proof.
  intros Hc Hal.
  pose proof (nextWriteTimestamp_aligned now records Hal) as Hts.
  split; [exact Hts|]. split.
  - now apply writeSamples_aligned.
  - now apply recoverPast_aligned.
Qed.

Lemma history_stays_aligned_witness :
  let QueryRange := storeQueryRange false Scenario.threeHours in
  let response := (200, @None Errors.error) in
  nextWriteTimestamp Scenario.now emptyHistory mod writeInterval = 0
  /\ alignedHistory
       (fst (writeSamples response (nextWriteTimestamp Scenario.now emptyHistory) emptyHistory))
  /\ alignedHistory
       (fst (recoverPast Scenario.cfgHour QueryRange Scenario.expected Scenario.now
               emptyHistory)).
Proof.
  apply (history_stays_aligned Scenario.cfgHour (storeQueryRange false Scenario.threeHours)
           Scenario.expected (200, None) Scenario.now emptyHistory).
  - apply storeQueryRange_clientAligned. vm_compute. reflexivity.
  - repeat split; reflexivity.
Defined.

(** ** What the verifier accepts *)

Lemma verifyLoop_no_error check (n : nat) (last : Z) :
  snd (verifyLoop check n last) = None <-> (forall i, (i < n)%nat -> check i = None).
Proof.
  revert last. induction n as [|n IH]; intros last; cbn [verifyLoop].
  - split; [intros _ i Hi; lia|reflexivity].
  - destruct (check n) as [e|] eqn:E; cbn [snd].
    + split; [discriminate|]. intros H. rewrite H in E by lia. discriminate.
    + rewrite IH. split.
      * intros H i Hi. destruct (Nat.eq_dec i n) as [->|Hne]; [exact E|apply H; lia].
      * intros H i Hi. apply H. lia.
Qed.

Lemma verifyLoop_accepts_at_zero check (n : nat) (last : Z) :
  (0 < n)%nat -> snd (verifyLoop check n last) = None -> fst (verifyLoop check n last) = 0.
Proof.
  intros Hn H. pose proof (verifyLoop_result check n last) as R.
  destruct (verifyLoop check n last) as [idx err]. cbn [fst snd] in *. subst err.
  destruct R as [[_ [Hz|Hc]]|(_ & _ & Hz)]; [lia|congruence|auto].
Qed.

Lemma UnixMilli_back (msec stepMs : Z) :
  GoInt.in_int64 (msec - stepMs) ->
  UnixMilli (Add (FromUnixMilli msec) (- (stepMs * Millisecond))) = msec - stepMs.
Proof.
  intros H. rewrite <- Z.mul_opp_l, UnixMilli_Add_millis.
  replace (msec + - stepMs) with (msec - stepMs) by lia. now apply wrap64_in_range.
Qed.

Section Acceptance.

Variable expectedSeries : Z.
Variable stepMs : Z.
Variable generateValue : Time -> float.

Lemma checkSample_accepts (samples : list SamplePair) (idx : nat) :
  (forall p, In p samples ->
     GoInt.in_int64 (sp_Timestamp p) /\ GoInt.in_int64 (sp_Timestamp p - stepMs)) ->
  (idx < length samples)%nat ->
  checkSample expectedSeries (stepMs * Millisecond) generateValue samples idx = None <->
  valueOk expectedSeries generateValue (nth idx samples noSample) = true
  /\ ((S idx < length samples)%nat ->
      sp_Timestamp (nth (S idx) samples noSample)
      = sp_Timestamp (nth idx samples noSample) + stepMs).
Proof.
  intros Hok Hidx. unfold checkSample, valueOk.
  destruct (compareSampleValues _ _); cbn [negb];
    [|split; [discriminate|intros [H _]; discriminate]].
  destruct (Z.ltb_spec (Z.of_nat idx) (Z.of_nat (length samples) - 1)) as [Hlt|Hge].
  - rewrite UnixMilli_FromUnixMilli by (apply Hok, nth_In; lia).
    rewrite UnixMilli_back by (apply Hok, nth_In; lia).
    destruct (Z.eqb_spec (sp_Timestamp (nth idx samples noSample))
                (sp_Timestamp (nth (S idx) samples noSample) - stepMs)) as [Heq|Hne];
      cbn [negb].
    + split; [intros _; split; [reflexivity|intros _; lia]|reflexivity].
    + split; [discriminate|]. intros [_ H]. specialize (H ltac:(lia)). lia.
  - split; [intros _; split; [reflexivity|intros H; lia]|reflexivity].
Qed.

Lemma checkHistogram_accepts (histograms : list SampleHistogramPair) (idx : nat) :
  (forall p, In p histograms ->
     GoInt.in_int64 (shp_Timestamp p) /\ GoInt.in_int64 (shp_Timestamp p - stepMs)) ->
  (idx < length histograms)%nat ->
  checkHistogram expectedSeries (stepMs * Millisecond) generateValue histograms idx = None <->
  (exists h, shp_Histogram (nth idx histograms noHistogram) = Some h
     /\ compareSampleValues (sh_Sum h)
          (generateValue (FromUnixMilli (shp_Timestamp (nth idx histograms noHistogram)))
           * GoInt.float64_of_int64 expectedSeries)%float = true)
  /\ ((S idx < length histograms)%nat ->
      shp_Timestamp (nth (S idx) histograms noHistogram)
      = shp_Timestamp (nth idx histograms noHistogram) + stepMs).
Proof.
  intros Hok Hidx. unfold checkHistogram.
  destruct (shp_Histogram (nth idx histograms noHistogram)) as [h|];
    [|split; [discriminate|intros [(h & H & _) _]; discriminate]].
  destruct (compareSampleValues _ _) eqn:Ec; cbn [negb];
    [|split; [discriminate|intros [(h' & [= <-] & H) _]; congruence]].
  destruct (Z.ltb_spec (Z.of_nat idx) (Z.of_nat (length histograms) - 1)) as [Hlt|Hge].
  - rewrite UnixMilli_FromUnixMilli by (apply Hok, nth_In; lia).
    rewrite UnixMilli_back by (apply Hok, nth_In; lia).
    destruct (Z.eqb_spec (shp_Timestamp (nth idx histograms noHistogram))
                (shp_Timestamp (nth (S idx) histograms noHistogram) - stepMs)) as [Heq|Hne];
      cbn [negb].
    + split; [intros _; split; [now exists h|intros _; lia]|reflexivity].
    + split; [discriminate|]. intros [_ H]. specialize (H ltac:(lia)). lia.
  - split; [intros _; split; [now exists h|intros H; lia]|reflexivity].
Qed.

(** What [verifySamplesSum] accepts in a matrix of one series of
    floats (timestamps far enough from the bounds of [int64] for the step to
    be subtracted without wrapping): it returns no error exactly when every
    sample carries the expected value at its timestamp and each sample is
    exactly one step after the previous one; the index it then returns
    is 0. *)
Theorem verifySamplesSum_accepts_iff (metric : list (string * string))
    (samples : list SamplePair) :
  samples <> [] ->
  (forall p, In p samples ->
     GoInt.in_int64 (sp_Timestamp p) /\ GoInt.in_int64 (sp_Timestamp p - stepMs)) ->
  let result :=
    verifySamplesSum expectedSeries (stepMs * Millisecond) generateValue
      [mkStream metric samples []] in
  (snd result = None <->
   forallb (valueOk expectedSeries generateValue) samples = true
   /\ (forall i, (S i < length samples)%nat ->
         sp_Timestamp (nth (S i) samples noSample)
         = sp_Timestamp (nth i samples noSample) + stepMs))
  /\ (snd result = None -> fst result = 0).
Proof.
  intros Hne Hok result.
  assert (E : result = verifyLoop
                (checkSample expectedSeries (stepMs * Millisecond) generateValue samples)
                (length samples) (-1)).
  { unfold result, verifySamplesSum. cbn [ss_Values ss_Histograms].
    destruct samples; [congruence|reflexivity]. }
  rewrite E. split.
  - rewrite verifyLoop_no_error. split.
    + intros H. split.
      * apply forallb_forall. intros p Hp.
        destruct (In_nth _ _ noSample Hp) as (i & Hi & <-).
        apply (checkSample_accepts samples i Hok Hi). now apply H.
      * intros i Hi. apply (checkSample_accepts samples i Hok); [lia|apply H; lia|exact Hi].
    + intros [Hv Hs] i Hi. apply (checkSample_accepts samples i Hok Hi). split.
      * rewrite forallb_forall in Hv. now apply Hv, nth_In.
      * apply Hs.
  - apply verifyLoop_accepts_at_zero. destruct samples; [congruence|cbn; lia].
Qed.

(** What [verifySamplesSum] accepts in a matrix of one series of
    histograms: it returns no error exactly when every entry has a histogram
    whose sum is the expected value at its timestamp and each entry is
    exactly one step after the previous one; the index it then returns
    is 0. *)
Theorem verifySamplesSum_accepts_histograms_iff (metric : list (string * string))
    (histograms : list SampleHistogramPair) :
  histograms <> [] ->
  (forall p, In p histograms ->
     GoInt.in_int64 (shp_Timestamp p) /\ GoInt.in_int64 (shp_Timestamp p - stepMs)) ->
  let result :=
    verifySamplesSum expectedSeries (stepMs * Millisecond) generateValue
      [mkStream metric [] histograms] in
  (snd result = None <->
   (forall p, In p histograms ->
      exists h, shp_Histogram p = Some h
        /\ compareSampleValues (sh_Sum h)
             (generateValue (FromUnixMilli (shp_Timestamp p))
              * GoInt.float64_of_int64 expectedSeries)%float = true)
   /\ (forall i, (S i < length histograms)%nat ->
         shp_Timestamp (nth (S i) histograms noHistogram)
         = shp_Timestamp (nth i histograms noHistogram) + stepMs))
  /\ (snd result = None -> fst result = 0).
Proof.
  intros Hne Hok result.
  assert (E : result = verifyLoop
                (checkHistogram expectedSeries (stepMs * Millisecond) generateValue histograms)
                (length histograms) (-1)).
  { unfold result, verifySamplesSum. cbn [ss_Values ss_Histograms].
    destruct histograms; [congruence|reflexivity]. }
  rewrite E. split.
  - rewrite verifyLoop_no_error. split.
    + intros H. split.
      * intros p Hp. destruct (In_nth _ _ noHistogram Hp) as (i & Hi & <-).
        apply (checkHistogram_accepts histograms i Hok Hi). now apply H.
      * intros i Hi.
        apply (checkHistogram_accepts histograms i Hok); [lia|apply H; lia|exact Hi].
    + intros [Hv Hs] i Hi. apply (checkHistogram_accepts histograms i Hok Hi). split.
      * apply Hv. now apply nth_In.
      * apply Hs.
  - apply verifyLoop_accepts_at_zero. destruct histograms; [congruence|cbn; lia].
Qed.

End Acceptance.

Lemma verifySamplesSum_accepts_iff_witness :
  let t := Scenario.oldest in
  let samples :=
    [mkSample t (Scenario.stored t); mkSample (t + 20000) (Scenario.stored (t + 20000))] in
  let result :=
    verifySamplesSum 1 (20000 * Millisecond) Scenario.expected [mkStream [] samples []] in
  (snd result = None <->
   forallb (valueOk 1 Scenario.expected) samples = true
   /\ (forall i, (S i < length samples)%nat ->
         sp_Timestamp (nth (S i) samples noSample)
         = sp_Timestamp (nth i samples noSample) + 20000))
  /\ (snd result = None -> fst result = 0).
Proof.
  intros t samples.
  apply (verifySamplesSum_accepts_iff 1 20000 Scenario.expected [] samples).
  - discriminate.
  - intros p [<-|[<-|[]]]; vm_compute; repeat split; discriminate.
Defined.

Lemma verifySamplesSum_accepts_histograms_iff_witness :
  let t := Scenario.oldest in
  let histograms :=
    [mkHistogramPair t (Some (mkSampleHistogram 0 (Scenario.stored t)));
     mkHistogramPair (t + 20000) None] in
  let result :=
    verifySamplesSum 1 (20000 * Millisecond) Scenario.expected [mkStream [] [] histograms] in
  (snd result = None <->
   (forall p, In p histograms ->
      exists h, shp_Histogram p = Some h
        /\ compareSampleValues (sh_Sum h)
             (Scenario.expected (FromUnixMilli (shp_Timestamp p))
              * GoInt.float64_of_int64 1)%float = true)
   /\ (forall i, (S i < length histograms)%nat ->
         shp_Timestamp (nth (S i) histograms noHistogram)
         = shp_Timestamp (nth i histograms noHistogram) + 20000))
  /\ (snd result = None -> fst result = 0).
Proof.
  intros t histograms.
  apply (verifySamplesSum_accepts_histograms_iff 1 20000 Scenario.expected [] histograms).
  - discriminate.
  - intros p [<-|[<-|[]]]; vm_compute; repeat split; discriminate.
Defined.

Lemma verifyLoop_suffix check (n : nat) :
  forall last : Z,
    (snd (verifyLoop check n last) = None ->
     (forall i, (i < n)%nat -> check i = None)
     /\ fst (verifyLoop check n last) = match n with O => last | S _ => 0 end)
    /\ (forall err, snd (verifyLoop check n last) = Some err ->
        exists k, (k < n)%nat /\ check k = Some err
                  /\ (forall i, (k < i < n)%nat -> check i = None)
                  /\ fst (verifyLoop check n last)
                     = if (S k =? n)%nat then last else Z.of_nat (S k)).
Proof.
  induction n as [|n IH]; intros last; cbn [verifyLoop].
  - cbn [fst snd]. split; [intros _; split; [intros i Hi; lia|reflexivity]|discriminate].
  - destruct (check n) as [e|] eqn:E; cbn [fst snd].
    + split; [discriminate|]. intros err [= <-]. exists n.
      rewrite Nat.eqb_refl. repeat split; auto. intros i Hi. lia.
    + destruct (IH (Z.of_nat n)) as [IH1 IH2]. split.
      * intros H. destruct (IH1 H) as [Hall Hidx]. split.
        -- intros i Hi. destruct (Nat.eq_dec i n) as [->|Hne]; [exact E|apply Hall; lia].
        -- rewrite Hidx. destruct n; reflexivity.
      * intros err H. destruct (IH2 err H) as (k & Hk & Hc & Hall & Hidx).
        exists k. split; [lia|]. split; [exact Hc|]. split.
        -- intros i Hi. destruct (Nat.eq_dec i n) as [->|Hne]; [exact E|apply Hall; lia].
        -- rewrite Hidx. replace (S k =? S n)%nat with false
             by (symmetry; apply Nat.eqb_neq; lia).
           destruct (Nat.eqb_spec (S k) n) as [<-|Hne]; reflexivity.
Qed.

(** The index [verifySamplesSum] returns for one series of floats.
    Call a sample matching when it carries the expected value at its
    timestamp and the next sample, if any, is exactly one step later.  The
    index returned is the start of the longest run of matching samples that
    ends with the newest sample: every sample from it on matches and the
    sample before it does not; it is [-1] when the newest sample does not
    match.  An error is returned exactly when the index is not 0. *)
Theorem verifySamplesSum_last_matching
    (expectedSeries : Z) (stepMs : Z) (generateValue : Time -> float)
    (metric : list (string * string)) (samples : list SamplePair) :
  samples <> [] ->
  (forall p, In p samples ->
     GoInt.in_int64 (sp_Timestamp p) /\ GoInt.in_int64 (sp_Timestamp p - stepMs)) ->
  let result :=
    verifySamplesSum expectedSeries (stepMs * Millisecond) generateValue
      [mkStream metric samples []] in
  let matching (i : nat) :=
    valueOk expectedSeries generateValue (nth i samples noSample) = true
    /\ ((S i < length samples)%nat ->
        sp_Timestamp (nth (S i) samples noSample)
        = sp_Timestamp (nth i samples noSample) + stepMs) in
  -1 <= fst result < Z.of_nat (length samples)
  /\ (forall i, 0 <= fst result <= Z.of_nat i -> (i < length samples)%nat -> matching i)
  /\ (0 < fst result -> ~ matching (Z.to_nat (fst result) - 1)%nat)
  /\ (fst result = -1 <-> ~ matching (length samples - 1)%nat)
  /\ (snd result = None <-> fst result = 0).
Proof.
  intros Hne Hok result matching.
  assert (Hlen : (0 < length samples)%nat) by (destruct samples; [congruence|cbn; lia]).
  assert (E : result = verifyLoop
                (checkSample expectedSeries (stepMs * Millisecond) generateValue samples)
                (length samples) (-1)).
  { unfold result, verifySamplesSum. cbn [ss_Values ss_Histograms].
    destruct samples; [congruence|reflexivity]. }
  set (check := checkSample expectedSeries (stepMs * Millisecond) generateValue samples) in *.
  assert (Hm : forall i, (i < length samples)%nat -> (check i = None <-> matching i))
    by (intros i Hi; apply (checkSample_accepts expectedSeries stepMs generateValue
                              samples i Hok Hi)).
  destruct (verifyLoop_suffix check (length samples) (-1)) as [H1 H2].
  rewrite <- E in H1, H2.
  destruct (snd result) as [err|] eqn:Es.
  - destruct (H2 err eq_refl) as (k & Hk & Hc & Hall & Hidx).
    assert (Hnk : ~ matching k) by (intros H; apply (Hm k Hk) in H; congruence).
    destruct (Nat.eqb_spec (S k) (length samples)) as [Hlast|Hnot]; rewrite Hidx.
    + replace (length samples - 1)%nat with k by lia.
      split; [lia|]. split; [intros i Hi; lia|]. split; [lia|].
      split; [tauto|]. split; [discriminate|lia].
    + split; [lia|]. split; [intros i Hi Hl; apply (Hm i Hl), Hall; lia|].
      split; [intros _; now replace (Z.to_nat (Z.of_nat (S k)) - 1)%nat with k by lia|].
      split; [split; [lia|]|split; [discriminate|lia]].
      intros Hn. exfalso. apply Hn. apply (Hm (length samples - 1)%nat); [lia|].
      apply Hall. lia.
  - destruct (H1 eq_refl) as [Hall Hidx].
    replace (fst result) with 0 by (rewrite Hidx; destruct (length samples); [lia|reflexivity]).
    split; [lia|]. split; [intros i _ Hl; apply (Hm i Hl), Hall, Hl|].
    split; [lia|]. split; [|tauto].
    split; [discriminate|]. intros Hn. exfalso. apply Hn.
    apply (Hm (length samples - 1)%nat); [lia|]. apply Hall. lia.
Qed.

Lemma verifySamplesSum_last_matching_witness :
  let t := Scenario.oldest in
  let samples :=
    [mkSample t (Scenario.stored t);
     mkSample (t + 20000) (Scenario.stored (t + 20000));
     mkSample (t + 3 * 20000) (Scenario.stored (t + 3 * 20000))] in
  let result :=
    verifySamplesSum 1 (20000 * Millisecond) Scenario.expected [mkStream [] samples []] in
  let matching (i : nat) :=
    valueOk 1 Scenario.expected (nth i samples noSample) = true
    /\ ((S i < length samples)%nat ->
        sp_Timestamp (nth (S i) samples noSample)
        = sp_Timestamp (nth i samples noSample) + 20000) in
  fst result = 2
  /\ -1 <= fst result < Z.of_nat (length samples)
  /\ (forall i, 0 <= fst result <= Z.of_nat i -> (i < length samples)%nat -> matching i)
  /\ (0 < fst result -> ~ matching (Z.to_nat (fst result) - 1)%nat)
  /\ (fst result = -1 <-> ~ matching (length samples - 1)%nat)
  /\ (snd result = None <-> fst result = 0).
Proof.
  intros t samples. split; [vm_compute; reflexivity|].
  apply (verifySamplesSum_last_matching 1 20000 Scenario.expected [] samples).
  - discriminate.
  - intros p [<-|[<-|[<-|[]]]]; vm_compute; repeat split; discriminate.
Defined.

(** ** The recovery scan without usable data *)




(** ** The series written at a timestamp *)

Lemma to_int_nonnil (z : Z) :
  Z.to_int z <> Decimal.Pos Decimal.Nil /\ Z.to_int z <> Decimal.Neg Decimal.Nil.
Proof.
  destruct z as [|p|p]; cbn; split; try discriminate; intros [= H];
    now apply DecimalPos.Unsigned.to_uint_nonnil in H.
Qed.

Lemma Itoa_inj (i j : Z) : Itoa i = Itoa j -> i = j.
Proof.
  unfold Itoa. intros H.
  apply (f_equal DecimalString.NilZero.int_of_string) in H.
  rewrite !DecimalString.NilZero.isi in H by apply to_int_nonnil.
  injection H as H. now apply DecimalZ.to_int_inj.
Qed.

Lemma seriesLabels_inj (name : string) (i j : Z) :
  seriesLabels name i = seriesLabels name j -> i = j.
Proof. unfold seriesLabels. intros [= H]. now apply Itoa_inj. Qed.

Lemma appendSeries_map {H : Type} (series : Z -> TimeSeries H) (count : nat) :
  forall i out,
    appendSeries series count i out
    = out ++ map (fun k => series (i + Z.of_nat k)) (seq 0 count).
Proof.
  induction count as [|count IH]; intros i out; cbn [appendSeries seq map].
  - now rewrite app_nil_r.
  - rewrite IH, <- app_assoc. cbn [app]. rewrite Z.add_0_r.
    do 2 f_equal. rewrite <- seq_shift, map_map.
    apply map_ext. intros k. f_equal. lia.
Qed.

Lemma appendSeries_batch {H : Type} (series : Z -> TimeSeries H) (name : string)
    (numSeries : Z) :
  0 <= numSeries ->
  (forall i, ts_Labels (series i) = seriesLabels name i) ->
  let out := appendSeries series (Z.to_nat numSeries) 0 [] in
  Z.of_nat (length out) = numSeries
  /\ (forall i, 0 <= i < numSeries -> nth_error out (Z.to_nat i) = Some (series i))
  /\ NoDup (map ts_Labels out).
Proof.
  intros Hn Hl out. unfold out. rewrite appendSeries_map. cbn [app].
  split; [|split].
  - rewrite length_map, length_seq. lia.
  - intros i Hi. rewrite nth_error_map, nth_error_seq.
    replace (Z.to_nat i <? Z.to_nat numSeries)%nat with true
      by (symmetry; apply Nat.ltb_lt; lia).
    cbn [option_map]. do 2 f_equal. lia.
  - rewrite map_map. apply NoDup_map_NoDup_ForallPairs; [|apply seq_NoDup].
    intros a b _ _ Hab. rewrite !Hl in Hab. apply seriesLabels_inj in Hab. lia.
Qed.

(** [generateSineWaveSeries], for a number of series that is not
    negative: the batch has [numSeries] series; series [i] is labelled with
    the metric name and [series_id] = [i] in decimal, and holds one sample,
    the sine-wave value of [t] at [t] in milliseconds, the same for every
    series, and no histogram; no two series of the batch have the same
    labels. *)
Theorem generateSineWaveSeries_batch (math_Sin : float -> float) (name : string)
    (t : Time) (numSeries : Z) :
  0 <= numSeries ->
  exists out,
    generateSineWaveSeries math_Sin name t numSeries = Some out
    /\ Z.of_nat (length out) = numSeries
    /\ (forall i, 0 <= i < numSeries ->
          nth_error out (Z.to_nat i)
          = Some (mkTimeSeries [("__name__"%string, name); ("series_id"%string, Itoa i)]
                    [(generateSineWaveValue math_Sin t, UnixMilli t)] []))
    /\ NoDup (map ts_Labels out).
Proof.
  intros Hn. unfold generateSineWaveSeries.
  replace (numSeries <? 0) with false by (symmetry; apply Z.ltb_ge; lia).
  eexists. split; [reflexivity|].
  apply (appendSeries_batch _ name numSeries Hn). reflexivity.
Qed.

Lemma generateSineWaveSeries_batch_witness :
  exists out,
    generateSineWaveSeries (fun x => x) "mimir_continuous_test_sine_wave" Scenario.now 3
    = Some out
    /\ Z.of_nat (length out) = 3
    /\ (forall i, 0 <= i < 3 ->
          nth_error out (Z.to_nat i)
          = Some (mkTimeSeries
                    [("__name__"%string, "mimir_continuous_test_sine_wave"%string);
                     ("series_id"%string, Itoa i)]
                    [(generateSineWaveValue (fun x => x) Scenario.now,
                      UnixMilli Scenario.now)] []))
    /\ NoDup (map ts_Labels out).
Proof.
  apply (generateSineWaveSeries_batch (fun x => x) "mimir_continuous_test_sine_wave"
           Scenario.now 3).
  lia.
Defined.

(** [generateHistogramSeriesInner], for a number of series that is
    not negative: the batch has [numSeries] series; series [i] is labelled
    with the metric name and [series_id] = [i] in decimal, and holds no float
    sample and one histogram, the one [histogramGenerator] returns for [t],
    the same for every series; no two series of the batch have the same
    labels. *)
Theorem generateHistogramSeriesInner_batch {H : Type} (name : string) (t : Time)
    (numSeries : Z) (histogramGenerator : Time -> H) :
  0 <= numSeries ->
  exists out,
    generateHistogramSeriesInner name t numSeries histogramGenerator = Some out
    /\ Z.of_nat (length out) = numSeries
    /\ (forall i, 0 <= i < numSeries ->
          nth_error out (Z.to_nat i)
          = Some (mkTimeSeries [("__name__"%string, name); ("series_id"%string, Itoa i)]
                    [] [histogramGenerator t]))
    /\ NoDup (map ts_Labels out).
Proof.
  intros Hn. unfold generateHistogramSeriesInner.
  replace (numSeries <? 0) with false by (symmetry; apply Z.ltb_ge; lia).
  eexists. split; [reflexivity|].
  apply (appendSeries_batch _ name numSeries Hn). reflexivity.
Qed.

Lemma generateHistogramSeriesInner_batch_witness :
  exists out,
    generateHistogramSeriesInner "mimir_continuous_test_histogram_int_counter"
      Scenario.now 2
      (fun t => IntHist (generateIntHistogram (generateHistogramIntValue t false) false))
    = Some out
    /\ Z.of_nat (length out) = 2
    /\ (forall i, 0 <= i < 2 ->
          nth_error out (Z.to_nat i)
          = Some (mkTimeSeries
                    [("__name__"%string,
                      "mimir_continuous_test_histogram_int_counter"%string);
                     ("series_id"%string, Itoa i)]
                    []
                    [IntHist (generateIntHistogram
                                (generateHistogramIntValue Scenario.now false) false)]))
    /\ NoDup (map ts_Labels out).
Proof.
  apply (generateHistogramSeriesInner_batch "mimir_continuous_test_histogram_int_counter"
           Scenario.now 2
           (fun t => IntHist (generateIntHistogram (generateHistogramIntValue t false) false))).
  lia.
Defined.

(** ** The write loop *)

Lemma writeSamples_advances (response : Z * option Errors.error) (timestamp : Time)
    (records : MetricHistory) :
  Z.quot (fst response) 100 = 4 \/ succeeded response = true ->
  exists records',
    writeSamples response timestamp records = (records', None)
    /\ lastWrittenTimestamp records' = timestamp
    /\ (succeeded response = true ->
        queryMaxTime records' = timestamp
        /\ queryMinTime records'
           = if IsZero (queryMinTime records) then timestamp else queryMinTime records).
Proof.
  destruct response as [statusCode err]. cbn [fst]. intros H.
  destruct (Z.eq_dec (Z.quot statusCode 100) 4) as [H4|H4].
  - rewrite writeSamples_4xx by assumption. eexists. split; [reflexivity|].
    split; [reflexivity|]. unfold succeeded. destruct err; [discriminate|].
    rewrite H4. discriminate.
  - destruct H as [H|H]; [contradiction|]. unfold succeeded in H.
    destruct err; [discriminate|]. apply Z.eqb_eq in H.
    rewrite writeSamples_2xx by assumption. eexists. split; [reflexivity|].
    cbn [lastWrittenTimestamp queryMinTime queryMaxTime]. auto.
Qed.

Section WriteLoopFacts.

Variable WaitN : nat -> option Errors.error.
Variable WriteSeries : nat -> Time -> Z * option Errors.error.
Variable now : Time.

Hypothesis limiter_ok : forall n, WaitN n = None.
Hypothesis writes_advance :
  forall n ts, Z.quot (fst (WriteSeries n ts)) 100 = 4 \/ succeeded (WriteSeries n ts) = true.

Lemma writeLoop_from_last (fuel : nat) :
  forall (records : MetricHistory) (call : nat) (errs : list Errors.error),
    0 < lastWrittenTimestamp records ->
    let pending := Z.max 0 ((now - lastWrittenTimestamp records) / writeInterval) in
    (Z.to_nat pending < fuel)%nat ->
    exists result,
      writeLoop WaitN WriteSeries fuel call now records errs = Some result
      /\ wl_exit result = LoopFinished
      /\ wl_errs result = errs
      /\ wl_writes result = (call + Z.to_nat pending)%nat
      /\ lastWrittenTimestamp (wl_records result)
         = lastWrittenTimestamp records + pending * writeInterval
      /\ (pending = 0 -> wl_records result = records)
      /\ ((forall n ts, succeeded (WriteSeries n ts) = true) ->
          0 < pending ->
          queryMaxTime (wl_records result) = lastWrittenTimestamp (wl_records result)
          /\ queryMinTime (wl_records result)
             = if IsZero (queryMinTime records)
               then lastWrittenTimestamp records + writeInterval
               else queryMinTime records).
Proof.
  assert (Hw : 0 < writeInterval) by reflexivity.
  induction fuel as [|fuel IH]; intros records call errs HL pending Hfuel; [lia|].
  cbn [writeLoop]. unfold nextWriteTimestamp.
  replace (IsZero (lastWrittenTimestamp records)) with false
    by (symmetry; apply Z.eqb_neq; lia).
  set (L := lastWrittenTimestamp records) in *.
  unfold After, Add.
  destruct (Z.ltb_spec now (L + writeInterval)) as [Hdone|Hmore].
  - assert (Hp : pending = 0).
    { unfold pending.
      assert ((now - L) / writeInterval < 1) by (apply Z.div_lt_upper_bound; lia). lia. }
    eexists. split; [reflexivity|]. cbn [wl_exit wl_errs wl_writes wl_records].
    rewrite Hp. repeat split; try reflexivity; try lia.
  - assert (Hp : pending = (now - (L + writeInterval)) / writeInterval + 1).
    { unfold pending.
      replace (now - L) with (now - (L + writeInterval) + 1 * writeInterval) by lia.
      rewrite Z.div_add by lia.
      assert (0 <= (now - (L + writeInterval)) / writeInterval)
        by (apply Z.div_pos; lia).
      lia. }
    assert (Hq : 0 <= (now - (L + writeInterval)) / writeInterval)
      by (apply Z.div_pos; lia).
    rewrite limiter_ok.
    destruct (writeSamples_advances (WriteSeries call (L + writeInterval))
                (L + writeInterval) records (writes_advance _ _))
      as (records' & -> & HL' & Hsucc).
    destruct (IH records' (S call) errs) as (result & -> & He & Hr & Hc & Hl & Hz & Hs).
    + rewrite HL'. lia.
    + rewrite HL'. lia.
    + rewrite HL' in Hc, Hl, Hz, Hs.
      rewrite Z.max_r in Hc, Hl, Hz, Hs by assumption.
      exists result. split; [reflexivity|]. split; [exact He|]. split; [exact Hr|].
      split; [rewrite Hc; lia|]. split; [rewrite Hl; lia|]. split; [lia|].
      intros Hall _. specialize (Hsucc (Hall _ _)). destruct Hsucc as [Hmax Hmin].
      destruct (Z.eq_dec ((now - (L + writeInterval)) / writeInterval) 0) as [E0|E0].
      * rewrite (Hz E0), Hmax, HL', Hmin. split; reflexivity.
      * destruct (Hs Hall ltac:(lia)) as [Hs1 Hs2]. split; [exact Hs1|].
        rewrite Hs2, Hmin. unfold IsZero.
        destruct (Z.eqb_spec (queryMinTime records) 0) as [Ez|Ez].
        -- replace (L + writeInterval =? 0) with false
             by (symmetry; apply Z.eqb_neq; lia). reflexivity.
        -- replace (queryMinTime records =? 0) with false
             by (symmetry; now apply Z.eqb_neq). reflexivity.
Qed.

End WriteLoopFacts.

(** The write loop catches up.  Let the rate limiter never fail and
    every write be answered with a 4xx status or succeed (2xx without an
    error), at a clock at least one write interval after the zero time and
    from a history whose last written timestamp is zero or later.  Then the
    loop ends normally with no new error after exactly the pending writes:
    one, at [now] aligned, for a history never written; one for each write
    interval between the last written timestamp and [now] otherwise.  The
    last written timestamp ends less than one write interval before [now];
    when every write succeeds, [queryMaxTime] ends equal to it. *)
Theorem write_loop_catches_up
    (WaitN : nat -> option Errors.error)
    (WriteSeries : nat -> Time -> Z * option Errors.error)
    (now : Time) (records : MetricHistory) (call fuel : nat) (errs : list Errors.error) :
  writeInterval <= now ->
  0 <= lastWrittenTimestamp records ->
  (forall n, WaitN n = None) ->
  (forall n ts,
     Z.quot (fst (WriteSeries n ts)) 100 = 4 \/ succeeded (WriteSeries n ts) = true) ->
  let pending :=
    if IsZero (lastWrittenTimestamp records) then 1
    else Z.max 0 ((now - lastWrittenTimestamp records) / writeInterval) in
  (Z.to_nat pending < fuel)%nat ->
  exists result,
    writeLoop WaitN WriteSeries fuel call now records errs = Some result
    /\ wl_exit result = LoopFinished
    /\ wl_errs result = errs
    /\ wl_writes result = (call + Z.to_nat pending)%nat
    /\ lastWrittenTimestamp (wl_records result)
       = (if IsZero (lastWrittenTimestamp records)
          then alignTimestampToInterval now writeInterval
          else lastWrittenTimestamp records + pending * writeInterval)
    /\ (0 < pending ->
        now - writeInterval < lastWrittenTimestamp (wl_records result) <= now)
    /\ (pending = 0 -> wl_records result = records)
    /\ ((forall n ts, succeeded (WriteSeries n ts) = true) ->
        0 < pending ->
        queryMaxTime (wl_records result) = lastWrittenTimestamp (wl_records result)).
Proof.
  intros Hnow HL Hwait Hadv pending Hfuel.
  assert (Hw : 0 < writeInterval) by reflexivity.
  unfold IsZero in *.
  destruct (Z.eqb_spec (lastWrittenTimestamp records) 0) as [Ez|Ez].
  - destruct fuel as [|fuel]; [lia|].
    cbn [writeLoop]. unfold nextWriteTimestamp, IsZero. rewrite Ez. cbn [Z.eqb].
    set (ts := alignTimestampToInterval now writeInterval).
    assert (Hts : now - writeInterval < ts <= now).
    { unfold ts, alignTimestampToInterval.
      split; [now apply Truncate_gt|apply Truncate_le]. }
    assert (Hpos : writeInterval <= ts).
    { unfold ts, alignTimestampToInterval.
      rewrite <- (Truncate_aligned writeInterval writeInterval) at 1
        by (apply Z.mod_same; lia).
      now apply Truncate_mono. }
    unfold After. replace (now <? ts) with false by (symmetry; apply Z.ltb_ge; lia).
    rewrite Hwait.
    destruct (writeSamples_advances (WriteSeries call ts) ts records (Hadv _ _))
      as (records' & -> & HL' & Hsucc).
    destruct (writeLoop_from_last WaitN WriteSeries now Hwait Hadv fuel records' (S call) errs)
      as (result & -> & He & Hr & Hc & Hl & Hz & Hs).
    + rewrite HL'. lia.
    + rewrite HL'.
      assert ((now - ts) / writeInterval < 1) by (apply Z.div_lt_upper_bound; lia).
      unfold pending in Hfuel. lia.
    + rewrite HL' in Hc, Hl, Hz.
      assert (E0 : Z.max 0 ((now - ts) / writeInterval) = 0).
      { assert ((now - ts) / writeInterval < 1) by (apply Z.div_lt_upper_bound; lia). lia. }
      rewrite E0 in Hc, Hl, Hz.
      exists result. split; [reflexivity|]. split; [exact He|]. split; [exact Hr|].
      split; [unfold pending; rewrite Hc; lia|]. split; [rewrite Hl; lia|].
      split; [intros _; rewrite Hl; lia|]. split; [unfold pending; lia|].
      intros Hall _. rewrite (Hz eq_refl), HL'. now apply Hsucc.
  - destruct (writeLoop_from_last WaitN WriteSeries now Hwait Hadv fuel records call errs)
      as (result & -> & He & Hr & Hc & Hl & Hz & Hs); [lia|exact Hfuel|].
    exists result. split; [reflexivity|]. split; [exact He|]. split; [exact Hr|].
    split; [exact Hc|]. split; [exact Hl|]. split; [|split; [exact Hz|]].
    + intros Hp. rewrite Hl. fold pending. unfold pending in *.
      set (L := lastWrittenTimestamp records) in *.
      assert (Hq : 0 < (now - L) / writeInterval) by lia.
      pose proof (Z.div_mod (now - L) writeInterval ltac:(lia)).
      pose proof (Z.mod_pos_bound (now - L) writeInterval Hw).
      rewrite Z.max_r by lia. nia.
    + intros Hall Hp. now apply Hs.
Qed.

Lemma write_loop_catches_up_witness :
  let WaitN := fun _ : nat => @None Errors.error in
  let WriteSeries := fun (_ : nat) (_ : Time) => (200, @None Errors.error) in
  let pending :=
    if IsZero (lastWrittenTimestamp recentHistory) then 1
    else Z.max 0 ((Scenario.now - lastWrittenTimestamp recentHistory) / writeInterval) in
  pending = 15
  /\ exists result,
       writeLoop WaitN WriteSeries 16 0 Scenario.now recentHistory [] = Some result
       /\ wl_exit result = LoopFinished
       /\ wl_errs result = []
       /\ wl_writes result = (0 + Z.to_nat pending)%nat
       /\ lastWrittenTimestamp (wl_records result)
          = (if IsZero (lastWrittenTimestamp recentHistory)
             then alignTimestampToInterval Scenario.now writeInterval
             else lastWrittenTimestamp recentHistory + pending * writeInterval)
       /\ (0 < pending ->
           Scenario.now - writeInterval < lastWrittenTimestamp (wl_records result)
           <= Scenario.now)
       /\ (pending = 0 -> wl_records result = recentHistory)
       /\ ((forall n ts, succeeded (WriteSeries n ts) = true) ->
           0 < pending ->
           queryMaxTime (wl_records result) = lastWrittenTimestamp (wl_records result)).
Proof.
  intros WaitN WriteSeries pending. split; [vm_compute; reflexivity|].
  apply (write_loop_catches_up WaitN WriteSeries Scenario.now recentHistory 0 16 []).
  - vm_compute. discriminate.
  - vm_compute. discriminate.
  - reflexivity.
  - intros n ts. right. reflexivity.
  - vm_compute. lia.
Defined.

(** ** The query planner: bounds of the ranges and instants *)

Lemma maxTime_max (a b : Time) : maxTime a b = Z.max a b.
Proof. unfold maxTime, After. destruct (Z.ltb_spec b a); lia. Qed.

Lemma minTime_min (a b : Time) : minTime a b = Z.min a b.
Proof. unfold minTime, After. destruct (Z.ltb_spec b a); lia. Qed.




(** ** The queries of a run *)

Lemma maxTime_aligned (a b : Time) :
  a mod writeInterval = 0 -> b mod writeInterval = 0 -> maxTime a b mod writeInterval = 0.
Proof. intros Ha Hb. unfold maxTime. now destruct (After a b). Qed.

Lemma minTime_aligned (a b : Time) :
  a mod writeInterval = 0 -> b mod writeInterval = 0 -> minTime a b mod writeInterval = 0.
Proof. intros Ha Hb. unfold minTime. now destruct (After a b). Qed.

Lemma alignTimestampToInterval_aligned (ts : Time) :
  alignTimestampToInterval ts writeInterval mod writeInterval = 0.
Proof. apply Truncate_multiple. reflexivity. Qed.

Lemma paired_nil : paired [].
Proof. now exists []. Qed.

Lemma paired_app (calls : list QueryCall) (request : bool -> QueryCall) :
  paired calls -> paired ((calls ++ [request true]) ++ [request false]).
Proof.
  intros [requests ->]. exists (requests ++ [request]).
  rewrite flat_map_app, <- app_assoc. cbn [flat_map app]. reflexivity.
Qed.

Lemma adds_refl (records : MetricHistory) (st : QueryState) : adds records [] 0 st st.
Proof.
  unfold adds. cbn [length]. rewrite app_nil_r, !Nat.add_0_r.
  repeat split; auto.
Qed.

Lemma callOk_range (records : MetricHistory) (start endT : Time) (cache : bool) :
  let s := maxTime (queryMinTime records) (alignTimestampToInterval start writeInterval) in
  let e := minTime (queryMaxTime records) (alignTimestampToInterval endT writeInterval) in
  Before e s = false ->
  callOk records (RangeCall s e (getQueryStep s e writeInterval) cache).
Proof.
  intros s e Hb. unfold Before in Hb. apply Z.ltb_ge in Hb.
  destruct (getQueryStep_spec s e writeInterval) as (G1 & G2 & G3 & _);
    [unfold writeInterval, Second; lia|].
  cbn [callOk]. unfold s, e in *. rewrite maxTime_max, minTime_min in *.
  repeat split; try assumption; lia.
Qed.

Section QueryFacts.

Variable cfg : WriteReadSeriesTestConfig.
Variable QueryRangeAt : nat -> Time -> Time -> Duration -> bool -> QueryResult.
Variable QueryAt : nat -> Time -> bool -> VectorResult.
Variable generateValue : Time -> float.

(** A range query sends at most one request, the one of the clamped and
    aligned range. *)
Lemma runRange_adds (start endT : Time) (cache : bool) (records : MetricHistory)
    (st : QueryState) :
  let s := maxTime (queryMinTime records) (alignTimestampToInterval start writeInterval) in
  let e := minTime (queryMaxTime records) (alignTimestampToInterval endT writeInterval) in
  let result :=
    runRangeQueryAndVerifyResult cfg QueryRangeAt generateValue start endT cache records st in
  let new :=
    if Before e s then [] else [RangeCall s e (getQueryStep s e writeInterval) cache] in
  exists n,
    qs_calls (snd result) = qs_calls st ++ new
    /\ queriesTotal (qs_metrics (snd result))
       = (queriesTotal (qs_metrics st) + length new)%nat
    /\ (queriesFailedTotal (qs_metrics (snd result))
        + queryResultChecksTotal (qs_metrics (snd result))
        = queriesFailedTotal (qs_metrics st) + queryResultChecksTotal (qs_metrics st)
          + length new)%nat
    /\ failures (snd result) = (failures st + n)%nat
    /\ (queryResultChecksFailedTotal (qs_metrics (snd result))
        + queryResultChecksTotal (qs_metrics st)
        <= queryResultChecksFailedTotal (qs_metrics st)
           + queryResultChecksTotal (qs_metrics (snd result)))%nat
    /\ Forall (callOk records) new
    /\ (alignedHistory records -> Forall callAligned new)
    /\ (forall errs, length (addError errs (fst result)) = (length errs + n)%nat).
Proof.
  intros s e result new. unfold result, runRangeQueryAndVerifyResult.
  fold s. fold e. unfold new.
  destruct (Before e s) eqn:Eb.
  - exists 0%nat. cbn [fst snd length addError]. rewrite app_nil_r, !Nat.add_0_r.
    repeat split; auto.
  - pose proof (callOk_range records start endT cache Eb) as Hok.
    assert (Hal : alignedHistory records ->
                  Forall callAligned [RangeCall s e (getQueryStep s e writeInterval) cache]).
    { intros (_ & Hmin & Hmax). constructor; [|constructor]. cbn [callAligned]. split.
      - apply maxTime_aligned; [assumption|apply alignTimestampToInterval_aligned].
      - apply minTime_aligned; [assumption|apply alignTimestampToInterval_aligned]. }
    destruct (QueryRangeAt _ _ _ _ _) as [matrix|err].
    + destruct (snd (verifySamplesSum _ _ _ matrix)) as [verr|].
      * exists 1%nat. unfold failures.
        cbn [fst snd length addError countQuery countQueryFailed countCheck countCheckFailed
             qs_metrics qs_calls queriesTotal queriesFailedTotal queryResultChecksTotal
             queryResultChecksFailedTotal].
        repeat split; auto; try lia.
        intros errs. rewrite length_app. cbn [length]. lia.
      * exists 0%nat. unfold failures.
        cbn [fst snd length addError countQuery countQueryFailed countCheck countCheckFailed
             qs_metrics qs_calls queriesTotal queriesFailedTotal queryResultChecksTotal
             queryResultChecksFailedTotal].
        repeat split; auto; try lia.
    + exists 1%nat. unfold failures.
      cbn [fst snd length addError countQuery countQueryFailed countCheck countCheckFailed
           qs_metrics qs_calls queriesTotal queriesFailedTotal queryResultChecksTotal
           queryResultChecksFailedTotal].
      repeat split; auto; try lia.
      intros errs. rewrite length_app. cbn [length]. lia.
Qed.

Lemma runInstant_adds (ts : Time) (cache : bool) (records : MetricHistory)
    (st : QueryState) :
  let t := maxTime (queryMinTime records) (alignTimestampToInterval ts writeInterval) in
  let result :=
    runInstantQueryAndVerifyResult cfg QueryAt generateValue ts cache records st in
  let new := if Before (queryMaxTime records) t then [] else [InstantCall t cache] in
  exists n,
    qs_calls (snd result) = qs_calls st ++ new
    /\ queriesTotal (qs_metrics (snd result))
       = (queriesTotal (qs_metrics st) + length new)%nat
    /\ (queriesFailedTotal (qs_metrics (snd result))
        + queryResultChecksTotal (qs_metrics (snd result))
        = queriesFailedTotal (qs_metrics st) + queryResultChecksTotal (qs_metrics st)
          + length new)%nat
    /\ failures (snd result) = (failures st + n)%nat
    /\ (queryResultChecksFailedTotal (qs_metrics (snd result))
        + queryResultChecksTotal (qs_metrics st)
        <= queryResultChecksFailedTotal (qs_metrics st)
           + queryResultChecksTotal (qs_metrics (snd result)))%nat
    /\ Forall (callOk records) new
    /\ (alignedHistory records -> Forall callAligned new)
    /\ (forall errs, length (addError errs (fst result)) = (length errs + n)%nat).
Proof.
  intros t result new. unfold result, runInstantQueryAndVerifyResult.
  fold t. unfold new.
  destruct (Before (queryMaxTime records) t) eqn:Eb.
  - exists 0%nat. cbn [fst snd length addError]. rewrite app_nil_r, !Nat.add_0_r.
    repeat split; auto.
  - assert (Hok : callOk records (InstantCall t cache)).
    { unfold Before in Eb. apply Z.ltb_ge in Eb. cbn [callOk].
      split; [|exact Eb]. unfold t. rewrite maxTime_max. lia. }
    assert (Hal : alignedHistory records -> Forall callAligned [InstantCall t cache]).
    { intros (_ & Hmin & Hmax). constructor; [|constructor]. cbn [callAligned].
      apply maxTime_aligned; [assumption|apply alignTimestampToInterval_aligned]. }
    destruct (QueryAt _ _ _) as [vector|err].
    + destruct (snd (verifySamplesSum _ _ _ (vectorToMatrix vector))) as [verr|].
      * exists 1%nat. unfold failures.
        cbn [fst snd length addError countQuery countQueryFailed countCheck countCheckFailed
             qs_metrics qs_calls queriesTotal queriesFailedTotal queryResultChecksTotal
             queryResultChecksFailedTotal].
        repeat split; auto; try lia.
        intros errs. rewrite length_app. cbn [length]. lia.
      * exists 0%nat. unfold failures.
        cbn [fst snd length addError countQuery countQueryFailed countCheck countCheckFailed
             qs_metrics qs_calls queriesTotal queriesFailedTotal queryResultChecksTotal
             queryResultChecksFailedTotal].
        repeat split; auto; try lia.
    + exists 1%nat. unfold failures.
      cbn [fst snd length addError countQuery countQueryFailed countCheck countCheckFailed
           qs_metrics qs_calls queriesTotal queriesFailedTotal queryResultChecksTotal
           queryResultChecksFailedTotal].
      repeat split; auto; try lia.
      intros errs. rewrite length_app. cbn [length]. lia.
Qed.

(** The two queries of a range, with the results cache enabled and then
    disabled, send the same request or none. *)
Lemma runRange_pair (start endT : Time) (records : MetricHistory)
    (errs : list TestError) (st : QueryState) :
  let first :=
    runRangeQueryAndVerifyResult cfg QueryRangeAt generateValue start endT true records st in
  let second :=
    runRangeQueryAndVerifyResult cfg QueryRangeAt generateValue start endT false records
      (snd first) in
  exists new n,
    adds records new n st (snd second)
    /\ length (addError (addError errs (fst first)) (fst second)) = (length errs + n)%nat.
Proof.
  intros first second.
  destruct (runRange_adds start endT true records st)
    as (n1 & A1 & A2 & A3 & A4 & A5 & A6 & A7 & A8).
  destruct (runRange_adds start endT false records (snd first))
    as (n2 & B1 & B2 & B3 & B4 & B5 & B6 & B7 & B8).
  fold first in A1, A2, A3, A4, A5, A8. fold second in B1, B2, B3, B4, B5, B8.
  eexists. exists (n1 + n2)%nat. split.
  - unfold adds. split; [rewrite B1, A1, <- app_assoc; reflexivity|].
    rewrite length_app.
    split; [lia|]. split; [lia|]. split; [lia|]. split; [lia|].
    split; [apply Forall_app; auto|].
    split; [intros H; apply Forall_app; auto|].
    intros Hp. rewrite B1, A1.
    destruct (Before _ _); [now rewrite !app_nil_r|].
    exact (paired_app (qs_calls st) (fun c => RangeCall _ _ _ c) Hp).
  - rewrite B8, A8. lia.
Qed.

Lemma runInstant_pair (ts : Time) (records : MetricHistory)
    (errs : list TestError) (st : QueryState) :
  let first :=
    runInstantQueryAndVerifyResult cfg QueryAt generateValue ts true records st in
  let second :=
    runInstantQueryAndVerifyResult cfg QueryAt generateValue ts false records (snd first) in
  exists new n,
    adds records new n st (snd second)
    /\ length (addError (addError errs (fst first)) (fst second)) = (length errs + n)%nat.
Proof.
  intros first second.
  destruct (runInstant_adds ts true records st)
    as (n1 & A1 & A2 & A3 & A4 & A5 & A6 & A7 & A8).
  destruct (runInstant_adds ts false records (snd first))
    as (n2 & B1 & B2 & B3 & B4 & B5 & B6 & B7 & B8).
  fold first in A1, A2, A3, A4, A5, A8. fold second in B1, B2, B3, B4, B5, B8.
  eexists. exists (n1 + n2)%nat. split.
  - unfold adds. split; [rewrite B1, A1, <- app_assoc; reflexivity|].
    rewrite length_app.
    split; [lia|]. split; [lia|]. split; [lia|]. split; [lia|].
    split; [apply Forall_app; auto|].
    split; [intros H; apply Forall_app; auto|].
    intros Hp. rewrite B1, A1.
    destruct (Before _ _); [now rewrite !app_nil_r|].
    exact (paired_app (qs_calls st) (fun c => InstantCall _ c) Hp).
  - rewrite B8, A8. lia.
Qed.

Lemma adds_trans (records : MetricHistory) (new1 new2 : list QueryCall)
    (e1 e2 : nat) (st1 st2 st3 : QueryState) :
  adds records new1 e1 st1 st2 -> adds records new2 e2 st2 st3 ->
  adds records (new1 ++ new2) (e1 + e2) st1 st3.
Proof.
  unfold adds. intros (A1 & A2 & A3 & A4 & A5 & A6 & A7 & A8)
                      (B1 & B2 & B3 & B4 & B5 & B6 & B7 & B8).
  rewrite length_app.
  split; [rewrite B1, A1; now rewrite app_assoc|].
  split; [lia|]. split; [lia|]. split; [lia|]. split; [lia|].
  split; [apply Forall_app; auto|].
  split; [intros H; apply Forall_app; auto|auto].
Qed.

Lemma runRangeQueries_adds (ranges : list (Time * Time)) (records : MetricHistory) :
  forall (errs : list TestError) (st : QueryState),
    let result := runRangeQueries cfg QueryRangeAt generateValue ranges records errs st in
    exists new n,
      adds records new n st (snd result)
      /\ length (fst result) = (length errs + n)%nat.
Proof.
  induction ranges as [|[start endT] rest IH]; intros errs st; cbn [runRangeQueries].
  - exists [], 0%nat. cbn [fst snd]. split; [apply adds_refl|lia].
  - destruct (runRange_pair start endT records errs st) as (new1 & n1 & HA & HL).
    destruct (runRangeQueryAndVerifyResult cfg QueryRangeAt generateValue start endT true
                records st) as [err1 st1].
    cbn [fst snd] in HA, HL.
    destruct (runRangeQueryAndVerifyResult cfg QueryRangeAt generateValue start endT false
                records st1) as [err2 st2].
    cbn [fst snd] in HA, HL.
    destruct (IH (addError (addError errs err1) err2) st2) as (new2 & n2 & HB & HM).
    exists (new1 ++ new2), (n1 + n2)%nat.
    split; [exact (adds_trans _ _ _ _ _ _ _ _ HA HB)|]. rewrite HM, HL. lia.
Qed.

Lemma runInstantQueries_adds (instants : list Time) (records : MetricHistory) :
  forall (errs : list TestError) (st : QueryState),
    let result := runInstantQueries cfg QueryAt generateValue instants records errs st in
    exists new n,
      adds records new n st (snd result)
      /\ length (fst result) = (length errs + n)%nat.
Proof.
  induction instants as [|ts rest IH]; intros errs st; cbn [runInstantQueries].
  - exists [], 0%nat. cbn [fst snd]. split; [apply adds_refl|lia].
  - destruct (runInstant_pair ts records errs st) as (new1 & n1 & HA & HL).
    destruct (runInstantQueryAndVerifyResult cfg QueryAt generateValue ts true
                records st) as [err1 st1].
    cbn [fst snd] in HA, HL.
    destruct (runInstantQueryAndVerifyResult cfg QueryAt generateValue ts false
                records st1) as [err2 st2].
    cbn [fst snd] in HA, HL.
    destruct (IH (addError (addError errs err1) err2) st2) as (new2 & n2 & HB & HM).
    exists (new1 ++ new2), (n1 + n2)%nat.
    split; [exact (adds_trans _ _ _ _ _ _ _ _ HA HB)|]. rewrite HM, HL. lia.
Qed.

End QueryFacts.

Lemma getQueryTimeRanges_error_empty (cfg : WriteReadSeriesTestConfig) (rnd1 rnd2 : Z -> Z)
    (now : Time) (records : MetricHistory) :
  snd (getQueryTimeRanges cfg rnd1 rnd2 now records) <> None ->
  fst (getQueryTimeRanges cfg rnd1 rnd2 now records) = ([], []).
Proof.
  unfold getQueryTimeRanges.
  destruct (IsZero (queryMinTime records) || IsZero (queryMaxTime records));
    [reflexivity|].
  destruct (Before (queryMaxTime records) _); [reflexivity|].
  destruct (After _ _); destruct (After _ _ && Before _ _);
    destruct (Before _ _ && After _ _); cbn [snd]; congruence.
Qed.

Lemma adds_from_noQueries (records : MetricHistory) (new : list QueryCall) (n : nat)
    (st : QueryState) :
  adds records new n noQueries st ->
  countersOk st /\ paired (qs_calls st) /\ Forall (callOk records) (qs_calls st)
  /\ (alignedHistory records -> Forall callAligned (qs_calls st))
  /\ failures st = n /\ qs_calls st = new.
Proof.
  unfold adds, countersOk, failures.
  cbn [noQueries qs_metrics qs_calls queriesTotal queriesFailedTotal
       queryResultChecksTotal queryResultChecksFailedTotal app Nat.add].
  intros (A1 & A2 & A3 & A4 & A5 & A6 & A7 & A8).
  rewrite A1. repeat split; auto; try lia.
  rewrite <- A1. apply A8, paired_nil.
Qed.

Section RunFacts.

Variable cfg : WriteReadSeriesTestConfig.
Variable QueryRangeAt : nat -> Time -> Time -> Duration -> bool -> QueryResult.
Variable QueryAt : nat -> Time -> bool -> VectorResult.
Variable generateValue : Time -> float.
Variable WaitN : nat -> option Errors.error.
Variable WriteSeries : nat -> Time -> Z * option Errors.error.
Variable rnd1 rnd2 : Z -> Z.

(** The query phase of [RunInner], from the history the write loop left. *)
Lemma query_phase (now : Time) (records : MetricHistory) (errs : list TestError) :
  let plan := getQueryTimeRanges cfg rnd1 rnd2 now records in
  let errs1 := addError errs (option_map PlainError (snd plan)) in
  let ranged :=
    runRangeQueries cfg QueryRangeAt generateValue (fst (fst plan)) records errs1 noQueries in
  let done :=
    runInstantQueries cfg QueryAt generateValue (snd (fst plan)) records (fst ranged)
      (snd ranged) in
  countersOk (snd done)
  /\ paired (qs_calls (snd done))
  /\ Forall (callOk records) (qs_calls (snd done))
  /\ (alignedHistory records -> Forall callAligned (qs_calls (snd done)))
  /\ length (fst done)
     = (length errs + match snd plan with Some _ => 1 | None => 0 end + failures (snd done))%nat
  /\ (snd plan <> None -> snd done = noQueries).
Proof.
  intros plan errs1 ranged done.
  destruct (runRangeQueries_adds cfg QueryRangeAt generateValue (fst (fst plan)) records
              errs1 noQueries) as (new1 & n1 & HA & HL).
  fold ranged in HA, HL.
  destruct (runInstantQueries_adds cfg QueryAt generateValue (snd (fst plan)) records
              (fst ranged) (snd ranged)) as (new2 & n2 & HB & HM).
  fold done in HB, HM.
  pose proof (adds_trans _ _ _ _ _ _ _ _ HA HB) as HC.
  destruct (adds_from_noQueries _ _ _ _ HC) as (C1 & C2 & C3 & C4 & C5 & C6).
  split; [exact C1|]. split; [exact C2|]. split; [exact C3|]. split; [exact C4|].
  split.
  - rewrite HM, HL, C5. unfold errs1.
    destruct (snd plan); cbn [option_map addError]; [rewrite length_app; cbn [length]|]; lia.
  - intros Hp. unfold done, ranged.
    rewrite (surjective_pairing (fst plan)).
    unfold plan. rewrite (getQueryTimeRanges_error_empty cfg rnd1 rnd2 now records Hp).
    reflexivity.
Qed.

End RunFacts.

(** The requests of a run.  Whatever the clients answer, the
    requests [RunInner] sends and the query counters it keeps are well
    formed: every request is counted in [queriesTotal], every counted query
    either failed or had its result checked, and no more checks failed than
    were made; the requests come in pairs, each with the results cache
    enabled and then disabled; every request lies within
    [[queryMinTime, queryMaxTime]] of the history the writes left, every
    range is in order with a step that is a positive multiple of the write
    interval giving at most [maxSamples] steps; and when the history was
    aligned to the write interval before the run, so is every instant
    requested. *)
Theorem RunInner_requests
    (cfg : WriteReadSeriesTestConfig)
    (QueryRangeAt : nat -> Time -> Time -> Duration -> bool -> QueryResult)
    (QueryAt : nat -> Time -> bool -> VectorResult)
    (generateValue : Time -> float)
    (WaitN : nat -> option Errors.error)
    (WriteSeries : nat -> Time -> Z * option Errors.error)
    (rnd1 rnd2 : Z -> Z) (fuel : nat) (now : Time) (records : MetricHistory)
    (result : RunResult) :
  RunInner cfg QueryRangeAt QueryAt generateValue WaitN WriteSeries rnd1 rnd2 fuel now records
  = Some result ->
  countersOk (run_queries result)
  /\ paired (qs_calls (run_queries result))
  /\ Forall (callOk (run_records result)) (qs_calls (run_queries result))
  /\ (alignedHistory records -> Forall callAligned (qs_calls (run_queries result))).
Proof.
  unfold RunInner.
  destruct (writeLoop WaitN WriteSeries fuel 0 now records []) as [written|] eqn:EW;
    [|discriminate].
  pose proof (query_phase cfg QueryRangeAt QueryAt generateValue rnd1 rnd2 now
                (wl_records written) (map PlainError (wl_errs written)))
    as (Q1 & Q2 & Q3 & Q4 & _).
  assert (Hnone : countersOk noQueries /\ paired (qs_calls noQueries)
                  /\ Forall (callOk (wl_records written)) (qs_calls noQueries)
                  /\ (alignedHistory records -> Forall callAligned (qs_calls noQueries))).
  { split; [repeat split; reflexivity|]. split; [apply paired_nil|].
    split; [constructor|intros _; constructor]. }
  assert (Hal : alignedHistory records -> alignedHistory (wl_records written))
    by (intros H; exact (writeLoop_aligned _ _ _ _ _ _ _ _ H EW)).
  destruct (getQueryTimeRanges cfg rnd1 rnd2 now (wl_records written))
    as [[queryRanges queryInstants] err].
  cbn [fst snd] in Q1, Q2, Q3, Q4.
  destruct (runRangeQueries _ _ _ queryRanges _ _ _) as [errs1 st1].
  cbn [fst snd] in Q1, Q2, Q3, Q4.
  destruct (runInstantQueries _ _ _ queryInstants _ _ _) as [errs2 st2].
  cbn [fst snd] in Q1, Q2, Q3, Q4.
  destruct Hnone as (N1 & N2 & N3 & N4).
  destruct (wl_exit written); intros [= <-]; cbn [run_queries run_records].
  - split; [exact Q1|]. split; [exact Q2|]. split; [exact Q3|]. intros H. apply Q4, Hal, H.
  - split; [exact Q1|]. split; [exact Q2|]. split; [exact Q3|]. intros H. apply Q4, Hal, H.
  - split; [exact N1|]. split; [exact N2|]. split; [exact N3|exact N4].
Qed.

Lemma RunInner_requests_witness :
  let QueryRangeAt :=
    fun (_ : nat) (_ _ : Time) (_ : Duration) (_ : bool) => QueryOk [] in
  let QueryAt := fun (_ : nat) (_ : Time) (_ : bool) => VectorOk [] in
  let WaitN := fun _ : nat => @None Errors.error in
  let WriteSeries := fun (_ : nat) (_ : Time) => (200, @None Errors.error) in
  exists result,
    RunInner Scenario.cfgWeek QueryRangeAt QueryAt Scenario.expected WaitN WriteSeries
      Scenario.draw0 Scenario.draw0 16 Scenario.now recentHistory = Some result
    /\ countersOk (run_queries result)
    /\ paired (qs_calls (run_queries result))
    /\ Forall (callOk (run_records result)) (qs_calls (run_queries result))
    /\ (alignedHistory recentHistory ->
        Forall callAligned (qs_calls (run_queries result))).
Proof.
  intros QueryRangeAt QueryAt WaitN WriteSeries.
  assert (E : exists result,
             RunInner Scenario.cfgWeek QueryRangeAt QueryAt Scenario.expected WaitN
               WriteSeries Scenario.draw0 Scenario.draw0 16 Scenario.now recentHistory
             = Some result)
    by (vm_compute; eexists; reflexivity).
  destruct E as [result E]. exists result. split; [exact E|].
  exact (RunInner_requests _ _ _ _ _ _ _ _ _ _ _ _ E).
Defined.

(** The errors of a run.  [RunInner] sends no query at all when the
    rate limiter fails during the writes, and none when
    [getQueryTimeRanges] returns an error (a zero query bound, or no data
    inside [MaxQueryAge]).  Otherwise its errors are the errors of the write
    loop, the error of [getQueryTimeRanges] if any, and exactly one error for
    each failed query and each failed result check. *)
Theorem RunInner_errors
    (cfg : WriteReadSeriesTestConfig)
    (QueryRangeAt : nat -> Time -> Time -> Duration -> bool -> QueryResult)
    (QueryAt : nat -> Time -> bool -> VectorResult)
    (generateValue : Time -> float)
    (WaitN : nat -> option Errors.error)
    (WriteSeries : nat -> Time -> Z * option Errors.error)
    (rnd1 rnd2 : Z -> Z) (fuel : nat) (now : Time) (records : MetricHistory)
    (result : RunResult) :
  RunInner cfg QueryRangeAt QueryAt generateValue WaitN WriteSeries rnd1 rnd2 fuel now records
  = Some result ->
  exists written,
    writeLoop WaitN WriteSeries fuel 0 now records [] = Some written
    /\ run_records result = wl_records written
    /\ let planError := snd (getQueryTimeRanges cfg rnd1 rnd2 now (wl_records written)) in
       (wl_exit written = LoopCanceled ->
        run_queries result = noQueries
        /\ run_errs result = map PlainError (wl_errs written))
       /\ (wl_exit written <> LoopCanceled ->
           (planError <> None -> run_queries result = noQueries)
           /\ length (run_errs result)
              = (length (wl_errs written) + match planError with Some _ => 1 | None => 0 end
                 + failures (run_queries result))%nat).
Proof.
  unfold RunInner.
  destruct (writeLoop WaitN WriteSeries fuel 0 now records []) as [written|] eqn:EW;
    [|discriminate].
  intros H. exists written. split; [reflexivity|]. revert H.
  pose proof (query_phase cfg QueryRangeAt QueryAt generateValue rnd1 rnd2 now
                (wl_records written) (map PlainError (wl_errs written)))
    as (_ & _ & _ & _ & Q5 & Q6).
  rewrite length_map in Q5.
  destruct (getQueryTimeRanges cfg rnd1 rnd2 now (wl_records written))
    as [[queryRanges queryInstants] err].
  cbn [fst snd] in Q5, Q6.
  destruct (runRangeQueries _ _ _ queryRanges _ _ _) as [errs1 st1].
  cbn [fst snd] in Q5, Q6.
  destruct (runInstantQueries _ _ _ queryInstants _ _ _) as [errs2 st2].
  cbn [fst snd] in Q5, Q6.
  destruct (wl_exit written); intros [= <-]; cbn [run_queries run_records run_errs snd];
    (split; [reflexivity|]); split; try congruence; auto.
Qed.

Lemma RunInner_errors_witness :
  let QueryRangeAt :=
    fun (_ : nat) (_ _ : Time) (_ : Duration) (_ : bool) =>
      QueryErr (Errors.New "unavailable") in
  let QueryAt := fun (_ : nat) (_ : Time) (_ : bool) => VectorOk [] in
  let WaitN := fun _ : nat => @None Errors.error in
  let WriteSeries := fun (_ : nat) (_ : Time) => (200, @None Errors.error) in
  exists result written,
    RunInner Scenario.cfgWeek QueryRangeAt QueryAt Scenario.expected WaitN WriteSeries
      Scenario.draw0 Scenario.draw0 16 Scenario.now recentHistory = Some result
    /\ writeLoop WaitN WriteSeries 16 0 Scenario.now recentHistory [] = Some written
    /\ run_records result = wl_records written
    /\ let planError :=
         snd (getQueryTimeRanges Scenario.cfgWeek Scenario.draw0 Scenario.draw0 Scenario.now
                (wl_records written)) in
       (wl_exit written = LoopCanceled ->
        run_queries result = noQueries
        /\ run_errs result = map PlainError (wl_errs written))
       /\ (wl_exit written <> LoopCanceled ->
           (planError <> None -> run_queries result = noQueries)
           /\ length (run_errs result)
              = (length (wl_errs written) + match planError with Some _ => 1 | None => 0 end
                 + failures (run_queries result))%nat).
Proof.
  intros QueryRangeAt QueryAt WaitN WriteSeries.
  assert (E : exists result,
             RunInner Scenario.cfgWeek QueryRangeAt QueryAt Scenario.expected WaitN
               WriteSeries Scenario.draw0 Scenario.draw0 16 Scenario.now recentHistory
             = Some result)
    by (vm_compute; eexists; reflexivity).
  destruct E as [result E].
  destruct (RunInner_errors _ _ _ _ _ _ _ _ _ _ _ _ E) as (written & H).
  exists result, written. split; [exact E|exact H].
Defined.

(** ** The check of an instant query *)

(** The check of an instant query that was sent and answered with a
    vector: it passes exactly when the vector has one entry and that entry
    carries the expected value at the entry's own timestamp, as a float, or,
    for an entry with a histogram, as the histogram's sum; a vector of any
    other length fails with the number of series found.  The timestamp of
    the entry is not compared with the instant queried. *)
Theorem instant_query_check
    (cfg : WriteReadSeriesTestConfig) (QueryAt : nat -> Time -> bool -> VectorResult)
    (generateValue : Time -> float) (ts : Time) (resultsCacheEnabled : bool)
    (records : MetricHistory) (st : QueryState) (vector : Vector) :
  let t := maxTime (queryMinTime records) (alignTimestampToInterval ts writeInterval) in
  let result :=
    fst (runInstantQueryAndVerifyResult cfg QueryAt generateValue ts resultsCacheEnabled
           records st) in
  Before (queryMaxTime records) t = false ->
  QueryAt (length (qs_calls st)) t resultsCacheEnabled = VectorOk vector ->
  (result = None <->
   exists entry,
     vector = [entry]
     /\ compareSampleValues
          match vs_Histogram entry with
          | None => vs_Value entry
          | Some h => sh_Sum h
          end
          (generateValue (FromUnixMilli (vs_Timestamp entry))
           * GoInt.float64_of_int64 (NumSeries cfg))%float = true)
  /\ (length vector <> 1%nat ->
      result = Some (CheckError "instant query result check failed"
                       (ErrSeriesCount (length vector)))).
Proof.
  intros t result Hb Hq. unfold result, runInstantQueryAndVerifyResult.
  fold t. rewrite Hb, Hq.
  destruct vector as [|entry [|entry' vector]].
  - cbn. split; [|reflexivity]. split; [discriminate|intros (e & H & _); discriminate].
  - split; [|cbn [length]; congruence].
    cbn [vectorToMatrix map]. unfold verifySamplesSum.
    destruct (vs_Histogram entry) as [h|] eqn:Eh;
      cbn [ss_Values ss_Histograms length Nat.ltb Nat.leb andb negb verifyLoop].
    + unfold checkHistogram.
      cbn [nth shp_Histogram shp_Timestamp length].
      change (Z.of_nat 0 <? Z.of_nat 1 - 1) with false. cbv iota.
      destruct (compareSampleValues _ _) eqn:Ec; cbn [negb snd fst].
      * split; [intros _; exists entry; rewrite Eh; auto|reflexivity].
      * split; [discriminate|]. intros (e & [= <-] & H). rewrite Eh in H. congruence.
    + unfold checkSample.
      cbn [nth sp_Value sp_Timestamp length].
      change (Z.of_nat 0 <? Z.of_nat 1 - 1) with false. cbv iota.
      destruct (compareSampleValues _ _) eqn:Ec; cbn [negb snd fst].
      * split; [intros _; exists entry; rewrite Eh; auto|reflexivity].
      * split; [discriminate|]. intros (e & [= <-] & H). rewrite Eh in H. congruence.
  - cbn [vectorToMatrix map verifySamplesSum snd fst length]. rewrite length_map.
    split; [|reflexivity].
    split; [discriminate|intros (e & H & _); discriminate].
Qed.

Lemma instant_query_check_witness :
  let entry :=
    mkVectorSample [] (Scenario.stored Scenario.newest) (Scenario.newest - 20000) None in
  let QueryAt := fun (_ : nat) (_ : Time) (_ : bool) => VectorOk [entry] in
  let result :=
    fst (runInstantQueryAndVerifyResult Scenario.cfgWeek QueryAt Scenario.expected
           (Add Scenario.now (-10 * Minute)) true recentHistory noQueries) in
  (result = None <->
   exists entry',
     [entry] = [entry']
     /\ compareSampleValues
          match vs_Histogram entry' with
          | None => vs_Value entry'
          | Some h => sh_Sum h
          end
          (Scenario.expected (FromUnixMilli (vs_Timestamp entry'))
           * GoInt.float64_of_int64 (NumSeries Scenario.cfgWeek))%float = true)
  /\ (length [entry] <> 1%nat ->
      result = Some (CheckError "instant query result check failed"
                       (ErrSeriesCount (length [entry])))).
Proof.
  intros entry QueryAt.
  apply (instant_query_check Scenario.cfgWeek QueryAt Scenario.expected
           (Add Scenario.now (-10 * Minute)) true recentHistory noQueries [entry]).
  - vm_compute. reflexivity.
  - reflexivity.
Defined.

(** ** Results of the retry middleware *)

Section RetryResults.

Variable E Response : Type.
Variable IsAPIError : E -> bool.
Variable IsCanceled : E -> bool.
Variable HTTPResponseFromError : E -> option Z.
Variable ctxErr : nat -> option E.
Variable next : nat -> Response + E.



End RetryResults.

(** ** Reading back what a run wrote *)

Section ReadBack.

Variable cfg : WriteReadSeriesTestConfig.
Variable QueryRangeAt : nat -> Time -> Time -> Duration -> bool -> QueryResult.
Variable QueryAt : nat -> Time -> bool -> VectorResult.
Variable generateValue : Time -> float.
Variable WaitN : nat -> option Errors.error.
Variable WriteSeries : nat -> Time -> Z * option Errors.error.
Variable rnd1 rnd2 : Z -> Z.
Variable now : Time.

Hypothesis clock_ok : writeInterval <= now.
Hypothesis limiter_ok : forall n, WaitN n = None.
Hypothesis writes_succeed : forall n ts, succeeded (WriteSeries n ts) = true.

Let writes_advance :
  forall n ts, Z.quot (fst (WriteSeries n ts)) 100 = 4 \/ succeeded (WriteSeries n ts) = true
  := fun n ts => or_intror (writes_succeed n ts).

(** The write loop of a run whose writes all succeed leaves a healthy
    history written up to less than one write interval before [now]. *)
Lemma writeLoop_success (records : MetricHistory) (fuel : nat) :
  records = emptyHistory \/ (healthy records /\ lastWrittenTimestamp records <= now) ->
  (Z.to_nat (Z.max 1 ((now - lastWrittenTimestamp records) / writeInterval)) < fuel)%nat ->
  exists written,
    writeLoop WaitN WriteSeries fuel 0 now records [] = Some written
    /\ wl_exit written = LoopFinished
    /\ wl_errs written = []
    /\ healthy (wl_records written)
    /\ now - writeInterval < lastWrittenTimestamp (wl_records written) <= now.
Proof.
  assert (Hw : 0 < writeInterval) by reflexivity.
  intros [->|[(Hq & Hmax) Hle]] Hfuel.
  - destruct fuel as [|fuel]; [lia|].
    cbn [writeLoop]. unfold nextWriteTimestamp, IsZero.
    cbn [emptyHistory lastWrittenTimestamp zero Z.eqb].
    set (ts := alignTimestampToInterval now writeInterval).
    assert (Hts : now - writeInterval < ts <= now).
    { unfold ts, alignTimestampToInterval.
      split; [now apply Truncate_gt|apply Truncate_le]. }
    assert (Hpos : writeInterval <= ts).
    { unfold ts, alignTimestampToInterval.
      rewrite <- (Truncate_aligned writeInterval writeInterval) at 1
        by (apply Z.mod_same; lia).
      now apply Truncate_mono. }
    unfold After. replace (now <? ts) with false by (symmetry; apply Z.ltb_ge; lia).
    rewrite limiter_ok.
    destruct (writeSamples_advances (WriteSeries 0 ts) ts emptyHistory
                (writes_advance _ _)) as (records' & -> & HL' & Hsucc).
    destruct (Hsucc (writes_succeed _ _)) as [Hmax' Hmin'].
    cbn [emptyHistory queryMinTime zero IsZero Z.eqb] in Hmin'.
    assert (E0 : Z.max 0 ((now - ts) / writeInterval) = 0).
    { assert ((now - ts) / writeInterval < 1) by (apply Z.div_lt_upper_bound; lia). lia. }
    destruct (writeLoop_from_last WaitN WriteSeries now limiter_ok writes_advance
                fuel records' 1 [])
      as (result & -> & He & Hr & _ & Hl & Hz & _).
    + rewrite HL'. lia.
    + rewrite HL', E0. cbn [emptyHistory lastWrittenTimestamp] in Hfuel. lia.
    + rewrite HL', E0 in Hl, Hz.
      exists result. split; [reflexivity|].
      split; [exact He|]. split; [exact Hr|]. rewrite (Hz eq_refl). split.
      * unfold healthy. rewrite Hmin', Hmax', HL'. lia.
      * rewrite HL'. lia.
  - set (L := lastWrittenTimestamp records) in *.
    assert (HL : 0 < L) by lia.
    destruct (writeLoop_from_last WaitN WriteSeries now limiter_ok writes_advance
                fuel records 0 [] HL)
      as (result & -> & He & Hr & _ & Hl & Hz & Hs).
    { fold L. lia. }
    fold L in Hl, Hz, Hs.
    exists result. split; [reflexivity|]. split; [exact He|]. split; [exact Hr|].
    assert (Hd : 0 <= (now - L) / writeInterval) by (apply Z.div_pos; lia).
    pose proof (Z.div_mod (now - L) writeInterval ltac:(lia)) as Hdm.
    pose proof (Z.mod_pos_bound (now - L) writeInterval Hw) as Hmb.
    rewrite Z.max_r in Hl, Hz, Hs by assumption.
    split; [|rewrite Hl; nia].
    destruct (Z.eq_dec ((now - L) / writeInterval) 0) as [E0|E0].
    + rewrite (Hz E0). split; assumption.
    + destruct (Hs writes_succeed ltac:(lia)) as [Hs1 Hs2].
      unfold healthy. rewrite Hs1, Hs2, Hl. unfold IsZero.
      replace (queryMinTime records =? 0) with false by (symmetry; apply Z.eqb_neq; lia).
      split; [|reflexivity]. nia.
Qed.

(** The plan of a healthy history written up to [now] starts with the last
    hour, up to the last written timestamp. *)
Lemma plan_last_hour (records : MetricHistory) :
  healthy records ->
  now - writeInterval < lastWrittenTimestamp records <= now ->
  writeInterval <= MaxQueryAge cfg ->
  let adjusted := maxTime (queryMinTime records) (Add now (- MaxQueryAge cfg)) in
  exists ranges instants,
    getQueryTimeRanges cfg rnd1 rnd2 now records
    = ((maxTime adjusted (Add now (-1 * Hour)), lastWrittenTimestamp records) :: ranges,
       lastWrittenTimestamp records :: instants, None)
    /\ maxTime adjusted (Add now (-1 * Hour)) <= lastWrittenTimestamp records.
Proof.
  intros (Hq & Hmax) HL Hage adjusted.
  assert (Hw : writeInterval < Hour) by reflexivity.
  assert (Hw0 : 0 < writeInterval) by reflexivity.
  unfold getQueryTimeRanges. fold adjusted.
  unfold IsZero.
  replace (queryMinTime records =? 0) with false by (symmetry; apply Z.eqb_neq; lia).
  replace (queryMaxTime records =? 0) with false by (symmetry; apply Z.eqb_neq; lia).
  cbn [orb].
  assert (Hadj : adjusted <= queryMaxTime records).
  { unfold adjusted. rewrite maxTime_max. unfold Add. lia. }
  unfold Before at 1. replace (queryMaxTime records <? adjusted) with false
    by (symmetry; apply Z.ltb_ge; lia).
  unfold After at 1. unfold Add at 1.
  replace (now + -1 * Hour <? queryMaxTime records) with true
    by (symmetry; apply Z.ltb_lt; lia).
  replace (minTime (queryMaxTime records) now) with (lastWrittenTimestamp records)
    by (rewrite minTime_min; lia).
  destruct (After _ _ && Before _ _); destruct (Before _ _ && After _ _);
    cbn [app]; (do 2 eexists; split; [reflexivity|]);
    rewrite maxTime_max; unfold Add; lia.
Qed.

End ReadBack.

(** A run reads back what it wrote.  Let the rate limiter never fail
    and every write succeed, from a history that is new or healthy (query
    bounds set and in order, newest queryable timestamp the last written
    one, not after [now]) and aligned to the write interval, with
    [MaxQueryAge] at least one write interval.  Then [RunInner] returns, the
    history it leaves is written up to less than one write interval before
    [now], and each of the following was requested with the results cache
    enabled and disabled: a range query that ends at the last written
    timestamp, and an instant query at the last written timestamp.  The
    errors of the run are then one for each failed query or check. *)
Theorem run_reads_back_writes
    (cfg : WriteReadSeriesTestConfig)
    (QueryRangeAt : nat -> Time -> Time -> Duration -> bool -> QueryResult)
    (QueryAt : nat -> Time -> bool -> VectorResult)
    (generateValue : Time -> float)
    (WaitN : nat -> option Errors.error)
    (WriteSeries : nat -> Time -> Z * option Errors.error)
    (rnd1 rnd2 : Z -> Z) (fuel : nat) (now : Time) (records : MetricHistory) :
  writeInterval <= now ->
  (forall n, WaitN n = None) ->
  (forall n ts, succeeded (WriteSeries n ts) = true) ->
  records = emptyHistory \/ (healthy records /\ lastWrittenTimestamp records <= now) ->
  alignedHistory records ->
  writeInterval <= MaxQueryAge cfg ->
  (Z.to_nat (Z.max 1 ((now - lastWrittenTimestamp records) / writeInterval)) < fuel)%nat ->
  exists result,
    RunInner cfg QueryRangeAt QueryAt generateValue WaitN WriteSeries rnd1 rnd2 fuel now
      records = Some result
    /\ healthy (run_records result)
    /\ now - writeInterval < lastWrittenTimestamp (run_records result) <= now
    /\ (exists start step,
          forall cache,
            In (RangeCall start (lastWrittenTimestamp (run_records result)) step cache)
               (qs_calls (run_queries result)))
    /\ (forall cache,
          In (InstantCall (lastWrittenTimestamp (run_records result)) cache)
             (qs_calls (run_queries result)))
    /\ length (run_errs result) = failures (run_queries result).
Proof.
  intros Hclock Hwait Hsucc Hrec Hal Hage Hfuel.
  destruct (writeLoop_success WaitN WriteSeries now Hclock Hwait Hsucc records fuel
              Hrec Hfuel) as (written & EW & He & Hr & Hh & HL).
  pose proof (writeLoop_aligned _ _ _ _ _ _ _ _ Hal EW) as Hal'.
  unfold RunInner. rewrite EW, He, Hr. cbn [map].
  set (recs := wl_records written) in *.
  destruct (plan_last_hour cfg rnd1 rnd2 now recs Hh HL Hage)
    as (ranges & instants & -> & Hstart).
  cbn [option_map addError runRangeQueries].
  set (start0 := maxTime _ (Add now (-1 * Hour))) in *.
  set (L := lastWrittenTimestamp recs) in *.
  destruct Hh as (Hq & Hmax). destruct Hal' as (HalL & Halmin & Halmax).
  fold L in Hmax, HalL, HL.
  (* the range of the last hour is not skipped *)
  set (s := maxTime (queryMinTime recs) (alignTimestampToInterval start0 writeInterval)).
  assert (He' : minTime (queryMaxTime recs) (alignTimestampToInterval L writeInterval) = L).
  { unfold alignTimestampToInterval. rewrite (Truncate_aligned L) by assumption.
    rewrite minTime_min. lia. }
  assert (Hs : s <= L).
  { unfold s. rewrite maxTime_max.
    pose proof (Truncate_le start0 writeInterval). unfold alignTimestampToInterval. lia. }
  assert (Ht : maxTime (queryMinTime recs) (alignTimestampToInterval L writeInterval) = L).
  { unfold alignTimestampToInterval. rewrite (Truncate_aligned L) by assumption.
    rewrite maxTime_max. lia. }
  destruct (runRange_adds cfg QueryRangeAt generateValue start0 L true recs noQueries)
    as (n1 & A1 & _ & _ & A4 & _ & _ & _ & A8).
  fold s in A1. rewrite He' in A1.
  replace (Before L s) with false in A1 by (symmetry; apply Z.ltb_ge; exact Hs).
  destruct (runRangeQueryAndVerifyResult cfg QueryRangeAt generateValue start0 L true recs
              noQueries) as [err1 st1].
  cbn [fst snd] in A1, A4, A8.
  destruct (runRange_adds cfg QueryRangeAt generateValue start0 L false recs st1)
    as (n2 & B1 & _ & _ & B4 & _ & _ & _ & B8).
  fold s in B1. rewrite He' in B1.
  replace (Before L s) with false in B1 by (symmetry; apply Z.ltb_ge; exact Hs).
  destruct (runRangeQueryAndVerifyResult cfg QueryRangeAt generateValue start0 L false recs
              st1) as [err2 st2].
  cbn [fst snd] in B1, B4, B8.
  destruct (runRangeQueries_adds cfg QueryRangeAt generateValue ranges recs
              (addError (addError [] err1) err2) st2)
    as (new3 & n3 & (C1 & _ & _ & C4 & _) & C8).
  destruct (runRangeQueries cfg QueryRangeAt generateValue ranges recs _ st2)
    as [errs3 st3].
  cbn [fst snd] in C1, C4, C8. cbn [runInstantQueries].
  destruct (runInstant_adds cfg QueryAt generateValue L true recs st3)
    as (n4 & D1 & _ & _ & D4 & _ & _ & _ & D8).
  rewrite Ht in D1. rewrite Hmax in D1.
  replace (Before L L) with false in D1 by (symmetry; apply Z.ltb_irrefl).
  destruct (runInstantQueryAndVerifyResult cfg QueryAt generateValue L true recs st3)
    as [err4 st4].
  cbn [fst snd] in D1, D4, D8.
  destruct (runInstant_adds cfg QueryAt generateValue L false recs st4)
    as (n5 & F1 & _ & _ & F4 & _ & _ & _ & F8).
  rewrite Ht in F1. rewrite Hmax in F1.
  replace (Before L L) with false in F1 by (symmetry; apply Z.ltb_irrefl).
  destruct (runInstantQueryAndVerifyResult cfg QueryAt generateValue L false recs st4)
    as [err5 st5].
  cbn [fst snd] in F1, F4, F8.
  destruct (runInstantQueries_adds cfg QueryAt generateValue instants recs
              (addError (addError errs3 err4) err5) st5)
    as (new6 & n6 & (G1 & _ & _ & G4 & _) & G8).
  destruct (runInstantQueries cfg QueryAt generateValue instants recs _ st5)
    as [errs6 st6].
  cbn [fst snd] in G1, G4, G8.
  eexists. split; [reflexivity|]. cbn [run_records run_queries run_errs].
  fold L. split; [split; assumption|]. split; [exact HL|].
  assert (Hcalls : qs_calls st6
                   = [RangeCall s L (getQueryStep s L writeInterval) true;
                      RangeCall s L (getQueryStep s L writeInterval) false]
                     ++ new3 ++ [InstantCall L true; InstantCall L false] ++ new6).
  { rewrite G1, F1, D1, C1, B1, A1. cbn [noQueries qs_calls app].
    rewrite <- !app_assoc. reflexivity. }
  split; [|split].
  - exists s, (getQueryStep s L writeInterval). intros cache. rewrite Hcalls.
    destruct cache; cbn [app In]; auto.
  - intros cache. rewrite Hcalls. apply in_or_app. right. apply in_or_app. right.
    destruct cache; cbn [app In]; auto.
  - rewrite G8, F8, D8, C8, B8, A8, G4, F4, D4, C4, B4, A4.
    cbn [length]. unfold failures. cbn. lia.
Qed.

Lemma run_reads_back_writes_witness :
  let QueryRangeAt :=
    fun (_ : nat) (_ _ : Time) (_ : Duration) (_ : bool) => QueryOk [] in
  let QueryAt := fun (_ : nat) (_ : Time) (_ : bool) => VectorOk [] in
  let WaitN := fun _ : nat => @None Errors.error in
  let WriteSeries := fun (_ : nat) (_ : Time) => (200, @None Errors.error) in
  exists result,
    RunInner Scenario.cfgWeek QueryRangeAt QueryAt Scenario.expected WaitN WriteSeries
      Scenario.draw0 Scenario.draw0 16 Scenario.now recentHistory = Some result
    /\ healthy (run_records result)
    /\ Scenario.now - writeInterval < lastWrittenTimestamp (run_records result)
       <= Scenario.now
    /\ (exists start step,
          forall cache,
            In (RangeCall start (lastWrittenTimestamp (run_records result)) step cache)
               (qs_calls (run_queries result)))
    /\ (forall cache,
          In (InstantCall (lastWrittenTimestamp (run_records result)) cache)
             (qs_calls (run_queries result)))
    /\ length (run_errs result) = failures (run_queries result).
Proof.
  intros QueryRangeAt QueryAt WaitN WriteSeries.
  apply (run_reads_back_writes Scenario.cfgWeek QueryRangeAt QueryAt Scenario.expected
           WaitN WriteSeries Scenario.draw0 Scenario.draw0 16 Scenario.now
           recentHistory).
  - vm_compute. discriminate.
  - reflexivity.
  - reflexivity.
  - right. vm_compute. repeat split; discriminate.
  - vm_compute. repeat split; reflexivity.
  - vm_compute. discriminate.
  - vm_compute. lia.
Defined.
